(** * Nutrition aggregation and FSSAI compliance engine (labels app)

    A shallow embedding of
    - [labels/models.py]: [Recipe.total_weight], [Recipe.calculate_nutrition],
      [Ingredient.get_aliases_list];
    - [labels/fssai_compliance.py]: [FSSAIComplianceChecker];
    - [labels/allergen_detector.py]: [detect_allergens],
      [detect_allergens_enhanced], [detect_allergens_from_recipe];
    - [labels/api_views.py]: the attribution steps of [api_reformulate],
      [_check_rate_limit], [api_live_calculate], the counters of
      [api_dashboard] and the allergen step of [api_auto_analyze];
    followed by the properties established about them.

    Numbers.  The Python code computes on [float].  A number is here the
    exact value of a finite double, a rational ([Qc], canonical fractions,
    Leibniz equality); infinities and NaN are outside the model.
    The first embedding of the aggregator and the sections on the checker,
    the classifier, the attribution, the live endpoint and the dashboard
    compute without rounding error: the operators are the exact ones and
    [round(x, n)] rounds the exact value half to even.  The properties
    stated over them are about the structure of the results, their signs
    and their comparisons.
    The aggregator and the attribution are embedded a second time, module
    [Fp], over a class [FloatOps] of the float operations the code uses.
    Its instance [exact] gives back the first embedding; its instance
    [binary64] is IEEE 754 double arithmetic, round to nearest even, with
    [round] as [float.__round__] computes it.  The properties about reported
    values are proved for every [FloatOps], and evaluated in [binary64] at
    the samples.
    Division is kept fallible ([Py.div], [Fp.div]) where the divisor is a
    variable of the aggregator, so that "cannot divide by zero" is a theorem
    and not a convention.

    Strings.  A Python [str] is a [string]; a character is read as the code
    point of its byte (code points below 256).  The check mark of the
    "all checks passed" line is kept as its UTF-8 bytes. *)

From Stdlib Require Import QArith Qcanon Ascii String.
From stdpp Require Import base option list sorting gmap strings numbers pretty.

Local Open Scope Qc_scope.

(** ** Python primitives *)

Module Py.

(** Numeric literals: [qc n d] is the fraction n/d, [of_Z] an integer. *)
Definition qc (n : Z) (d : positive) : Qc := Q2Qc (n # d).
Definition of_Z (z : Z) : Qc := Q2Qc (inject_Z z).

(** Truth value of a number: zero is falsy. *)
Definition truthy (x : Qc) : bool := negb (bool_decide (x = 0)).

(** [x or y] on numbers. *)
Definition or_ (x y : Qc) : Qc := if truthy x then x else y.

(** [a / b]; [None] stands for ZeroDivisionError. *)
Definition div (a b : Qc) : option Qc :=
  if decide (b = 0) then None else Some (a / b).

(** Nearest integer, ties to the even one. *)
Definition round_half_even (x : Qc) : Z :=
  let n := Qnum x in
  let d := Zpos (Qden x) in
  let fl := (n / d)%Z in
  let r2 := (2 * (n mod d))%Z in
  if (r2 <? d)%Z then fl
  else if (d <? r2)%Z then (fl + 1)%Z
  else if Z.even fl then fl else (fl + 1)%Z.

(** [round(x, ndigits)]. *)
Definition round (x : Qc) (ndigits : nat) : Qc :=
  let p := of_Z (10 ^ Z.of_nat ndigits) in
  of_Z (round_half_even (x * p)) / p.

(** [max(a, b)]. *)
Definition max (a b : Qc) : Qc := if decide (a < b) then b else a.

(** [sum(xs)] of numbers: left to right from 0. *)
Definition sum (xs : list Qc) : Qc := foldl Qcplus 0 xs.

(** A [dict] whose iteration order matters: keys in insertion order. *)
Section dict.
Context {K V : Type} `{EqDecision K}.

(** [d.get(k)] *)
Fixpoint get (k : K) (d : list (K * V)) : option V :=
  match d with
  | [] => None
  | (k', v) :: d' => if decide (k = k') then Some v else get k d'
  end.

(** [k in d] *)
Definition contains (k : K) (d : list (K * V)) : bool :=
  match get k d with Some _ => true | None => false end.

(** [d[k] = v]: an existing key keeps its position, a new one goes last. *)
Fixpoint set (k : K) (v : V) (d : list (K * V)) : list (K * V) :=
  match d with
  | [] => [(k, v)]
  | (k', v') :: d' =>
      if decide (k = k') then (k, v) :: d' else (k', v') :: set k v d'
  end.

(** In-place update of the value stored under [k]. *)
Fixpoint alter (f : V → V) (k : K) (d : list (K * V)) : list (K * V) :=
  match d with
  | [] => []
  | (k', v) :: d' =>
      if decide (k = k') then (k', f v) :: d' else (k', v) :: alter f k d'
  end.
End dict.

End Py.

(** ** Data model ([models.py]) *)

Record Nutrient := {
  nutrient_pk : Z;
  nutrient_name : string;
  nutrient_unit : string;
  daily_value : option Qc;          (* null=True *)
}.

(** One [IngredientNutrient] row, with its [nutrient] already joined
    ([select_related('nutrient')]). *)
Record IngredientNutrient := {
  nutrient : Nutrient;
  value_per_100g : Qc;
}.

Definition nutrient_id (inv : IngredientNutrient) : Z := nutrient_pk (nutrient inv).

Record Ingredient := {
  ingredient_pk : Z;
  ingredient_name : string;
  category : option string;         (* category.name, or no category *)
  nutrients : list IngredientNutrient;   (* related_name='nutrients' *)
}.

Record RecipeIngredient := {
  ri_pk : Z;
  ingredient : Ingredient;
  weight_grams : Qc;
}.

Record Recipe := {
  recipe_name : string;
  serving_size : Qc;
  serving_unit : string;
  servings_per_pack : Qc;
  fssai_license : string;
  allergen_info : string;
  ingredients : list RecipeIngredient;   (* related_name='ingredients' *)
}.

(** The value stored under a nutrient id while the first loop runs. *)
Record Accum := {
  acc_nutrient : Nutrient;
  acc_total : Qc;
}.

(** The value stored under a nutrient id in the returned dict.  [per_100g] is
    [None] when the key is missing from the entry (the checker reads it with
    [data.get('per_100g', 0)]); [percent_dv] is [None] when the stored value
    is Python's [None]. *)
Record NutritionEntry := {
  entry_nutrient : Nutrient;
  total_value : Qc;
  per_serving : Qc;
  per_100g : option Qc;
  percent_dv : option Qc;
}.

(** ** Nutrition aggregator ([Recipe]) *)

(** [Recipe.total_weight] *)
Definition total_weight (self : Recipe) : Qc :=
  Py.sum (weight_grams <$> ingredients self).

(** Body of the inner loop of [calculate_nutrition] for one row [inv] of an
    ingredient of weight [w]. *)
Definition add_row (w : Qc) (nutrition : list (Z * Accum)) (inv : IngredientNutrient)
    : list (Z * Accum) :=
  let nid := nutrient_id inv in
  let value := (w / Py.of_Z 100) * value_per_100g inv in
  let nutrition :=
    if Py.contains nid nutrition then nutrition
    else Py.set nid {| acc_nutrient := nutrient inv; acc_total := 0 |} nutrition in
  Py.alter (λ a, {| acc_nutrient := acc_nutrient a; acc_total := acc_total a + value |})
           nid nutrition.

(** The first loop: every ingredient of the recipe, every nutrient row of it. *)
Definition accumulate (self : Recipe) : list (Z * Accum) :=
  foldl (λ nutrition ri, foldl (add_row (weight_grams ri)) nutrition (nutrients (ingredient ri)))
        [] (ingredients self).

(** Body of the second loop for one entry. *)
Definition finish (self : Recipe) (total_wt : Qc) (data : Accum) : option NutritionEntry :=
  let nutrient := acc_nutrient data in
  let total := acc_total data in
  q ← Py.div total total_wt;
  let per_serving := q * serving_size self in
  q' ← Py.div total total_wt;
  let per_100 := Py.round (q' * Py.of_Z 100) 2 in
  pdv ← match daily_value nutrient with
        | Some dv =>
            if Py.truthy dv
            then r ← Py.div per_serving dv; Some (Some (Py.round (r * Py.of_Z 100) 1))
            else Some None
        | None => Some None
        end;
  Some {| entry_nutrient := nutrient;
          total_value := Py.round total 2;
          per_serving := Py.round per_serving 2;
          per_100g := Some per_100;
          percent_dv := pdv |}.

(** [Recipe.calculate_nutrition]; [None] when a division raises. *)
Definition calculate_nutrition (self : Recipe) : option (list (Z * NutritionEntry)) :=
  let nutrition := accumulate self in
  let total_wt := Py.or_ (total_weight self) 1 in
  mapM (λ '(nid, data), e ← finish self total_wt data; Some (nid, e)) nutrition.


(** ** Text primitives used by the checker *)

Module Str.

(** The newline character. *)
Definition nl : string := String (ascii_of_nat 10) EmptyString.

(** [sep.join(lines)] *)
Definition join (sep : string) (lines : list string) : string :=
  String.concat sep lines.

(** [bool(s)]: a string is truthy when it is not empty. *)
Definition truthy (s : string) : bool :=
  match s with EmptyString => false | String _ _ => true end.

(** [all(p(c) for c in s)] *)
Fixpoint all (p : ascii → bool) (s : string) : bool :=
  match s with
  | EmptyString => true
  | String c s' => p c && all p s'
  end.

(** [c.isspace()] for a code point below 256: TAB..CR, FS..US, space,
    NEL and the no-break space. *)
Definition isspace (c : ascii) : bool :=
  let n := nat_of_ascii c in
  ((9 <=? n) && (n <=? 13)) || ((28 <=? n) && (n <=? 32))
  || (n =? 133) || (n =? 160).

(** [c.isdigit()] for a code point below 256: the ten decimal digits and
    the superscripts two, three and one. *)
Definition isdigit_char (c : ascii) : bool :=
  let n := nat_of_ascii c in
  ((48 <=? n) && (n <=? 57)) || (n =? 178) || (n =? 179) || (n =? 185).

(** [s.isdigit()]: at least one character, and all of them digits. *)
Definition isdigit (s : string) : bool := truthy s && all isdigit_char s.

(** [s.lstrip()] *)
Fixpoint lstrip (s : string) : string :=
  match s with
  | EmptyString => EmptyString
  | String c s' => if isspace c then lstrip s' else s
  end.

(** [s.rstrip()] *)
Fixpoint rstrip (s : string) : string :=
  match s with
  | EmptyString => EmptyString
  | String c s' =>
      match rstrip s' with
      | EmptyString => if isspace c then EmptyString else String c EmptyString
      | t => String c t
      end
  end.

(** [s.strip()] *)
Definition strip (s : string) : string := rstrip (lstrip s).

(** [s.startswith(p)] *)
Definition startswith (p s : string) : bool := String.prefix p s.

(** [enumerate(items, start)] *)
Fixpoint enumerate {A} (start : nat) (items : list A) : list (nat * A) :=
  match items with
  | [] => []
  | x :: items' => (start, x) :: enumerate (S start) items'
  end.

(** [c.lower()] for a code point below 256: A..Z and the capital letters
    of the upper half (all of 192..222 but the multiplication sign). *)
Definition lower_char (c : ascii) : ascii :=
  let n := nat_of_ascii c in
  if ((65 <=? n) && (n <=? 90))
     || ((192 <=? n) && (n <=? 222) && negb (n =? 215))
  then ascii_of_nat (n + 32) else c.

(** [s.lower()] *)
Fixpoint lower (s : string) : string :=
  match s with
  | EmptyString => EmptyString
  | String c s' => String (lower_char c) (lower s')
  end.

(** [sub in s] *)
Fixpoint contains (sub s : string) : bool :=
  String.prefix sub s
  || match s with
     | EmptyString => false
     | String _ s' => contains sub s'
     end.

(** [s.split(sep)] for a separator of one character. *)
Fixpoint split (sep : ascii) (s : string) : list string :=
  match s with
  | EmptyString => [EmptyString]
  | String c s' =>
      if Ascii.eqb c sep then EmptyString :: split sep s'
      else match split sep s' with
           | [] => [String c EmptyString]
           | w :: ws => String c w :: ws
           end
  end.

End Str.

(** How a number is printed inside an f-string: [str_float] for [{x}],
    [format_1f] for [{x:.1f}].  Both belong to the Python runtime; nothing
    below depends on what they print. *)
Class FloatFormat := {
  str_float : Qc → string;
  format_1f : Qc → string;
}.

(** ** Compliance checker ([FSSAIComplianceChecker]) *)

Definition MANDATORY_NUTRIENTS : list string :=
  [ "Energy"; "Total Fat"; "Saturated Fat"; "Trans Fat";
    "Total Carbohydrate"; "Total Sugars"; "Added Sugars";
    "Protein"; "Sodium"; "Dietary Fibre" ].

Definition HIGH_FAT_THRESHOLD : Qc := Py.qc 35 2.             (* 17.5 *)
Definition HIGH_SUGAR_THRESHOLD : Qc := Py.qc 45 2.           (* 22.5 *)
Definition HIGH_SODIUM_THRESHOLD : Qc := Py.of_Z 600.         (* 600 *)
Definition HIGH_SATURATED_FAT_THRESHOLD : Qc := Py.of_Z 5.    (* 5.0 *)

(** The checker object: its two constructor arguments and the three lists
    the checks append to. *)
Record Checker := {
  recipe : Recipe;
  nutrition_data : list (Z * NutritionEntry);
  issues : list string;
  warnings : list string;
  info : list string;
}.

(** [FSSAIComplianceChecker(recipe, nutrition_data)] *)
Definition new_checker (r : Recipe) (nd : list (Z * NutritionEntry)) : Checker :=
  {| recipe := r; nutrition_data := nd; issues := []; warnings := []; info := [] |}.

(** [self.issues.append(msg)], [self.warnings.append(msg)], [self.info.append(msg)] *)
Definition issues_append (msg : string) (self : Checker) : Checker :=
  {| recipe := recipe self; nutrition_data := nutrition_data self;
     issues := issues self ++ [msg]; warnings := warnings self; info := info self |}.
Definition warnings_append (msg : string) (self : Checker) : Checker :=
  {| recipe := recipe self; nutrition_data := nutrition_data self;
     issues := issues self; warnings := warnings self ++ [msg]; info := info self |}.
Definition info_append (msg : string) (self : Checker) : Checker :=
  {| recipe := recipe self; nutrition_data := nutrition_data self;
     issues := issues self; warnings := warnings self; info := info self ++ [msg] |}.

(** The three assignments at the start of [check_all]. *)
Definition reset (self : Checker) : Checker :=
  {| recipe := recipe self; nutrition_data := nutrition_data self;
     issues := []; warnings := []; info := [] |}.

Definition missing_msg (mn : string) : string :=
  "MISSING MANDATORY NUTRIENT: '" +:+ mn +:+
  "' is required by FSSAI regulations but is not present in the nutrition data.".

(** The set of names built by the first loop of [_check_mandatory_nutrients]. *)
Definition present_names (nd : list (Z * NutritionEntry)) : gset string :=
  foldl (λ present '(nid, data), present ∪ {[ nutrient_name (entry_nutrient data) ]})
        ∅ nd.

Definition _check_mandatory_nutrients (self : Checker) : Checker :=
  let present := present_names (nutrition_data self) in
  foldl (λ self mn, if decide (mn ∉ present) then issues_append (missing_msg mn) self else self)
        self MANDATORY_NUTRIENTS.

Definition _check_serving_size_declaration (self : Checker) : Checker :=
  let r := recipe self in
  let self :=
    if negb (Py.truthy (serving_size r)) || bool_decide (serving_size r ≤ 0)
    then issues_append "SERVING SIZE: Must be declared as per FSSAI regulations." self
    else self in
  let self :=
    if negb (Str.truthy (serving_unit r))
    then issues_append "SERVING UNIT: Must specify unit (g/ml) for serving size." self
    else self in
  if negb (Py.truthy (servings_per_pack r)) || bool_decide (servings_per_pack r ≤ 0)
  then warnings_append "SERVINGS PER PACK: Should declare number of servings per package." self
  else self.

(** The name-to-value dict both [_check_fop_warnings] and
    [get_fop_indicators] build first; a later entry of the same name
    overwrites an earlier one. *)
Definition per_100g_by_name (nd : list (Z * NutritionEntry)) : gmap string Qc :=
  foldl (λ m '(nid, data),
           <[ nutrient_name (entry_nutrient data) := default 0 (per_100g data) ]> m)
        ∅ nd.

(** [d.get(name, 0)] *)
Definition get0 (d : gmap string Qc) (name : string) : Qc := default 0 (d !! name).

Section checker.
Context `{FloatFormat}.

Definition _check_fop_warnings (self : Checker) : Checker :=
  let per_100g := per_100g_by_name (nutrition_data self) in
  let total_fat := get0 per_100g "Total Fat" in
  let sat_fat := get0 per_100g "Saturated Fat" in
  let sugars := get0 per_100g "Total Sugars" in
  let sodium := get0 per_100g "Sodium" in
  let self :=
    if decide (HIGH_FAT_THRESHOLD < total_fat)
    then warnings_append
           ("HIGH IN FAT: Total fat (" +:+ str_float total_fat +:+ "g/100g) exceeds "
            +:+ "threshold (17.5g/100g). "
            +:+ "FOP warning label 'HIGH IN FAT' required.") self
    else self in
  let self :=
    if decide (HIGH_SATURATED_FAT_THRESHOLD < sat_fat)
    then warnings_append
           ("HIGH IN SATURATED FAT: (" +:+ str_float sat_fat +:+ "g/100g) exceeds "
            +:+ "threshold (5.0g/100g). "
            +:+ "FOP warning may be required.") self
    else self in
  let self :=
    if decide (HIGH_SUGAR_THRESHOLD < sugars)
    then warnings_append
           ("HIGH IN SUGAR: Total sugars (" +:+ str_float sugars +:+ "g/100g) exceeds "
            +:+ "threshold (22.5g/100g). "
            +:+ "FOP warning label 'HIGH IN SUGAR' required.") self
    else self in
  if decide (HIGH_SODIUM_THRESHOLD < sodium)
  then warnings_append
         ("HIGH IN SODIUM: (" +:+ str_float sodium +:+ "mg/100g) exceeds "
          +:+ "threshold (600mg/100g). "
          +:+ "FOP warning label 'HIGH IN SODIUM/SALT' required.") self
  else self.

Definition _check_ingredient_list (self : Checker) : Checker :=
  let ingredients := ingredients (recipe self) in
  match ingredients with
  | [] =>
      issues_append
        ("INGREDIENT LIST: Recipe must have at least one ingredient. "
         +:+ "FSSAI requires full ingredient list in descending order of weight.") self
  | _ :: _ =>
      info_append
        ("INGREDIENT LIST: " +:+ pretty (length ingredients) +:+ " ingredients declared. "
         +:+ "Listed in descending order of composition by weight as required.") self
  end.

Definition _check_allergen_declaration (self : Checker) : Checker :=
  if negb (Str.truthy (allergen_info (recipe self)))
  then warnings_append
         ("ALLERGEN DECLARATION: No allergen information provided. "
          +:+ "FSSAI requires declaration of common allergens (milk, nuts, "
          +:+ "gluten, soy, eggs, fish, crustaceans, etc.) if present.") self
  else info_append "ALLERGEN DECLARATION: Provided." self.

Definition license_missing_msg : string :=
  "FSSAI LICENSE: No FSSAI license number provided. "
  +:+ "Required on all packaged food products.".
Definition license_invalid_msg (lic : string) : string :=
  "FSSAI LICENSE: '" +:+ lic +:+ "' may not be valid. "
  +:+ "FSSAI license numbers are typically 14 digits.".
Definition license_valid_msg (lic : string) : string :=
  "FSSAI LICENSE: " +:+ lic +:+ " (format valid).".

Definition _check_fssai_license (self : Checker) : Checker :=
  let lic := Str.strip (fssai_license (recipe self)) in
  if negb (Str.truthy lic)
  then warnings_append license_missing_msg self
  else if negb (String.length lic =? 14) || negb (Str.isdigit lic)
  then warnings_append (license_invalid_msg lic) self
  else info_append (license_valid_msg lic) self.

(** The entry a [for nid, data in ...items()] scan stops at: the first one
    whose nutrient has the given name. *)
Definition first_named (name : string) (nd : list (Z * NutritionEntry))
    : option (Z * NutritionEntry) :=
  List.find (λ '(nid, data), bool_decide (nutrient_name (entry_nutrient data) = name)) nd.

(** The division is reached only under [total_fat_per_100g > 0]. *)
Definition _check_trans_fat (self : Checker) : Checker :=
  match first_named "Trans Fat" (nutrition_data self) with
  | Some (nid, data) =>
      let per_100g_ := default 0 (per_100g data) in
      let total_fat_per_100g :=
        match first_named "Total Fat" (nutrition_data self) with
        | Some (nid2, data2) => default 0 (per_100g data2)
        | None => 0
        end in
      if bool_decide (0 < total_fat_per_100g) && bool_decide (0 < per_100g_)
      then
        let trans_pct := (per_100g_ / total_fat_per_100g) * Py.of_Z 100 in
        if decide (Py.of_Z 2 < trans_pct)
        then warnings_append
               ("TRANS FAT: " +:+ str_float per_100g_ +:+ "g/100g ("
                +:+ format_1f trans_pct +:+ "% of total fat). "
                +:+ "FSSAI sets a limit on industrial trans fat.") self
        else self
      else self
  | None => self
  end.

Definition issues_header : string := "=== COMPLIANCE ISSUES (Must Fix) ===".
Definition warnings_header : string := Str.nl +:+ "=== WARNINGS (Recommended) ===".
Definition info_header : string := Str.nl +:+ "=== INFO ===".
Definition passed_line : string := "✓ All FSSAI compliance checks passed.".

(** One [for i, x in enumerate(items, 1): lines.append(f"  {i}. {x}")] loop. *)
Definition append_numbered (lines items : list string) : list string :=
  foldl (λ lines '(i, x), lines ++ ["  " +:+ pretty i +:+ ". " +:+ x])
        lines (Str.enumerate 1 items).

(** The list [lines] at the end of [_format_notes]. *)
Definition notes_lines (self : Checker) : list string :=
  let lines := [] in
  let lines :=
    match issues self with
    | [] => lines
    | _ => append_numbered (lines ++ [issues_header]) (issues self)
    end in
  let lines :=
    match warnings self with
    | [] => lines
    | _ => append_numbered (lines ++ [warnings_header]) (warnings self)
    end in
  let lines :=
    match info self with
    | [] => lines
    | _ => append_numbered (lines ++ [info_header]) (info self)
    end in
  match issues self, warnings self with
  | [], [] => lines ++ [passed_line]
  | _, _ => lines
  end.

Definition _format_notes (self : Checker) : string :=
  Str.join Str.nl (notes_lines self).

(** The statements of [check_all] up to the last check: the three lists
    are emptied, then the seven checks run in order. *)
Definition run_checks (self : Checker) : Checker :=
  let self := reset self in
  let self := _check_mandatory_nutrients self in
  let self := _check_serving_size_declaration self in
  let self := _check_fop_warnings self in
  let self := _check_ingredient_list self in
  let self := _check_allergen_declaration self in
  let self := _check_fssai_license self in
  _check_trans_fat self.

(** [check_all]: the result pair and the checker as the call leaves it. *)
Definition check_all (self : Checker) : (bool * string) * Checker :=
  let self := run_checks self in
  let is_compliant := (length (issues self) =? 0)%nat in
  let notes := _format_notes self in
  ((is_compliant, notes), self).

End checker.

(** ** Front-of-pack indicators ([get_fop_indicators]) *)

Record FOPIndicator := {
  fop_nutrient : string;
  fop_value : Qc;
  fop_unit : string;
  fop_level : string;
  fop_color : string;
}.

(** The list [checks]: name, threshold, unit. *)
Definition fop_checks : list (string * Qc * string) :=
  [ ("Total Fat", HIGH_FAT_THRESHOLD, "g");
    ("Saturated Fat", HIGH_SATURATED_FAT_THRESHOLD, "g");
    ("Total Sugars", HIGH_SUGAR_THRESHOLD, "g");
    ("Sodium", HIGH_SODIUM_THRESHOLD, "mg") ].

(** Body of the loop over [checks]. *)
Definition fop_indicator (per_100g : gmap string Qc) (check : string * Qc * string)
    : FOPIndicator :=
  let '(nutrient_name, threshold, unit) := check in
  let value := get0 per_100g nutrient_name in
  let '(level, color) :=
    if decide (threshold < value) then ("HIGH", "red")
    else if decide (threshold * Py.qc 1 2 < value) then ("MEDIUM", "amber")
    else ("LOW", "green") in
  {| fop_nutrient := nutrient_name; fop_value := value; fop_unit := unit;
     fop_level := level; fop_color := color |}.

(** The classifier on a name-to-value mapping. *)
Definition classify (per_100g : gmap string Qc) : list FOPIndicator :=
  foldl (λ indicators check, indicators ++ [fop_indicator per_100g check]) [] fop_checks.

Definition get_fop_indicators (self : Checker) : list FOPIndicator :=
  classify (per_100g_by_name (nutrition_data self)).

(** ** Attribution (steps 1 and 2 of [api_reformulate]) *)

(** [list.sort(key=key, reverse=True)]: descending by key, and stable
    (elements of equal key keep their order). *)
Section sort.
Context {A : Type} (key : A → Qc).

Fixpoint insert_desc (x : A) (l : list A) : list A :=
  match l with
  | [] => [x]
  | y :: l' => if decide (key x < key y) then y :: insert_desc x l' else x :: l
  end.

Definition sort_desc (l : list A) : list A := foldr insert_desc [] l.
End sort.

(** The value [ing_nutrients[name]]. *)
Record IngNutrient := {
  abs_ : Qc;               (* 'abs' *)
  per_100g_ing : Qc;
  ing_unit : string;       (* 'unit' *)
}.

(** One element of [ingredient_data]. *)
Record IngredientData := {
  data_id : Z;             (* 'id' *)
  data_ri_id : Z;
  data_name : string;
  data_category : string;
  data_weight_grams : Qc;
  data_nutrients : gmap string IngNutrient;
}.

(** One element of [contribs]. *)
Record Contribution := {
  contrib_ingredient : string;
  contrib_weight_grams : Qc;
  contribution_abs : Qc;
  contribution_per_100g : Qc;
  pct_of_total : Qc;
}.

(** The value [attribution[nutrient_name]]. *)
Record Attribution := {
  current_per_100g : Qc;
  attr_threshold : Qc;
  attr_unit : string;
  top_contributors : list Contribution;
}.

(** The local dict [THRESHOLDS], read with
    [THRESHOLDS.get(nutrient_name, {}).get('threshold', 0)]. *)
Definition THRESHOLDS : gmap string (Qc * string) :=
  <["Total Fat" := (Py.qc 35 2, "g")]>
  (<["Saturated Fat" := (Py.of_Z 5, "g")]>
  (<["Total Sugars" := (Py.qc 45 2, "g")]>
  (<["Sodium" := (Py.of_Z 600, "mg")]> ∅))).

Definition threshold_of (nutrient_name : string) : Qc :=
  match THRESHOLDS !! nutrient_name with Some (t, _) => t | None => 0 end.

(** Step 1, inner loop: the dict [ing_nutrients] of one recipe ingredient. *)
Definition ing_nutrients_of (ri : RecipeIngredient) : gmap string IngNutrient :=
  foldl (λ ing_nutrients inv,
           let abs_val := (weight_grams ri / Py.of_Z 100) * value_per_100g inv in
           <[ nutrient_name (nutrient inv) :=
                {| abs_ := Py.round abs_val 4;
                   per_100g_ing := Py.round (value_per_100g inv) 4;
                   ing_unit := nutrient_unit (nutrient inv) |} ]> ing_nutrients)
        ∅ (nutrients (ingredient ri)).

(** Step 1: the list [ingredient_data]. *)
Definition ingredient_data_of (r : Recipe) : list IngredientData :=
  foldl (λ ingredient_data ri,
           ingredient_data ++
           [ {| data_id := ingredient_pk (ingredient ri);
                data_ri_id := ri_pk ri;
                data_name := ingredient_name (ingredient ri);
                data_category := default "" (category (ingredient ri));
                data_weight_grams := weight_grams ri;
                data_nutrients := ing_nutrients_of ri |} ])
        [] (ingredients r).

(** Step 2, body of the inner loop: what one ingredient adds to [contribs].
    [max(..., 0.001)] keeps the divisor of [pct_of_total] positive, and
    [total_weight] is [recipe.total_weight or 1.0]. *)
Definition contrib_of (total_weight : Qc) (high : FOPIndicator) (ing : IngredientData)
    : option Contribution :=
  match data_nutrients ing !! fop_nutrient high with
  | Some n =>
      if decide (0 < abs_ n) then
        let contrib_per_100g := (abs_ n / total_weight) * Py.of_Z 100 in
        Some {| contrib_ingredient := data_name ing;
                contrib_weight_grams := data_weight_grams ing;
                contribution_abs := Py.round (abs_ n) 3;
                contribution_per_100g := Py.round contrib_per_100g 3;
                pct_of_total :=
                  Py.round
                    ((abs_ n / Py.max (fop_value high * total_weight / Py.of_Z 100)
                                      (Py.qc 1 1000)) * Py.of_Z 100) 1 |}
      else None
  | None => None
  end.

(** Step 2, inner loop: the list [contribs] before it is sorted. *)
Definition contribs_of (total_weight : Qc) (high : FOPIndicator)
    (ingredient_data : list IngredientData) : list Contribution :=
  foldl (λ contribs ing,
           match contrib_of total_weight high ing with
           | Some c => contribs ++ [c]
           | None => contribs
           end)
        [] ingredient_data.

(** Step 2, body of the outer loop: the entry stored for one HIGH nutrient. *)
Definition attribution_of (total_weight : Qc) (ingredient_data : list IngredientData)
    (high : FOPIndicator) : Attribution :=
  let contribs := contribs_of total_weight high ingredient_data in
  let contribs := sort_desc contribution_abs contribs in
  {| current_per_100g := Py.round (fop_value high) 3;
     attr_threshold := threshold_of (fop_nutrient high);
     attr_unit := fop_unit high;
     top_contributors := take 5 contribs |}.

(** [high_nutrients = [ind for ind in fop if ind['level'] == 'HIGH']] *)
Definition high_nutrients_of (fop : list FOPIndicator) : list FOPIndicator :=
  filter (λ ind, fop_level ind = "HIGH") fop.

(** The dict [attribution] that [api_reformulate] builds for a recipe, from
    [calculate_nutrition] to the end of step 2.  [None] only if the
    aggregator raised; with no HIGH nutrient the view answers early with an
    empty attribution, which is also what the loop leaves. *)
Definition reformulate_attribution (r : Recipe) : option (list (string * Attribution)) :=
  nutrition_data ← calculate_nutrition r;
  let checker := new_checker r nutrition_data in
  let fop := get_fop_indicators checker in
  let high_nutrients := high_nutrients_of fop in
  let total_weight := Py.or_ (total_weight r) 1 in
  let ingredient_data := ingredient_data_of r in
  Some (foldl (λ attribution high,
                 Py.set (fop_nutrient high)
                        (attribution_of total_weight ingredient_data high) attribution)
              [] high_nutrients).

(** ** Rate limiter of the auth endpoints ([api_views.py]) *)

Definition RATE_LIMIT_WINDOW : Qc := Py.of_Z 60.
Definition RATE_LIMIT_MAX : nat := 10.

(** The address [_check_rate_limit] files a request under: the first entry
    of [HTTP_X_FORWARDED_FOR] if that header is there, else [REMOTE_ADDR],
    else the empty string. *)
Definition client_ip (META : gmap string string) : string :=
  let ip := default (default "" (META !! "REMOTE_ADDR"))
                    (META !! "HTTP_X_FORWARDED_FOR") in
  if Str.contains "," ip
  then Str.strip (default "" (head (Str.split "," ip)))
  else ip.

(** [_check_rate_limit(request)] at clock reading [now]: the answer and the
    [_rate_limit_store] it leaves (client address to the time stamps of its
    recorded attempts). *)
Definition _check_rate_limit (now : Qc) (META : gmap string string)
    (store : gmap string (list Qc)) : bool * gmap string (list Qc) :=
  let ip := client_ip META in
  let attempts := default [] (store !! ip) in
  let attempts := filter (λ t, now - t < RATE_LIMIT_WINDOW) attempts in
  if bool_decide (attempts = []) then (false, delete ip store)
  else if (RATE_LIMIT_MAX <=? length attempts)%nat
       then (true, <[ip := attempts]> store)
       else (false, <[ip := attempts ++ [now]]> store).

(** A run of the process: the calls made so far, each with its clock reading
    and its request, against the store the module starts with. *)
Fixpoint rate_limit_run (calls : list (Qc * gmap string string))
    (store : gmap string (list Qc)) : list bool * gmap string (list Qc) :=
  match calls with
  | [] => ([], store)
  | (now, META) :: calls' =>
      let '(limited, store) := _check_rate_limit now META store in
      let '(answers, store) := rate_limit_run calls' store in
      (limited :: answers, store)
  end.

(** ** Allergen detection ([allergen_detector.py]) *)

(** Allergen category to the keywords that give it away, in the order of
    the source. *)
Definition ALLERGEN_MAP : list (string * list string) :=
  [ ("Milk / Dairy",
    [ "milk"; "cream"; "butter"; "ghee"; "curd"; "yogurt"; "yoghurt";
      "paneer"; "cheese"; "khoya"; "mawa"; "whey"; "casein"; "lactose";
      "buttermilk"; "lassi"; "dahi"; "rabdi"; "shrikhand"; "basundi";
      "kalakand"; "rasgulla"; "rasmalai"; "malai"; "condensed milk";
      "skimmed milk"; "whole milk"; "milk powder"; "dairy" ]);
    ("Wheat / Gluten",
    [ "wheat"; "maida"; "atta"; "flour"; "gluten"; "semolina"; "suji";
      "sooji"; "rawa"; "daliya"; "dalia"; "seitan"; "bread"; "roti"; "naan";
      "chapati"; "paratha"; "puri"; "pasta"; "noodle"; "barley"; "rye";
      "oats"; "triticale"; "bulgur"; "couscous"; "biscuit"; "cake"; "cookie";
      "cracker" ]);
    ("Nuts (Tree Nuts)",
    [ "almond"; "badam"; "cashew"; "kaju"; "walnut"; "akhrot"; "pistachio";
      "pista"; "hazelnut"; "macadamia"; "pecan"; "brazil nut"; "pine nut";
      "chestnut"; "praline" ]);
    ("Peanuts",
    [ "peanut"; "groundnut"; "moongphali"; "mungfali" ]);
    ("Soy",
    [ "soy"; "soya"; "tofu"; "tempeh"; "edamame"; "soybean"; "soy sauce";
      "soy milk"; "soy protein"; "soy lecithin" ]);
    ("Eggs",
    [ "egg"; "anda"; "albumin"; "meringue"; "mayonnaise"; "mayo" ]);
    ("Fish",
    [ "fish"; "machli"; "salmon"; "tuna"; "cod"; "sardine"; "anchovy";
      "mackerel"; "hilsa"; "pomfret"; "rohu"; "surmai"; "bangda"; "rawas";
      "bombay duck"; "bombil" ]);
    ("Shellfish / Crustaceans",
    [ "shrimp"; "prawn"; "crab"; "lobster"; "crayfish"; "shellfish";
      "crustacean"; "jhinga"; "oyster"; "mussel"; "clam"; "squid"; "scallop";
      "octopus" ]);
    ("Sesame",
    [ "sesame"; "til"; "gingelly"; "tahini" ]);
    ("Mustard",
    [ "mustard"; "sarson"; "rai"; "mustard oil"; "mustard seed" ]);
    ("Celery",
    [ "celery"; "ajwain"; "ajmoda" ]);
    ("Lupin",
    [ "lupin"; "lupine" ]);
    ("Sulphites",
    [ "sulphite"; "sulfite"; "sulphur dioxide"; "sulfur dioxide";
      "sodium metabisulphite"; "potassium metabisulphite" ]);
    ("Coconut",
    [ "coconut"; "nariyal"; "copra"; "coconut milk"; "coconut oil";
      "coconut cream"; "desiccated coconut" ]) ].

(** [a <= b] on strings: code point by code point, a proper prefix first. *)
Definition str_le (a b : string) : Prop := String.leb a b = true.

#[global] Instance str_le_dec : RelDecision str_le :=
  λ a b, decide (String.leb a b = true).

(** [sorted(l)] on strings.  The order is total and antisymmetric, so the
    sorted list does not depend on the sorting algorithm. *)
Definition sorted (l : list string) : list string := merge_sort str_le l.

(** The loop over the keywords of one category: [True] as soon as one of
    them occurs in the name. *)
Definition keyword_hit (keywords : list string) (name_lower : string) : bool :=
  existsb (λ keyword, Str.contains keyword name_lower) keywords.

(** The body of the loop over [ALLERGEN_MAP.items()] for one ingredient. *)
Definition detect_in (ing_name : string) (found : list (string * gset string))
    (entry : string * list string) : list (string * gset string) :=
  let name_lower := Str.strip (Str.lower ing_name) in
  if keyword_hit entry.2 name_lower then
    let found :=
      if Py.contains entry.1 found then found else Py.set entry.1 ∅ found in
    Py.alter (λ s, s ∪ {[ ing_name ]}) entry.1 found
  else found.

(** The loop over the ingredient names: the dict [detected]. *)
Definition detect_loop (ingredient_names : list string) : list (string * gset string) :=
  foldl (λ found ing_name, foldl (detect_in ing_name) found ALLERGEN_MAP)
        [] ingredient_names.

(** The dict [detect_allergens] returns. *)
Record AllergenResult := {
  detected : list string;
  details : list (string * list string);
  allergen_string : string;
}.

(** ["Contains: " + ", ".join(allergen_list)] *)
Definition contains_line (allergen_list : list string) : string :=
  "Contains: " +:+ Str.join ", " allergen_list.

(** [detect_allergens(ingredient_names)] *)
Definition detect_allergens (ingredient_names : list string) : AllergenResult :=
  let found := detect_loop ingredient_names in
  match found with
  | [] => {| detected := []; details := []; allergen_string := "No known allergens" |}
  | _ =>
      let allergen_list := sorted found.*1 in
      {| detected := allergen_list;
         details := prod_map id (λ v : gset string, sorted (elements v)) <$> found;
         allergen_string := contains_line allergen_list |}
  end.

Section ai.

(** The dict the AI answers with for a list of ingredient names, its values
    taken to be lists of names as the prompt asks; [[]] stands for an empty
    answer, one that is no dict, and a failed call. *)
Variable ai_chat_json : list string → list (string * list string).

(** [_ai_allergen_check(unmatched_ingredients)] *)
Definition _ai_allergen_check (unmatched_ingredients : list string)
    : list (string * list string) :=
  match unmatched_ingredients with
  | [] => []
  | _ => ai_chat_json unmatched_ingredients
  end.

(** The merge of one AI finding into [details]. *)
Definition merge_finding (details : list (string * list string))
    (finding : string * list string) : list (string * list string) :=
  let category := finding.1 in
  let details :=
    if Py.contains category details then details else Py.set category [] details in
  foldl (λ details ing,
           if bool_decide (ing ∈ default [] (Py.get category details)) then details
           else Py.alter (λ l, l ++ [ing]) category details)
        details finding.2.

(** The dict [detect_allergens_enhanced] returns: the keys of
    [detect_allergens] and the two AI ones. *)
Record EnhancedResult := {
  result : AllergenResult;
  ai_enhanced : bool;
  ai_findings : list (string * list string);
}.

(** The names no keyword matched, as [detect_allergens_enhanced] finds them
    from the details of the keyword pass. *)
Definition unmatched_of (base_result : AllergenResult)
    (ingredient_names : list string) : list string :=
  let matched_ingredients : gset string :=
    foldl (λ matched ings,
             matched ∪ list_to_set ((λ ing, Str.strip (Str.lower ing)) <$> ings))
          ∅ (details base_result).*2 in
  filter (λ name, Str.strip (Str.lower name) ∉ matched_ingredients) ingredient_names.

(** [detect_allergens_enhanced(ingredient_names)] *)
Definition detect_allergens_enhanced (ingredient_names : list string) : EnhancedResult :=
  let base_result := detect_allergens ingredient_names in
  let unmatched := unmatched_of base_result ingredient_names in
  let findings := _ai_allergen_check unmatched in
  match findings with
  | [] =>
      {| result := base_result;
         ai_enhanced := match unmatched with [] => false | _ => true end;
         ai_findings := [] |}
  | _ =>
      let details := foldl merge_finding (details base_result) findings in
      let allergen_list := sorted details.*1 in
      let allergen_string :=
        match allergen_list with
        | [] => "No known allergens"
        | _ => contains_line allergen_list
        end in
      {| result := {| detected := allergen_list;
                      details := details;
                      allergen_string := allergen_string |};
         ai_enhanced := true;
         ai_findings := findings |}
  end.

(** [detect_allergens_from_recipe(recipe)] *)
Definition detect_allergens_from_recipe (recipe : Recipe) : EnhancedResult :=
  detect_allergens_enhanced
    ((λ ri, ingredient_name (ingredient ri)) <$> ingredients recipe).

End ai.

(** ** Live recalculation ([api_live_calculate]) *)

(** [l.sort(key=...)] with string keys: ascending and stable. *)
Section sort_asc.
Context {A : Type} (key : A → string).

Fixpoint insert_asc (x : A) (l : list A) : list A :=
  match l with
  | [] => [x]
  | y :: l' => if decide (str_le (key x) (key y)) then x :: l else y :: insert_asc x l'
  end.

Definition sort_asc (l : list A) : list A := foldr insert_asc [] l.
End sort_asc.

(** One item of the [ingredients] array of a request whose fields have the
    JSON types the frontend sends: [ingredient_id] an integer and
    [weight_grams] a number, either of them possibly absent or null. *)
Record LiveItem := {
  item_ingredient_id : option Z;
  item_weight_grams : option Qc;
}.

(** One element of the [nutrition] array of the response; [live_nutrient]
    stands for the fields copied from the nutrient row. *)
Record LiveEntry := {
  live_nutrient : Nutrient;
  live_total_value : Qc;
  live_per_serving : Qc;
  live_per_100g : Qc;
  live_percent_dv : option Qc;
}.

Record LiveResponse := {
  live_nutrition : list LiveEntry;
  live_fop_indicators : list FOPIndicator;
  live_total_weight : Qc;
}.

(** The list [checks] of the quick front-of-pack check. *)
Definition live_checks : list (string * Qc * string) :=
  [ ("Total Fat", Py.qc 35 2, "g"); ("Saturated Fat", Py.of_Z 5, "g");
    ("Total Sugars", Py.qc 45 2, "g"); ("Sodium", Py.of_Z 600, "mg") ].

(** Body of the loop over [checks]. *)
Definition live_fop_indicator (per_100g_map : gmap string Qc)
    (check : string * Qc * string) : FOPIndicator :=
  let '(name, threshold, unit) := check in
  let val := get0 per_100g_map name in
  let '(level, color) :=
    if decide (threshold < val) then ("HIGH", "red")
    else if decide (threshold * Py.qc 1 2 < val) then ("MEDIUM", "amber")
    else ("LOW", "green") in
  {| fop_nutrient := name; fop_value := Py.round val 2; fop_unit := unit;
     fop_level := level; fop_color := color |}.

(** Body of the loop over [total_nutrition.items()]. *)
Definition live_entry (tw serving_size : Qc) (data : Accum) : option LiveEntry :=
  let n := acc_nutrient data in
  let total := acc_total data in
  q ← Py.div total tw;
  let per_serving := q * serving_size in
  q' ← Py.div total tw;
  let per_100 := q' * Py.of_Z 100 in
  pdv ← match daily_value n with
        | Some dv =>
            if Py.truthy dv
            then r ← Py.div per_serving dv; Some (Some (Py.round (r * Py.of_Z 100) 1))
            else Some None
        | None => Some None
        end;
  Some {| live_nutrient := n;
          live_total_value := Py.round total 2;
          live_per_serving := Py.round per_serving 2;
          live_per_100g := Py.round per_100 2;
          live_percent_dv := pdv |}.

Section live.

(** [IngredientNutrient.objects.filter(ingredient_id=...)]: the nutrient
    rows on record for an ingredient id. *)
Variable nutrient_rows : Z → list IngredientNutrient.

(** Body of the loop over [ingredients_data]; the inner loop over the rows
    is the one of [Recipe.calculate_nutrition], statement for statement. *)
Definition live_step (state : list (Z * Accum) * Qc) (item : LiveItem)
    : list (Z * Accum) * Qc :=
  let '(total_nutrition, total_weight) := state in
  match item_ingredient_id item with
  | None => state
  | Some ing_id =>
      if bool_decide (ing_id = 0%Z) then state
      else
        let weight := default 0 (item_weight_grams item) in
        if decide (weight ≤ 0) then state
        else (foldl (add_row weight) total_nutrition (nutrient_rows ing_id),
              total_weight + weight)
  end.

(** [api_live_calculate] on the body fields [ingredients] and
    [serving_size] (100 when absent); [None] stands for an uncaught
    ZeroDivisionError. *)
Definition api_live_calculate (ingredients_data : list LiveItem)
    (body_serving_size : option Qc) : option LiveResponse :=
  let serving_size := default (Py.of_Z 100) body_serving_size in
  let '(total_nutrition, total_weight) := foldl live_step ([], 0) ingredients_data in
  let tw := Py.or_ total_weight 1 in
  result ← mapM (λ '(nid, data), live_entry tw serving_size data) total_nutrition;
  let result := sort_asc (λ x, nutrient_name (live_nutrient x)) result in
  let per_100g_map : gmap string Qc :=
    foldl (λ m r, <[ nutrient_name (live_nutrient r) := live_per_100g r ]> m) ∅ result in
  let fop := foldl (λ fop check, fop ++ [live_fop_indicator per_100g_map check])
                   [] live_checks in
  Some {| live_nutrition := result;
          live_fop_indicators := fop;
          live_total_weight := Py.round total_weight 1 |}.

End live.

(** ** Dashboard ([api_dashboard]) *)

(** [compliance_pct]: the share of compliant labels, in percent, rounded to
    an integer; 0 when there is no label. *)
Definition compliance_pct (compliant total_labels : nat) : Z :=
  if (0 <? total_labels)%nat
  then Py.round_half_even
         (Py.of_Z (Z.of_nat compliant) / Py.of_Z (Z.of_nat total_labels) * Py.of_Z 100)
  else 0%Z.

(** The four counters of the per-recipe loop. *)
Record Breakdown := {
  issues_count : nat;
  warnings_count : nat;
  fop_high_count : nat;
  allergen_missing : nat;
}.

Section dashboard.
Context `{FloatFormat}.

(** Body of the loop over the recipes of the user; a recipe whose
    calculation raises is passed over. *)
Definition dashboard_step (b : Breakdown) (r : Recipe) : Breakdown :=
  match calculate_nutrition r with
  | None => b
  | Some [] => b
  | Some nd =>
      let chk := (check_all (new_checker r nd)).2 in
      let fop := get_fop_indicators chk in
      {| issues_count := issues_count b + length (issues chk);
         warnings_count := warnings_count b + length (warnings chk);
         fop_high_count :=
           if existsb (λ f, bool_decide (fop_level f = "HIGH")) fop
           then fop_high_count b + 1 else fop_high_count b;
         allergen_missing :=
           if Str.truthy (allergen_info r)
           then allergen_missing b else allergen_missing b + 1 |}
  end.

Definition dashboard_breakdown (recipes : list Recipe) : Breakdown :=
  foldl dashboard_step
        {| issues_count := 0; warnings_count := 0;
           fop_high_count := 0; allergen_missing := 0 |} recipes.

(** ['mandatory_status'] *)
Definition mandatory_status (recipes : list Recipe) : string :=
  if (issues_count (dashboard_breakdown recipes) =? 0)%nat then "success" else "error".

End dashboard.

(** ** Step 3 of [api_auto_analyze]: the automatic allergen declaration *)

(** [recipe.allergen_info = ...] *)
Definition set_allergen_info (s : string) (r : Recipe) : Recipe :=
  {| recipe_name := recipe_name r;
     serving_size := serving_size r;
     serving_unit := serving_unit r;
     servings_per_pack := servings_per_pack r;
     fssai_license := fssai_license r;
     allergen_info := s;
     ingredients := ingredients r |}.

Section auto_analyze.
Variable ai_chat_json : list string → list (string * list string).

(** The recipe as step 3 leaves it: a blank allergen declaration is filled
    in from the detection when that finds a category. *)
Definition auto_detect_allergens (recipe : Recipe) : Recipe :=
  if negb (Str.truthy (Str.strip (allergen_info recipe))) then
    let allergen_result := detect_allergens_from_recipe ai_chat_json recipe in
    match detected (result allergen_result) with
    | [] => recipe
    | _ => set_allergen_info (allergen_string (result allergen_result)) recipe
    end
  else recipe.

End auto_analyze.

(** ** Ingredient aliases ([Ingredient.get_aliases_list]) *)

(** [get_aliases_list] on the [aliases] field of an ingredient. *)
Definition get_aliases_list (aliases : string) : list string :=
  if negb (Str.truthy aliases) then []
  else (λ a, Str.lower (Str.strip a)) <$> Str.split "," aliases.

(** ** Floating-point arithmetic *)

(** The operations on [float] that the code uses, on the exact values of
    finite doubles: [x + y], [x * y], [x / y] for a non-zero divisor,
    [round(x, ndigits)], and the value [literal q] of a decimal literal
    written [q] in the source.  Nothing is assumed about them: what is
    proved for every [FloatOps] holds whichever way the runtime rounds. *)
Class FloatOps := {
  fadd : Qc → Qc → Qc;
  fmul : Qc → Qc → Qc;
  fdiv : Qc → Qc → Qc;
  fround : Qc → nat → Qc;
  literal : Qc → Qc;
}.

(** Arithmetic without rounding error: the operations of the sections above. *)
Definition exact : FloatOps :=
  {| fadd := Qcplus; fmul := Qcmult; fdiv := Qcdiv; fround := Py.round;
     literal := id |}.

(** IEEE 754 binary64, round to nearest, ties to even, as CPython computes
    on a [float]: 53 significant bits, exponents from -1022 (subnormal
    numbers below), each operation returning the double nearest to the exact
    result.  Results beyond the largest double (inf) and NaN are not
    represented. *)
Module Binary64.

(** 2^e for an integer e. *)
Definition pow2 (e : Z) : Qc :=
  if (0 <=? e)%Z then Py.of_Z (2 ^ e) else / Py.of_Z (2 ^ (- e)).

(** The exponent e with 2^e ≤ |x| < 2^(e+1), for x ≠ 0. *)
Definition ilog2 (x : Qc) : Z :=
  let n := Z.abs (Qnum x) in
  let d := Zpos (Qden x) in
  let e := (Z.log2 n - Z.log2 d)%Z in
  let below :=
    if (0 <=? e)%Z then (n <? 2 ^ e * d)%Z else (n * 2 ^ (- e) <? d)%Z in
  if below then (e - 1)%Z else e.

(** The double nearest to [x]: the multiple of the unit in the last place
    of [x] that is nearest to it, the one with even significand on a tie. *)
Definition RN (x : Qc) : Qc :=
  if decide (x = 0) then 0
  else
    let e := Z.max (ilog2 x) (-1022) in
    let ulp := pow2 (e - 52) in
    Py.of_Z (Py.round_half_even (x / ulp)) * ulp.

(** [float.__round__]: the decimal nearest to the exact value of the double
    (half to even), then the double nearest to that decimal. *)
Definition round (x : Qc) (ndigits : nat) : Qc := RN (Py.round x ndigits).

(** The double that a [FloatField] holds for the decimal n/d. *)
Definition dbl (n : Z) (d : positive) : Qc := RN (Py.qc n d).

(** A recipe as the database holds it: every number the nearest double. *)
Definition stored_nutrient (n : Nutrient) : Nutrient :=
  {| nutrient_pk := nutrient_pk n; nutrient_name := nutrient_name n;
     nutrient_unit := nutrient_unit n; daily_value := RN <$> daily_value n |}.

Definition stored_row (inv : IngredientNutrient) : IngredientNutrient :=
  {| nutrient := stored_nutrient (nutrient inv);
     value_per_100g := RN (value_per_100g inv) |}.

Definition stored_ingredient (i : Ingredient) : Ingredient :=
  {| ingredient_pk := ingredient_pk i; ingredient_name := ingredient_name i;
     category := category i; nutrients := stored_row <$> nutrients i |}.

Definition stored (r : Recipe) : Recipe :=
  {| recipe_name := recipe_name r;
     serving_size := RN (serving_size r);
     serving_unit := serving_unit r;
     servings_per_pack := RN (servings_per_pack r);
     fssai_license := fssai_license r;
     allergen_info := allergen_info r;
     ingredients :=
       (λ ri, {| ri_pk := ri_pk ri; ingredient := stored_ingredient (ingredient ri);
                 weight_grams := RN (weight_grams ri) |}) <$> ingredients r |}.

End Binary64.

Definition binary64 : FloatOps :=
  {| fadd x y := Binary64.RN (x + y);
     fmul x y := Binary64.RN (x * y);
     fdiv x y := Binary64.RN (x / y);
     fround := Binary64.round;
     literal := Binary64.RN |}.

(** ** The aggregator and the attribution on floats

    [Recipe.total_weight], [Recipe.calculate_nutrition] and steps 1 and 2
    of [api_reformulate] once more, statement for statement, with every
    arithmetic operation and every [round] taken from a [FloatOps]. *)

Module Fp.
Section ops.
Context {fo : FloatOps}.

(** [sum(xs)]: left to right from 0. *)
Definition sum (xs : list Qc) : Qc := foldl fadd 0 xs.

(** [a / b]; [None] stands for ZeroDivisionError. *)
Definition div (a b : Qc) : option Qc :=
  if decide (b = 0) then None else Some (fdiv a b).

(** [Recipe.total_weight] *)
Definition total_weight (self : Recipe) : Qc :=
  sum (weight_grams <$> ingredients self).

(** Body of the inner loop of [calculate_nutrition]. *)
Definition add_row (w : Qc) (nutrition : list (Z * Accum)) (inv : IngredientNutrient)
    : list (Z * Accum) :=
  let nid := nutrient_id inv in
  let value := fmul (fdiv w (Py.of_Z 100)) (value_per_100g inv) in
  let nutrition :=
    if Py.contains nid nutrition then nutrition
    else Py.set nid {| acc_nutrient := nutrient inv; acc_total := 0 |} nutrition in
  Py.alter (λ a, {| acc_nutrient := acc_nutrient a; acc_total := fadd (acc_total a) value |})
           nid nutrition.

(** The first loop. *)
Definition accumulate (self : Recipe) : list (Z * Accum) :=
  foldl (λ nutrition ri, foldl (add_row (weight_grams ri)) nutrition (nutrients (ingredient ri)))
        [] (ingredients self).

(** Body of the second loop for one entry. *)
Definition finish (self : Recipe) (total_wt : Qc) (data : Accum) : option NutritionEntry :=
  let nutrient := acc_nutrient data in
  let total := acc_total data in
  q ← div total total_wt;
  let per_serving := fmul q (serving_size self) in
  q' ← div total total_wt;
  let per_100 := fround (fmul q' (Py.of_Z 100)) 2 in
  pdv ← match daily_value nutrient with
        | Some dv =>
            if Py.truthy dv
            then r ← div per_serving dv; Some (Some (fround (fmul r (Py.of_Z 100)) 1))
            else Some None
        | None => Some None
        end;
  Some {| entry_nutrient := nutrient;
          total_value := fround total 2;
          per_serving := fround per_serving 2;
          per_100g := Some per_100;
          percent_dv := pdv |}.

(** [Recipe.calculate_nutrition]; [None] when a division raises. *)
Definition calculate_nutrition (self : Recipe) : option (list (Z * NutritionEntry)) :=
  let nutrition := accumulate self in
  let total_wt := Py.or_ (total_weight self) 1 in
  mapM (λ '(nid, data), e ← finish self total_wt data; Some (nid, e)) nutrition.

(** Step 1 of [api_reformulate], inner loop. *)
Definition ing_nutrients_of (ri : RecipeIngredient) : gmap string IngNutrient :=
  foldl (λ ing_nutrients inv,
           let abs_val := fmul (fdiv (weight_grams ri) (Py.of_Z 100)) (value_per_100g inv) in
           <[ nutrient_name (nutrient inv) :=
                {| abs_ := fround abs_val 4;
                   per_100g_ing := fround (value_per_100g inv) 4;
                   ing_unit := nutrient_unit (nutrient inv) |} ]> ing_nutrients)
        ∅ (nutrients (ingredient ri)).

(** Step 1: the list [ingredient_data]. *)
Definition ingredient_data_of (r : Recipe) : list IngredientData :=
  foldl (λ ingredient_data ri,
           ingredient_data ++
           [ {| data_id := ingredient_pk (ingredient ri);
                data_ri_id := ri_pk ri;
                data_name := ingredient_name (ingredient ri);
                data_category := default "" (category (ingredient ri));
                data_weight_grams := weight_grams ri;
                data_nutrients := ing_nutrients_of ri |} ])
        [] (ingredients r).

(** Step 2, body of the inner loop; the literal [0.001] is a double. *)
Definition contrib_of (total_weight : Qc) (high : FOPIndicator) (ing : IngredientData)
    : option Contribution :=
  match data_nutrients ing !! fop_nutrient high with
  | Some n =>
      if decide (0 < abs_ n) then
        let contrib_per_100g := fmul (fdiv (abs_ n) total_weight) (Py.of_Z 100) in
        Some {| contrib_ingredient := data_name ing;
                contrib_weight_grams := data_weight_grams ing;
                contribution_abs := fround (abs_ n) 3;
                contribution_per_100g := fround contrib_per_100g 3;
                pct_of_total :=
                  fround
                    (fmul
                       (fdiv (abs_ n)
                             (Py.max (fdiv (fmul (fop_value high) total_weight) (Py.of_Z 100))
                                     (literal (Py.qc 1 1000))))
                       (Py.of_Z 100)) 1 |}
      else None
  | None => None
  end.

(** Step 2, inner loop: the list [contribs] before it is sorted. *)
Definition contribs_of (total_weight : Qc) (high : FOPIndicator)
    (ingredient_data : list IngredientData) : list Contribution :=
  foldl (λ contribs ing,
           match contrib_of total_weight high ing with
           | Some c => contribs ++ [c]
           | None => contribs
           end)
        [] ingredient_data.

(** Step 2, body of the outer loop. *)
Definition attribution_of (total_weight : Qc) (ingredient_data : list IngredientData)
    (high : FOPIndicator) : Attribution :=
  let contribs := contribs_of total_weight high ingredient_data in
  let contribs := sort_desc contribution_abs contribs in
  {| current_per_100g := fround (fop_value high) 3;
     attr_threshold := threshold_of (fop_nutrient high);
     attr_unit := fop_unit high;
     top_contributors := take 5 contribs |}.

(** The dict [attribution] of [api_reformulate], from [calculate_nutrition]
    to the end of step 2. *)
Definition reformulate_attribution (r : Recipe) : option (list (string * Attribution)) :=
  nutrition_data ← calculate_nutrition r;
  let checker := new_checker r nutrition_data in
  let fop := get_fop_indicators checker in
  let high_nutrients := high_nutrients_of fop in
  let total_weight := Py.or_ (total_weight r) 1 in
  let ingredient_data := ingredient_data_of r in
  Some (foldl (λ attribution high,
                 Py.set (fop_nutrient high)
                        (attribution_of total_weight ingredient_data high) attribution)
              [] high_nutrients).

End ops.
End Fp.

(** * Properties *)

(** ** Specification-level notions used in the statements *)

(** The ingredient rows the aggregator visits, each with the weight of its
    recipe ingredient, in visiting order. *)
Definition rows (r : Recipe) : list (Qc * IngredientNutrient) :=
  ingredients r ≫= λ ri, (λ inv, (weight_grams ri, inv)) <$> nutrients (ingredient ri).

(** [(weight_grams / 100) * value_per_100g] of one row. *)
Definition contribution (row : Qc * IngredientNutrient) : Qc :=
  (row.1 / Py.of_Z 100) * value_per_100g row.2.

Definition rows_of_nutrient (nid : Z) (r : Recipe) : list (Qc * IngredientNutrient) :=
  filter (λ row, nutrient_id row.2 = nid) (rows r).

Definition Qc_sum (l : list Qc) : Qc := foldr Qcplus 0 l.

(** What [finish] stores when no division fails. *)
Definition finished (r : Recipe) (tw : Qc) (a : Accum) : NutritionEntry :=
  let per_serving := acc_total a / tw * serving_size r in
  {| entry_nutrient := acc_nutrient a;
     total_value := Py.round (acc_total a) 2;
     per_serving := Py.round per_serving 2;
     per_100g := Some (Py.round (acc_total a / tw * Py.of_Z 100) 2);
     percent_dv :=
       match daily_value (acc_nutrient a) with
       | Some dv =>
           if Py.truthy dv then Some (Py.round (per_serving / dv * Py.of_Z 100) 1) else None
       | None => None
       end |}.

(** One loop step, seen from the entry of a single nutrient id. *)
Definition upd (nid : Z) (o : option Accum) (row : Qc * IngredientNutrient) : option Accum :=
  if decide (nutrient_id row.2 = nid)
  then Some {| acc_nutrient := from_option acc_nutrient (nutrient row.2) o;
               acc_total := from_option acc_total 0 o + contribution row |}
  else o.

(** The recipe with every ingredient weight multiplied by [k]. *)
Definition scale_weights (k : Qc) (r : Recipe) : Recipe :=
  {| recipe_name := recipe_name r;
     serving_size := serving_size r;
     serving_unit := serving_unit r;
     servings_per_pack := servings_per_pack r;
     fssai_license := fssai_license r;
     allergen_info := allergen_info r;
     ingredients :=
       (λ ri, {| ri_pk := ri_pk ri; ingredient := ingredient ri;
                 weight_grams := k * weight_grams ri |}) <$> ingredients r |}.

Definition scale_acc (k : Qc) (a : Accum) : Accum :=
  {| acc_nutrient := acc_nutrient a; acc_total := k * acc_total a |}.

(** Two result entries agree on everything but the raw total. *)
Definition same_relative (x y : Z * NutritionEntry) : Prop :=
  x.1 = y.1
  ∧ entry_nutrient x.2 = entry_nutrient y.2
  ∧ per_100g x.2 = per_100g y.2
  ∧ per_serving x.2 = per_serving y.2
  ∧ percent_dv x.2 = percent_dv y.2.

(** A nutrient name is present in a nutrition result. *)
Definition has_name (nd : list (Z * NutritionEntry)) (mn : string) : Prop :=
  mn ∈ (λ p, nutrient_name (entry_nutrient p.2)) <$> nd.

(** The issues each check contributes, as functions of the inputs. *)
Definition mandatory_issues (nd : list (Z * NutritionEntry)) : list string :=
  missing_msg <$> filter (λ mn, mn ∉ present_names nd) MANDATORY_NUTRIENTS.

Definition serving_issues (r : Recipe) : list string :=
  (if negb (Py.truthy (serving_size r)) || bool_decide (serving_size r ≤ 0)
   then ["SERVING SIZE: Must be declared as per FSSAI regulations."] else [])
  ++ (if negb (Str.truthy (serving_unit r))
      then ["SERVING UNIT: Must specify unit (g/ml) for serving size."] else []).

Definition ingredient_issues (r : Recipe) : list string :=
  match ingredients r with
  | [] => [ "INGREDIENT LIST: Recipe must have at least one ingredient. "
            +:+ "FSSAI requires full ingredient list in descending order of weight." ]
  | _ :: _ => []
  end.

Definition all_issues (r : Recipe) (nd : list (Z * NutritionEntry)) : list string :=
  mandatory_issues nd ++ serving_issues r ++ ingredient_issues r.

(** An issue of the "MISSING MANDATORY NUTRIENT" kind. *)
Definition is_missing_issue (msg : string) : Prop :=
  Str.startswith "MISSING MANDATORY NUTRIENT" msg = true.

(** The traffic-light rule for one nutrient: the indicator [ind] carries the
    name, the unit and the looked-up value (0 when absent), and its level and
    colour follow from the value and the threshold. *)
Definition fop_rule (per_100g : gmap string Qc) (name : string) (threshold : Qc)
    (unit : string) (ind : FOPIndicator) : Prop :=
  let value := get0 per_100g name in
  fop_nutrient ind = name ∧ fop_unit ind = unit ∧ fop_value ind = value
  ∧ (threshold < value → fop_level ind = "HIGH" ∧ fop_color ind = "red")
  ∧ (threshold * Py.qc 1 2 < value ∧ value ≤ threshold →
     fop_level ind = "MEDIUM" ∧ fop_color ind = "amber")
  ∧ (value ≤ threshold * Py.qc 1 2 →
     fop_level ind = "LOW" ∧ fop_color ind = "green").

(** The entries of a nutrition result whose nutrient has a given name. *)
Definition entries_named (name : string) (nd : list (Z * NutritionEntry))
    : list (Z * NutritionEntry) :=
  filter (λ p, nutrient_name (entry_nutrient p.2) = name) nd.

(** The numbered lines of one section of the notes, and the section with its
    header: nothing at all for an empty list. *)
Definition numbered (items : list string) : list string :=
  imap (λ i x, "  " +:+ pretty (S i) +:+ ". " +:+ x) items.

Definition section_lines (header : string) (items : list string) : list string :=
  match items with
  | [] => []
  | _ :: _ => header :: numbered items
  end.

(** The reading of "the passed line replaces the sections" under which the
    notes consist of that line alone. *)
Definition passed_line_replaces_sections (c : Checker) : Prop :=
  issues c = [] → warnings c = [] → notes_lines c = [passed_line].

(** The value an ingredient has on record for a nutrient name (of several
    rows of the same name the last one is the one the code keeps). *)
Definition recorded_value (name : string) (ri : RecipeIngredient) : option Qc :=
  value_per_100g <$>
    last (filter (λ inv, nutrient_name (nutrient inv) = name) (nutrients (ingredient ri))).

(** Descending order of a key, and of the reported contribution. *)
Definition desc_by {A : Type} (key : A → Qc) : relation A :=
  λ a b, key b ≤ key a.

Definition desc_by_contribution : relation Contribution := desc_by contribution_abs.

(** What is compared of a reported contributor: ingredient name, weight and
    reported contribution. *)
Definition reported (c : Contribution) : string * Qc * Qc :=
  (contrib_ingredient c, contrib_weight_grams c, contribution_abs c).

#[global] Instance is_missing_issue_dec (msg : string) : Decision (is_missing_issue msg).
Proof. unfold is_missing_issue. apply _. Defined.

(** ** Sample data: nutrients of the seeded catalog and small recipes *)

Module Sample.

Definition mk_nutrient (pk : Z) (name unit : string) (dv : option Z) : Nutrient :=
  {| nutrient_pk := pk; nutrient_name := name; nutrient_unit := unit;
     daily_value := Py.of_Z <$> dv |}.

Definition Energy := mk_nutrient 1 "Energy" "kcal" (Some 2000%Z).
Definition Total_Fat := mk_nutrient 2 "Total Fat" "g" (Some 67%Z).
Definition Protein := mk_nutrient 3 "Protein" "g" (Some 55%Z).
Definition Total_Carbohydrate := mk_nutrient 4 "Total Carbohydrate" "g" (Some 300%Z).
Definition Saturated_Fat := mk_nutrient 5 "Saturated Fat" "g" (Some 22%Z).
Definition Trans_Fat := mk_nutrient 6 "Trans Fat" "g" (Some 2%Z).
Definition Monounsaturated_Fat := mk_nutrient 7 "Monounsaturated Fat" "g" None.
Definition Total_Sugars := mk_nutrient 10 "Total Sugars" "g" (Some 50%Z).
Definition Added_Sugars := mk_nutrient 11 "Added Sugars" "g" (Some 50%Z).
Definition Dietary_Fibre := mk_nutrient 12 "Dietary Fibre" "g" (Some 25%Z).
Definition Sodium := mk_nutrient 13 "Sodium" "mg" (Some 2300%Z).

Definition row (n : Nutrient) (num : Z) (den : positive) : IngredientNutrient :=
  {| nutrient := n; value_per_100g := Py.qc num den |}.

Definition Rice : Ingredient :=
  {| ingredient_pk := 1; ingredient_name := "Rice"; category := Some "Grains";
     nutrients := [ row Energy 345 1 ] |}.
Definition Salt : Ingredient :=
  {| ingredient_pk := 2; ingredient_name := "Salt"; category := Some "Spices";
     nutrients := [ row Sodium 38758 1 ] |}.

(** Oats with seven of the ten mandatory nutrients on record. *)
Definition Oats : Ingredient :=
  {| ingredient_pk := 3; ingredient_name := "Oats"; category := Some "Grains";
     nutrients :=
       [ row Energy 389 1; row Total_Fat 69 10; row Saturated_Fat 12 10;
         row Total_Carbohydrate 663 10; row Total_Sugars 1 1;
         row Protein 169 10; row Sodium 2 1 ] |}.

(** Oats with all ten mandatory nutrients on record. *)
Definition Rolled_Oats : Ingredient :=
  {| ingredient_pk := 4; ingredient_name := "Rolled Oats"; category := Some "Grains";
     nutrients :=
       [ row Energy 389 1; row Total_Fat 69 10; row Saturated_Fat 12 10;
         row Trans_Fat 0 1; row Total_Carbohydrate 663 10; row Total_Sugars 1 1;
         row Added_Sugars 0 1; row Protein 169 10; row Sodium 2 1;
         row Dietary_Fibre 106 10 ] |}.

Definition mk_recipe (name license allergens : string)
    (items : list (Ingredient * Qc)) : Recipe :=
  {| recipe_name := name;
     serving_size := Py.of_Z 100; serving_unit := "g"; servings_per_pack := 1;
     fssai_license := license; allergen_info := allergens;
     ingredients :=
       imap (λ i '(ing, w),
               {| ri_pk := Z.of_nat (S i); ingredient := ing; weight_grams := w |})
            items |}.

(** Rice 100 g and salt 5 g, serving size 100, one serving per pack. *)
Definition rice_salt : Recipe :=
  mk_recipe "Salted rice" "" "" [ (Rice, Py.of_Z 100); (Salt, Py.of_Z 5) ].

(** 50 g of oats: Trans Fat, Added Sugars and Dietary Fibre are missing. *)
Definition oats : Recipe := mk_recipe "Oats" "" "" [ (Oats, Py.of_Z 50) ].

(** 50 g of rolled oats with license and allergen declaration. *)
Definition rolled_oats : Recipe :=
  mk_recipe "Rolled oats" "12345678901234" "Contains gluten"
            [ (Rolled_Oats, Py.of_Z 50) ].

Definition Sugar : Ingredient :=
  {| ingredient_pk := 5; ingredient_name := "Sugar"; category := Some "Sweeteners";
     nutrients := [ row Energy 387 1; row Total_Sugars 998 10; row Sodium 0 1 ] |}.
Definition Stock_A : Ingredient :=
  {| ingredient_pk := 6; ingredient_name := "Stock A"; category := None;
     nutrients := [ row Sodium 100031 100000 ] |}.
Definition Stock_B : Ingredient :=
  {| ingredient_pk := 7; ingredient_name := "Stock B"; category := None;
     nutrients := [ row Sodium 100039 100000 ] |}.

(** A salty broth: salt 10 g, sugar 20 g (Sodium 0 on record), rice 100 g
    (no Sodium on record) and two stocks of 100 g each. *)
Definition broth : Recipe :=
  mk_recipe "Broth" "" ""
    [ (Salt, Py.of_Z 10); (Sugar, Py.of_Z 20); (Rice, Py.of_Z 100);
      (Stock_A, Py.of_Z 100); (Stock_B, Py.of_Z 100) ].

(** A stand-in for the runtime's number printing: numerator/denominator. *)
Definition fraction_format : FloatFormat :=
  {| str_float := λ q, pretty (Qnum q) +:+ "/" +:+ pretty (Zpos (Qden q));
     format_1f := λ q, pretty (Qnum q) +:+ "/" +:+ pretty (Zpos (Qden q)) |}.

(** The aggregation result of a sample recipe. *)
Definition nutrition_of (r : Recipe) : list (Z * NutritionEntry) :=
  default [] (calculate_nutrition r).

End Sample.

(** ** Further specification-level notions *)

(** Appending findings to the three lists of a checker. *)
Definition emit (new_issues new_warnings new_info : list string) (c : Checker) : Checker :=
  {| recipe := recipe c; nutrition_data := nutrition_data c;
     issues := issues c ++ new_issues;
     warnings := warnings c ++ new_warnings;
     info := info c ++ new_info |}.

(** The checker for the same recipe and nutrition data with empty lists. *)
Definition fresh (c : Checker) : Checker :=
  new_checker (recipe c) (nutrition_data c).

(** A check only appends, and what it appends depends on the recipe and the
    nutrition data alone. *)
Definition additive (f : Checker → Checker) : Prop :=
  ∀ c, f c = emit (issues (f (fresh c))) (warnings (f (fresh c))) (info (f (fresh c))) c.

(** The rank of a front-of-pack level. *)
Definition level_rank (level : string) : nat :=
  if decide (level = "HIGH") then 2
  else if decide (level = "MEDIUM") then 1
  else 0.

(** The nutrient ids of a list, each once, in order of first occurrence. *)
Definition first_occurrences (l : list Z) : list Z :=
  foldl (λ seen x, if decide (x ∈ seen) then seen else seen ++ [x]) [] l.


(** The recipe with another list of recipe ingredients. *)
Definition with_ingredients (l : list RecipeIngredient) (r : Recipe) : Recipe :=
  {| recipe_name := recipe_name r;
     serving_size := serving_size r;
     serving_unit := serving_unit r;
     servings_per_pack := servings_per_pack r;
     fssai_license := fssai_license r;
     allergen_info := allergen_info r;
     ingredients := l |}.

(** Rows of the same nutrient id carry the same nutrient (the foreign key
    points at one catalog row). *)
Definition consistent_nutrients (r : Recipe) : Prop :=
  ∀ a b, a ∈ rows r → b ∈ rows r →
    nutrient_id a.2 = nutrient_id b.2 → nutrient a.2 = nutrient b.2.

(** A check run alone, on a fresh checker for the same inputs. *)
Definition alone (f : Checker → Checker) (c : Checker) : Checker := f (fresh c).



(** The note of the ingredient-list check for [n] ingredients. *)
Definition ingredient_note (n : nat) : string :=
  "INGREDIENT LIST: " +:+ pretty n +:+ " ingredients declared. "
  +:+ "Listed in descending order of composition by weight as required.".

Section checks_in_order.
Context `{FloatFormat}.

(** The seven checks, in the order [check_all] runs them. *)
Definition checks_in_order : list (Checker → Checker) :=
  [ _check_mandatory_nutrients; _check_serving_size_declaration; _check_fop_warnings;
    _check_ingredient_list; _check_allergen_declaration; _check_fssai_license;
    _check_trans_fat ].

End checks_in_order.

(** The data the validators admit: no negative serving size, weight,
    nutrient density or daily value. *)
Definition nonneg_recipe (r : Recipe) : Prop :=
  0 ≤ serving_size r
  ∧ (∀ ri, ri ∈ ingredients r → 0 ≤ weight_grams ri)
  ∧ (∀ row, row ∈ rows r →
       0 ≤ value_per_100g row.2
       ∧ ∀ dv, daily_value (nutrient row.2) = Some dv → 0 ≤ dv).

(** [sub] occurs in [s]. *)
Definition substring_of (sub s : string) : Prop := ∃ a b, s = a +:+ sub +:+ b.

(** The form of an ingredient name the keywords are looked up in:
    [ing_name.lower().strip()]. *)
Definition name_lower (ing_name : string) : string := Str.strip (Str.lower ing_name).

(** An ingredient name gives an allergen category away: its lowered,
    stripped form contains one of the keywords of the category. *)
Definition triggers (category ing_name : string) : Prop :=
  ∃ keywords keyword,
    (category, keywords) ∈ ALLERGEN_MAP ∧ keyword ∈ keywords
    ∧ substring_of keyword (name_lower ing_name).

(** Decision procedure for [triggers] over a keyword map. *)
Definition hits_in (M : list (string * list string)) (category ing_name : string) : bool :=
  existsb (λ entry, bool_decide (entry.1 = category)
                    && keyword_hit entry.2 (name_lower ing_name)) M.

Definition hits (category ing_name : string) : bool := hits_in ALLERGEN_MAP category ing_name.

(** One ingredient seen from the entry of a single category. *)
Definition note_hit (M : list (string * list string)) (category : string)
    (o : option (gset string)) (ing_name : string) : option (gset string) :=
  if hits_in M category ing_name then Some (default ∅ o ∪ {[ ing_name ]}) else o.

(** Some category is given away by the name. *)
Definition hits_any (ing_name : string) : bool :=
  existsb (λ entry : string * list string,
             keyword_hit entry.2 (name_lower ing_name)) ALLERGEN_MAP.

(** Appending to a list those of [ings] it does not hold yet. *)
Definition add_new (l ings : list string) : list string :=
  foldl (λ l ing, if bool_decide (ing ∈ l) then l else l ++ [ing]) l ings.




(** The items that carry an ingredient id: present, not null and not 0. *)
Definition has_id (item : LiveItem) : bool :=
  match item_ingredient_id item with
  | None => false
  | Some ing_id => negb (bool_decide (ing_id = 0%Z))
  end.

(** Sample records of the ingredient catalog: rice under id 1, salt under
    id 2. *)
Module Catalog.

Definition nutrient_rows (pk : Z) : list IngredientNutrient :=
  if decide (pk = 1%Z) then nutrients Sample.Rice
  else if decide (pk = 2%Z) then nutrients Sample.Salt
  else [].

End Catalog.

(** The note of the allergen check for a recipe that declares allergens. *)
Definition allergen_provided_note : string := "ALLERGEN DECLARATION: Provided.".

(** ** Notions for the statements about floats *)

Module FpSpec.
Section ops.
Context {fo : FloatOps}.

(** [(weight_grams / 100) * value_per_100g] of one row, as the code
    evaluates it. *)
Definition contribution (row : Qc * IngredientNutrient) : Qc :=
  fmul (fdiv row.1 (Py.of_Z 100)) (value_per_100g row.2).

(** The total of a nutrient: its row contributions added one after the
    other, in row order, starting from 0. *)
Definition total (nid : Z) (r : Recipe) : Qc :=
  Fp.sum (contribution <$> rows_of_nutrient nid r).

(** What [finish] stores when no division fails. *)
Definition finished (r : Recipe) (tw : Qc) (a : Accum) : NutritionEntry :=
  let per_serving := fmul (fdiv (acc_total a) tw) (serving_size r) in
  {| entry_nutrient := acc_nutrient a;
     total_value := fround (acc_total a) 2;
     per_serving := fround per_serving 2;
     per_100g := Some (fround (fmul (fdiv (acc_total a) tw) (Py.of_Z 100)) 2);
     percent_dv :=
       match daily_value (acc_nutrient a) with
       | Some dv =>
           if Py.truthy dv
           then Some (fround (fmul (fdiv per_serving dv) (Py.of_Z 100)) 1)
           else None
       | None => None
       end |}.

(** One loop step, seen from the entry of a single nutrient id. *)
Definition upd (nid : Z) (o : option Accum) (row : Qc * IngredientNutrient) : option Accum :=
  if decide (nutrient_id row.2 = nid)
  then Some {| acc_nutrient := from_option acc_nutrient (nutrient row.2) o;
               acc_total := fadd (from_option acc_total 0 o) (contribution row) |}
  else o.

(** The recipe with every ingredient weight multiplied by [k]. *)
Definition scale_weights (k : Qc) (r : Recipe) : Recipe :=
  {| recipe_name := recipe_name r;
     serving_size := serving_size r;
     serving_unit := serving_unit r;
     servings_per_pack := servings_per_pack r;
     fssai_license := fssai_license r;
     allergen_info := allergen_info r;
     ingredients :=
       (λ ri, {| ri_pk := ri_pk ri; ingredient := ingredient ri;
                 weight_grams := fmul k (weight_grams ri) |}) <$> ingredients r |}.

(** Attribution, read literally: the absolute contribution of an
    ingredient for a nutrient name, and the five largest contributors among
    the ingredients that have a value on record. *)
Definition abs_contribution (name : string) (ri : RecipeIngredient) : option Qc :=
  (λ v, fmul (fdiv (weight_grams ri) (Py.of_Z 100)) v) <$> recorded_value name ri.

Definition literal_top_contributors (name : string) (r : Recipe) : list RecipeIngredient :=
  take 5 (sort_desc (λ ri, default 0 (abs_contribution name ri))
            (filter (λ ri, is_Some (recorded_value name ri)) (ingredients r))).

(** What the code reports for one ingredient and one HIGH nutrient, from the
    recipe row: nothing without a value on record or when the contribution
    rounded to 4 decimals is not positive. *)
Definition reported_abs (name : string) (ri : RecipeIngredient) : option Qc :=
  a ← abs_contribution name ri;
  if decide (0 < fround a 4) then Some (fround (fround a 4) 3) else None.

Definition reported_row (name : string) (ri : RecipeIngredient) : option (string * Qc * Qc) :=
  (λ x, (ingredient_name (ingredient ri), weight_grams ri, x)) <$> reported_abs name ri.

(** The claim "scaling the weights by [k] changes no per_100g, per_serving
    or percent_dv value" at one recipe. *)
Definition unchanged_by_scaling (k : Qc) (r : Recipe) : Prop :=
  ∃ nd nd',
    Fp.calculate_nutrition r = Some nd
    ∧ Fp.calculate_nutrition (scale_weights k r) = Some nd'
    ∧ Forall2 same_relative nd' nd.

End ops.

(** Two result entries of the same shape: same nutrient under the same id,
    and a percent-DV in the one exactly when there is one in the other. *)
Definition same_shape (x y : Z * NutritionEntry) : Prop :=
  x.1 = y.1
  ∧ entry_nutrient x.2 = entry_nutrient y.2
  ∧ (is_Some (per_100g x.2) ↔ is_Some (per_100g y.2))
  ∧ (is_Some (percent_dv x.2) ↔ is_Some (percent_dv y.2)).

End FpSpec.

(** Sample data as the database stores it: every number a double. *)
Module Stored.

(** Oil: Energy and Total Fat, and Monounsaturated Fat, a nutrient without
    daily value. *)
Definition Oil : Ingredient :=
  {| ingredient_pk := 8; ingredient_name := "Oil"; category := Some "Oils";
     nutrients :=
       [ Sample.row Sample.Energy 884 1; Sample.row Sample.Total_Fat 100 1;
         Sample.row Sample.Monounsaturated_Fat 73 1 ] |}.

(** Rice 100 g with oil 10 g. *)
Definition oiled_rice : Recipe :=
  Sample.mk_recipe "Oiled rice" "" "" [ (Sample.Rice, Py.of_Z 100); (Oil, Py.of_Z 10) ].

(** A spread with Total Fat 19.45 g per 100 g. *)
Definition Spread : Ingredient :=
  {| ingredient_pk := 9; ingredient_name := "Spread"; category := None;
     nutrients := [ Sample.row Sample.Total_Fat 1945 100 ] |}.

(** Spread 90 g on rice 10 g. *)
Definition spread_rice : Recipe :=
  Binary64.stored
    (Sample.mk_recipe "Spread on rice" "" ""
       [ (Spread, Py.of_Z 90); (Sample.Rice, Py.of_Z 10) ]).

(** Rice 5 g and a row of -5 g, as the batch upload stores it unchecked. *)
Definition balanced : Recipe :=
  Sample.mk_recipe "Balanced" "" "" [ (Sample.Rice, Py.of_Z 5); (Sample.Salt, Py.of_Z (-5)) ].

(** Salt 10 g with 1 g each of two seasonings, Sodium 0.21 and 0.25 mg per
    100 g. *)
Definition Seasoning_Y : Ingredient :=
  {| ingredient_pk := 10; ingredient_name := "Seasoning Y"; category := None;
     nutrients := [ Sample.row Sample.Sodium 21 100 ] |}.
Definition Seasoning_X : Ingredient :=
  {| ingredient_pk := 11; ingredient_name := "Seasoning X"; category := None;
     nutrients := [ Sample.row Sample.Sodium 25 100 ] |}.

Definition seasoned_salt : Recipe :=
  Binary64.stored
    (Sample.mk_recipe "Seasoned salt" "" ""
       [ (Sample.Salt, Py.of_Z 10); (Seasoning_Y, Py.of_Z 1); (Seasoning_X, Py.of_Z 1) ]).

(** Three ingredients with Protein on record, 1.1, 1.3 and 3 g per 100 g,
    at 50 g, 35 g and 20 g. *)
Definition Gourd : Ingredient :=
  {| ingredient_pk := 12; ingredient_name := "Gourd"; category := None;
     nutrients := [ Sample.row Sample.Protein 11 10 ] |}.
Definition Carrot : Ingredient :=
  {| ingredient_pk := 13; ingredient_name := "Carrot"; category := None;
     nutrients := [ Sample.row Sample.Protein 13 10 ] |}.
Definition Peas : Ingredient :=
  {| ingredient_pk := 14; ingredient_name := "Peas"; category := None;
     nutrients := [ Sample.row Sample.Protein 3 1 ] |}.

Definition stew : Recipe :=
  Binary64.stored
    (Sample.mk_recipe "Stew" "" ""
       [ (Gourd, Py.of_Z 50); (Carrot, Py.of_Z 35); (Peas, Py.of_Z 20) ]).

(** The salty broth of [Sample], stored. *)
Definition broth : Recipe := Binary64.stored Sample.broth.

End Stored.

(** ** Facts about the Python primitives *)

Lemma Qc_1_neq_0 : (1 : Qc) ≠ 0.
Proof. intros E. apply (f_equal (λ q : Qc, Qnum q)) in E. discriminate E. Qed.

Lemma truthy_true (x : Qc) : Py.truthy x = true ↔ x ≠ 0.
Proof.
  unfold Py.truthy. rewrite negb_true_iff, bool_decide_eq_false. done.
Qed.

Lemma or_nonzero (x : Qc) : Py.or_ x 1 ≠ 0.
Proof.
  unfold Py.or_. destruct (Py.truthy x) eqn:E.
  - by apply truthy_true.
  - apply Qc_1_neq_0.
Qed.

Lemma or_zero (x : Qc) : x = 0 → Py.or_ x 1 = 1.
Proof. intros ->. reflexivity. Qed.

Lemma or_nonzero_id (x : Qc) : x ≠ 0 → Py.or_ x 1 = x.
Proof. intros Hx. unfold Py.or_. apply truthy_true in Hx. by rewrite Hx. Qed.

Lemma div_Some (a b : Qc) : b ≠ 0 → Py.div a b = Some (a / b).
Proof. intros Hb. unfold Py.div. by rewrite decide_False. Qed.

Section dict_facts.
Context {K V : Type} `{EqDecision K}.
Implicit Types (k : K) (v : V) (d : list (K * V)).

Lemma get_set k k' v d :
  Py.get k (Py.set k' v d) = if decide (k = k') then Some v else Py.get k d.
Proof.
  induction d as [|[k0 v0] d IH]; simpl.
  - by destruct (decide (k = k')).
  - destruct (decide (k' = k0)) as [->|Hne]; simpl.
    + by destruct (decide (k = k0)).
    + destruct (decide (k = k0)) as [->|]; [|done].
      by rewrite decide_False.
Qed.

Lemma get_alter (f : V → V) k k' d :
  Py.get k (Py.alter f k' d) = if decide (k = k') then f <$> Py.get k d else Py.get k d.
Proof.
  induction d as [|[k0 v0] d IH]; simpl.
  - by destruct (decide (k = k')).
  - destruct (decide (k' = k0)) as [->|Hne]; simpl.
    + by destruct (decide (k = k0)).
    + destruct (decide (k = k0)) as [->|]; [|done].
      by rewrite decide_False.
Qed.

Lemma get_Some_elem_of k v d : Py.get k d = Some v → (k, v) ∈ d.
Proof.
  induction d as [|[k0 v0] d IH]; simpl; [done|].
  destruct (decide (k = k0)) as [->|].
  - intros [= ->]. left.
  - intros Hg. right. by apply IH.
Qed.

Lemma get_fmap {W} (g : V → W) k d :
  Py.get k (prod_map id g <$> d) = g <$> Py.get k d.
Proof.
  induction d as [|[k0 v0] d IH]; simpl; [done|].
  by destruct (decide (k = k0)).
Qed.
End dict_facts.

(** ** The aggregator *)

Lemma accumulate_rows (r : Recipe) :
  accumulate r = foldl (λ d row, add_row row.1 d row.2) [] (rows r).
Proof.
  unfold accumulate, rows. generalize ([] : list (Z * Accum)).
  induction (ingredients r) as [|ri l IH]; intros d; simpl; [done|].
  rewrite foldl_app, foldl_fmap. apply IH.
Qed.

Lemma get_add_row nid w d inv :
  Py.get nid (add_row w d inv) = upd nid (Py.get nid d) (w, inv).
Proof.
  unfold add_row, upd, contribution, Py.contains. simpl. rewrite get_alter.
  destruct (decide (nid = nutrient_id inv)) as [->|Hne].
  - rewrite decide_True by done.
    destruct (Py.get (nutrient_id inv) d) eqn:E; simpl.
    + by rewrite E.
    + rewrite get_set, decide_True by done. simpl. done.
  - rewrite decide_False by done.
    destruct (Py.get (nutrient_id inv) d); [done|].
    by rewrite get_set, decide_False.
Qed.

Lemma get_accumulate nid (r : Recipe) :
  Py.get nid (accumulate r) = foldl (upd nid) None (rows r).
Proof.
  rewrite accumulate_rows.
  change (@None Accum) with (Py.get nid ([] : list (Z * Accum))).
  generalize ([] : list (Z * Accum)).
  induction (rows r) as [|[w inv] l IH]; intros d; simpl; [done|].
  rewrite IH. f_equal. apply get_add_row.
Qed.

Lemma foldl_upd_total nid (l : list (Qc * IngredientNutrient)) (o : option Accum) :
  from_option acc_total 0 (foldl (upd nid) o l)
  = from_option acc_total 0 o
    + Qc_sum (contribution <$> filter (λ row, nutrient_id row.2 = nid) l).
Proof.
  revert o. induction l as [|row l IH]; intros o; simpl.
  - ring.
  - rewrite IH. unfold upd. rewrite filter_cons.
    destruct (decide (nutrient_id row.2 = nid)); simpl; [|done].
    symmetry. apply Qcplus_assoc.
Qed.

Lemma finish_Some (r : Recipe) (tw : Qc) (a : Accum) :
  tw ≠ 0 → finish r tw a = Some (finished r tw a).
Proof.
  intros Htw. unfold finish, finished. rewrite (div_Some _ _ Htw). simpl.
  destruct (daily_value (acc_nutrient a)) as [dv|]; simpl; [|done].
  destruct (Py.truthy dv) eqn:Edv; simpl; [|done].
  apply truthy_true in Edv. by rewrite (div_Some _ _ Edv).
Qed.

Lemma calculate_nutrition_eq (r : Recipe) :
  calculate_nutrition r
  = Some (prod_map id (finished r (Py.or_ (total_weight r) 1)) <$> accumulate r).
Proof.
  unfold calculate_nutrition. apply mapM_Some_2.
  induction (accumulate r) as [|[nid a] l IH]; simpl; constructor; [|done].
  by rewrite finish_Some by apply or_nonzero.
Qed.

(** C5: the aggregator never fails.  The divisor [total_weight or 1] is never
    zero, it is 1 when the total weight is zero, no division raises on any
    recipe, and a recipe without ingredients yields the empty mapping. *)
Theorem calculate_nutrition_total (r : Recipe) :
  Py.or_ (total_weight r) 1 ≠ 0
  ∧ (total_weight r = 0 → Py.or_ (total_weight r) 1 = 1)
  ∧ is_Some (calculate_nutrition r)
  ∧ (total_weight r = 0 →
     calculate_nutrition r = Some (prod_map id (finished r 1) <$> accumulate r))
  ∧ (ingredients r = [] → calculate_nutrition r = Some []).
Proof.
  split; [apply or_nonzero|]. split; [apply or_zero|].
  split; [rewrite calculate_nutrition_eq; eauto|].
  split.
  - intros Hz. by rewrite calculate_nutrition_eq, (or_zero _ Hz).
  - intros Hnil. rewrite calculate_nutrition_eq. unfold accumulate.
    by rewrite Hnil.
Qed.

(** C5 at a recipe without ingredients. *)
Lemma calculate_nutrition_total_witness :
  ingredients (Sample.mk_recipe "Empty" "" "" []) = []
  ∧ total_weight (Sample.mk_recipe "Empty" "" "" []) = 0
  ∧ Py.or_ (total_weight (Sample.mk_recipe "Empty" "" "" [])) 1 = 1
  ∧ calculate_nutrition (Sample.mk_recipe "Empty" "" "" []) = Some [].
Proof.
  destruct (calculate_nutrition_total (Sample.mk_recipe "Empty" "" "" []))
    as (_ & Hone & _ & _ & Hnil).
  split; [reflexivity|]. split; [reflexivity|].
  split; [apply Hone; reflexivity|apply Hnil; reflexivity].
Defined.


(** Comparing two numbers through their canonical fractions. *)
Ltac qc_compute := apply Qc_is_canon; vm_compute; reflexivity.

(** ** Scaling every weight by a constant *)

Section dict_map_facts.
Context {K V W : Type} `{EqDecision K} (g : V → W).
Implicit Types (k : K) (d : list (K * V)).

Lemma contains_fmap k d : Py.contains k (prod_map id g <$> d) = Py.contains k d.
Proof. unfold Py.contains. rewrite get_fmap. by destruct (Py.get k d). Qed.

Lemma set_fmap k (v : V) d :
  Py.set k (g v) (prod_map id g <$> d) = prod_map id g <$> Py.set k v d.
Proof.
  induction d as [|[k0 v0] d IH]; simpl; [done|].
  destruct (decide (k = k0)); simpl; [done|]. f_equal. apply IH.
Qed.

Lemma alter_fmap (f : V → V) (f' : W → W) k d :
  (∀ v, f' (g v) = g (f v)) →
  Py.alter f' k (prod_map id g <$> d) = prod_map id g <$> Py.alter f k d.
Proof.
  intros Hfg. induction d as [|[k0 v0] d IH]; simpl; [done|].
  destruct (decide (k = k0)); simpl; [by rewrite Hfg|]. f_equal. apply IH.
Qed.
End dict_map_facts.

Lemma add_row_scale (k w : Qc) (d : list (Z * Accum)) (inv : IngredientNutrient) :
  add_row (k * w) (prod_map id (scale_acc k) <$> d) inv
  = prod_map id (scale_acc k) <$> add_row w d inv.
Proof.
  unfold add_row. rewrite contains_fmap.
  destruct (Py.contains (nutrient_id inv) d).
  - apply alter_fmap. intros a. unfold scale_acc. simpl. f_equal.
    unfold Qcdiv. ring.
  - rewrite <- (alter_fmap (scale_acc k) _
      (λ a, {| acc_nutrient := acc_nutrient a;
               acc_total := acc_total a + k * w / Py.of_Z 100 * value_per_100g inv |})).
    + f_equal. rewrite <- set_fmap. f_equal. unfold scale_acc. simpl. f_equal. ring.
    + intros a. unfold scale_acc. simpl. f_equal. unfold Qcdiv. ring.
Qed.

Lemma rows_scale (k : Qc) (r : Recipe) :
  rows (scale_weights k r) = prod_map (Qcmult k) id <$> rows r.
Proof.
  unfold rows, scale_weights. cbn [ingredients].
  induction (ingredients r) as [|ri l IH]; [done|].
  rewrite fmap_cons, !bind_cons, fmap_app, IH. f_equal.
  cbn [ingredient weight_grams]. by rewrite <- list_fmap_compose.
Qed.

Lemma accumulate_scale (k : Qc) (r : Recipe) :
  accumulate (scale_weights k r) = prod_map id (scale_acc k) <$> accumulate r.
Proof.
  rewrite !accumulate_rows, rows_scale.
  change ([] : list (Z * Accum)) with (prod_map id (scale_acc k) <$> ([] : list (Z * Accum))) at 1.
  generalize ([] : list (Z * Accum)).
  induction (rows r) as [|[w inv] l IH]; intros d; simpl; [done|].
  rewrite add_row_scale. apply IH.
Qed.

Lemma sum_scale (k : Qc) (ws : list Qc) :
  Py.sum (Qcmult k <$> ws) = k * Py.sum ws.
Proof.
  unfold Py.sum. replace (0 : Qc) with (k * 0) at 1 by ring.
  generalize (0 : Qc). induction ws as [|w ws IH]; intros a; simpl; [done|].
  rewrite <- IH. f_equal. ring.
Qed.

Lemma total_weight_scale (k : Qc) (r : Recipe) :
  total_weight (scale_weights k r) = k * total_weight r.
Proof.
  unfold total_weight, scale_weights. simpl.
  rewrite <- sum_scale, <- !list_fmap_compose. done.
Qed.

Lemma finished_scale (k tw : Qc) (r : Recipe) (a : Accum) :
  k ≠ 0 → tw ≠ 0 →
  same_relative (0%Z, finished (scale_weights k r) (k * tw) (scale_acc k a))
                (0%Z, finished r tw a).
Proof.
  intros Hk Htw.
  assert (Hq : k * acc_total a / (k * tw) = acc_total a / tw) by (by field).
  unfold same_relative, finished. simpl. rewrite Hq. done.
Qed.

(** ** Strings and lists *)

Lemma string_length_app (s t : string) :
  String.length (s +:+ t) = (String.length s + String.length t)%nat.
Proof. induction s as [|a s IH]; simpl; [done|]. by rewrite IH. Qed.

Lemma string_app_inj_r (s1 s2 t : string) : s1 +:+ t = s2 +:+ t → s1 = s2.
Proof.
  revert s2. induction s1 as [|a s1 IH]; intros [|b s2] Heq.
  - done.
  - apply (f_equal String.length) in Heq.
    rewrite !string_length_app in Heq. simpl in Heq. lia.
  - apply (f_equal String.length) in Heq.
    rewrite !string_length_app in Heq. simpl in Heq. lia.
  - simpl in Heq. injection Heq as -> Heq. f_equal. by apply IH.
Qed.

Lemma missing_msg_inj (a b : string) : missing_msg a = missing_msg b → a = b.
Proof.
  unfold missing_msg. intros Heq.
  apply String.app_inj in Heq. by apply string_app_inj_r in Heq.
Qed.

Lemma filter_ext_in {A} (P Q : A → Prop) `{∀ x, Decision (P x)} `{∀ x, Decision (Q x)}
    (l : list A) :
  (∀ x, x ∈ l → P x ↔ Q x) → filter P l = filter Q l.
Proof.
  induction l as [|x l IH]; intros Hpq; [done|].
  rewrite !filter_cons, IH by (intros y Hy; apply Hpq; by right).
  assert (P x ↔ Q x) as Hx by (apply Hpq; left).
  destruct (decide (P x)), (decide (Q x)); tauto || done.
Qed.

(** How often the image of [x] occurs among the images of the filtered
    elements of a duplicate-free list. *)
Lemma count_fmap_filter {A B} `{EqDecision A, EqDecision B} (f : A → B) (P : A → Prop)
    `{∀ x, Decision (P x)} (l : list A) (x : A) :
  (∀ a b, f a = f b → a = b) → NoDup l →
  length (filter (λ y, y = f x) (f <$> filter P l))
  = if decide (x ∈ l ∧ P x) then 1%nat else 0%nat.
Proof.
  intros Hinj. induction 1 as [|y l Hy Hnd IH].
  - rewrite decide_False; [done|]. intros [Hin _]. by apply elem_of_nil in Hin.
  - rewrite (filter_cons P). destruct (decide (P y)) as [HPy|HPy].
    + rewrite fmap_cons, filter_cons.
      destruct (decide (f y = f x)) as [Heq|Hne].
      * apply Hinj in Heq as ->. cbn [length]. rewrite IH.
        rewrite (decide_False (P := x ∈ l ∧ P x)) by tauto.
        rewrite decide_True; [done|]. split; [left|done].
      * assert (y ≠ x) by congruence. rewrite IH.
        destruct (decide (x ∈ l ∧ P x)) as [[? ?]|Hn].
        -- rewrite decide_True; [done|]. split; [by right|done].
        -- rewrite decide_False; [done|]. intros [Hin ?].
           apply elem_of_cons in Hin as [?|?]; [congruence|tauto].
    + rewrite IH. destruct (decide (x ∈ l ∧ P x)) as [[? ?]|Hn].
      * rewrite decide_True; [done|]. split; [by right|done].
      * rewrite decide_False; [done|]. intros [Hin ?].
        apply elem_of_cons in Hin as [->|?]; tauto.
Qed.

Lemma MANDATORY_NUTRIENTS_NoDup : NoDup MANDATORY_NUTRIENTS.
Proof. apply (bool_decide_unpack _). vm_compute. exact I. Qed.

(** ** The compliance checker *)

Lemma elem_of_present_names (nd : list (Z * NutritionEntry)) (mn : string) :
  mn ∈ present_names nd ↔ has_name nd mn.
Proof.
  unfold present_names, has_name.
  assert (Hgen : ∀ s : gset string,
    mn ∈ foldl (λ present '(nid, data),
                  present ∪ {[ nutrient_name (entry_nutrient data) ]}) s nd
    ↔ mn ∈ s ∨ mn ∈ (λ p, nutrient_name (entry_nutrient p.2)) <$> nd).
  { induction nd as [|[nid e] nd IH]; intros s; simpl.
    - rewrite elem_of_nil. tauto.
    - rewrite IH, elem_of_union, elem_of_singleton, elem_of_cons. simpl. tauto. }
  rewrite Hgen, elem_of_empty. tauto.
Qed.

Lemma check_mandatory_frame (c : Checker) :
  recipe (_check_mandatory_nutrients c) = recipe c
  ∧ nutrition_data (_check_mandatory_nutrients c) = nutrition_data c
  ∧ issues (_check_mandatory_nutrients c)
    = issues c ++ mandatory_issues (nutrition_data c).
Proof.
  unfold _check_mandatory_nutrients, mandatory_issues.
  generalize (present_names (nutrition_data c)) as present.
  generalize MANDATORY_NUTRIENTS as l. intros l present. revert c.
  induction l as [|mn l IH]; intros c; simpl.
  - by rewrite app_nil_r.
  - rewrite filter_cons.
    destruct (IH (if decide (mn ∉ present) then issues_append (missing_msg mn) c else c))
      as (Hr & Hn & Hi).
    rewrite Hr, Hn, Hi. destruct (decide (mn ∉ present)); simpl; [|done].
    by rewrite <- app_assoc.
Qed.

Lemma check_serving_frame (c : Checker) :
  recipe (_check_serving_size_declaration c) = recipe c
  ∧ nutrition_data (_check_serving_size_declaration c) = nutrition_data c
  ∧ issues (_check_serving_size_declaration c) = issues c ++ serving_issues (recipe c).
Proof.
  unfold _check_serving_size_declaration, serving_issues.
  destruct (negb (Py.truthy (serving_size (recipe c))) || _),
    (negb (Str.truthy (serving_unit (recipe c)))),
    (negb (Py.truthy (servings_per_pack (recipe c))) || _);
    simpl; rewrite <- ?app_assoc, ?app_nil_r; done.
Qed.

Lemma check_ingredient_list_frame (c : Checker) :
  recipe (_check_ingredient_list c) = recipe c
  ∧ nutrition_data (_check_ingredient_list c) = nutrition_data c
  ∧ issues (_check_ingredient_list c) = issues c ++ ingredient_issues (recipe c).
Proof.
  unfold _check_ingredient_list, ingredient_issues.
  destruct (ingredients (recipe c)); simpl; rewrite ?app_nil_r; done.
Qed.

Lemma check_allergen_frame (c : Checker) :
  recipe (_check_allergen_declaration c) = recipe c
  ∧ nutrition_data (_check_allergen_declaration c) = nutrition_data c
  ∧ issues (_check_allergen_declaration c) = issues c.
Proof.
  unfold _check_allergen_declaration.
  destruct (negb (Str.truthy (allergen_info (recipe c)))); done.
Qed.

Lemma check_license_frame (c : Checker) :
  recipe (_check_fssai_license c) = recipe c
  ∧ nutrition_data (_check_fssai_license c) = nutrition_data c
  ∧ issues (_check_fssai_license c) = issues c.
Proof.
  unfold _check_fssai_license.
  destruct (negb (Str.truthy _)); [done|]. destruct (negb _ || negb _); done.
Qed.

Section checker_facts.
Context `{FloatFormat}.

Lemma check_fop_frame (c : Checker) :
  recipe (_check_fop_warnings c) = recipe c
  ∧ nutrition_data (_check_fop_warnings c) = nutrition_data c
  ∧ issues (_check_fop_warnings c) = issues c.
Proof.
  unfold _check_fop_warnings. repeat case_decide; done.
Qed.

Lemma check_trans_fat_frame (c : Checker) :
  recipe (_check_trans_fat c) = recipe c
  ∧ nutrition_data (_check_trans_fat c) = nutrition_data c
  ∧ issues (_check_trans_fat c) = issues c.
Proof.
  unfold _check_trans_fat.
  destruct (first_named "Trans Fat" _) as [[nid data]|]; [|done].
  destruct (bool_decide _ && bool_decide _); [|done]. case_decide; done.
Qed.

(** The issues [check_all] ends with come from three checks only. *)
Lemma check_all_issues (c : Checker) :
  issues (check_all c).2 = all_issues (recipe c) (nutrition_data c).
Proof.
  unfold check_all, run_checks, all_issues. cbn [snd].
  destruct (check_mandatory_frame (reset c)) as (R1 & N1 & I1).
  set (c1 := _check_mandatory_nutrients (reset c)) in *.
  destruct (check_serving_frame c1) as (R2 & N2 & I2).
  set (c2 := _check_serving_size_declaration c1) in *.
  destruct (check_fop_frame c2) as (R3 & N3 & I3).
  set (c3 := _check_fop_warnings c2) in *.
  destruct (check_ingredient_list_frame c3) as (R4 & N4 & I4).
  set (c4 := _check_ingredient_list c3) in *.
  destruct (check_allergen_frame c4) as (R5 & N5 & I5).
  set (c5 := _check_allergen_declaration c4) in *.
  destruct (check_license_frame c5) as (R6 & N6 & I6).
  set (c6 := _check_fssai_license c5) in *.
  destruct (check_trans_fat_frame c6) as (R7 & N7 & I7).
  rewrite I7, I6, I5, I4, I3, I2, I1, R3, R2, R1.
  unfold reset. cbn [issues recipe nutrition_data]. rewrite app_nil_l.
  by rewrite <- app_assoc.
Qed.

Lemma check_all_verdict (c : Checker) :
  (check_all c).1.1 = (length (issues (check_all c).2) =? 0)%nat.
Proof. unfold check_all. cbv zeta. cbn [fst snd]. reflexivity. Qed.

(** C2: [check_all] answers compliant exactly when the issues it has
    accumulated are empty; two runs that end with the same issues give the
    same verdict whatever their warnings and info are; and the verdict is
    decided by the three issue-producing checks alone (mandatory names,
    serving size and unit, ingredient list). *)
Theorem is_compliant_iff_no_issues :
  (∀ c : Checker, (check_all c).1.1 = true ↔ issues (check_all c).2 = [])
  ∧ (∀ c1 c2 : Checker,
       issues (check_all c1).2 = issues (check_all c2).2 →
       (check_all c1).1.1 = (check_all c2).1.1)
  ∧ (∀ c : Checker,
       (check_all c).1.1 = true
       ↔ all_issues (recipe c) (nutrition_data c) = []).
Proof.
  split; [|split].
  - intros c. rewrite check_all_verdict, Nat.eqb_eq. apply length_zero_iff_nil.
  - intros c1 c2 Heq. rewrite !check_all_verdict, Heq. reflexivity.
  - intros c. rewrite <- check_all_issues, check_all_verdict, Nat.eqb_eq.
    apply length_zero_iff_nil.
Qed.


Lemma missing_msg_is_missing (mn : string) : is_missing_issue (missing_msg mn).
Proof. reflexivity. Qed.

Lemma other_issues_not_missing (r : Recipe) :
  filter is_missing_issue (serving_issues r ++ ingredient_issues r) = [].
Proof.
  unfold serving_issues, ingredient_issues.
  destruct (negb (Py.truthy (serving_size r)) || _),
    (negb (Str.truthy (serving_unit r))), (ingredients r); reflexivity.
Qed.

(** C3: run on a fresh checker, the mandatory-nutrient check emits the
    "MISSING MANDATORY NUTRIENT" message of a mandatory name exactly once
    when the name is absent from the result, never the message of a name
    that is present, and nothing else; the list has ten names.  When the
    absent mandatory names are exactly Trans Fat, Added Sugars and Dietary
    Fibre, [check_all] answers non-compliant and exactly three of its
    issues are of that kind. *)
Theorem mandatory_nutrient_issues (r : Recipe) (nd : list (Z * NutritionEntry)) :
  let out := issues (_check_mandatory_nutrients (new_checker r nd)) in
  length MANDATORY_NUTRIENTS = 10%nat
  ∧ (∀ mn, mn ∈ MANDATORY_NUTRIENTS → ¬ has_name nd mn →
       length (filter (λ msg, msg = missing_msg mn) out) = 1%nat)
  ∧ (∀ mn, has_name nd mn → missing_msg mn ∉ out)
  ∧ (∀ msg, msg ∈ out →
       ∃ mn, mn ∈ MANDATORY_NUTRIENTS ∧ ¬ has_name nd mn ∧ msg = missing_msg mn)
  ∧ ((∀ mn, mn ∈ MANDATORY_NUTRIENTS →
        (¬ has_name nd mn ↔ mn ∈ ["Trans Fat"; "Added Sugars"; "Dietary Fibre"])) →
     (check_all (new_checker r nd)).1.1 = false
     ∧ length (filter is_missing_issue (issues (check_all (new_checker r nd)).2))
       = 3%nat).
Proof.
  intros out.
  assert (Hout : out = mandatory_issues nd).
  { unfold out. by destruct (check_mandatory_frame (new_checker r nd)) as (_ & _ & ->). }
  rewrite Hout. unfold mandatory_issues.
  split; [reflexivity|]. split; [|split; [|split]].
  - intros mn Hin Habs.
    rewrite (count_fmap_filter missing_msg _ _ mn missing_msg_inj
               MANDATORY_NUTRIENTS_NoDup).
    rewrite decide_True; [done|]. split; [done|].
    by rewrite elem_of_present_names.
  - intros mn Hpres Hin.
    apply list_elem_of_fmap in Hin as (mn' & Heq & Hin).
    apply missing_msg_inj in Heq as <-.
    apply list_elem_of_filter in Hin as [Habs _].
    by rewrite elem_of_present_names in Habs.
  - intros msg Hin.
    apply list_elem_of_fmap in Hin as (mn & -> & Hin).
    apply list_elem_of_filter in Hin as [Habs Hin].
    rewrite elem_of_present_names in Habs. eauto.
  - intros Hthree.
    assert (Hm : mandatory_issues nd
                 = missing_msg <$> ["Trans Fat"; "Added Sugars"; "Dietary Fibre"]).
    { unfold mandatory_issues. f_equal.
      rewrite (filter_ext_in _
                 (λ mn, mn ∈ ["Trans Fat"; "Added Sugars"; "Dietary Fibre"])).
      - apply (bool_decide_unpack _). vm_compute. exact I.
      - intros mn Hin. rewrite elem_of_present_names. by apply Hthree. }
    rewrite check_all_verdict, check_all_issues.
    unfold all_issues, new_checker. cbn [recipe nutrition_data].
    rewrite Hm. split; [reflexivity|].
    rewrite filter_app, other_issues_not_missing, app_nil_r. reflexivity.
Qed.

End checker_facts.

(** C2 at the rolled oats recipe: no issue, compliant. *)
Lemma is_compliant_iff_no_issues_witness :
  let c := new_checker Sample.rolled_oats (Sample.nutrition_of Sample.rolled_oats) in
  issues (@check_all Sample.fraction_format c).2 = []
  ∧ (@check_all Sample.fraction_format c).1.1 = true.
Proof.
  intros c.
  assert (Hi : issues (@check_all Sample.fraction_format c).2 = [])
    by (vm_compute; reflexivity).
  split; [exact Hi|].
  exact (proj2 (proj1 (@is_compliant_iff_no_issues Sample.fraction_format) c) Hi).
Defined.

(** C3 at 50 g of oats, whose result lacks Trans Fat, Added Sugars and
    Dietary Fibre. *)
Lemma mandatory_nutrient_issues_witness :
  let nd := Sample.nutrition_of Sample.oats in
  (∀ mn, mn ∈ MANDATORY_NUTRIENTS →
     (¬ has_name nd mn ↔ mn ∈ ["Trans Fat"; "Added Sugars"; "Dietary Fibre"]))
  ∧ (@check_all Sample.fraction_format (new_checker Sample.oats nd)).1.1 = false
  ∧ length (filter is_missing_issue
              (issues (@check_all Sample.fraction_format (new_checker Sample.oats nd)).2))
    = 3%nat.
Proof.
  intros nd.
  assert (Hthree : ∀ mn, mn ∈ MANDATORY_NUTRIENTS →
    (¬ has_name nd mn ↔ mn ∈ ["Trans Fat"; "Added Sugars"; "Dietary Fibre"])).
  { apply Forall_forall. unfold has_name.
    unfold MANDATORY_NUTRIENTS.
    repeat (apply List.Forall_cons;
            [apply (bool_decide_unpack _); vm_compute; exact I|]).
    apply List.Forall_nil. }
  split; [exact Hthree|].
  exact (proj2 (proj2 (proj2 (proj2
    (@mandatory_nutrient_issues Sample.fraction_format Sample.oats nd)))) Hthree).
Defined.

(** ** The front-of-pack classifier *)

Lemma half_lt (t : Qc) : 0 < t → t * Py.qc 1 2 < t.
Proof.
  intros Ht. rewrite <- (Qcmult_1_r t) at 2.
  apply Qcmult_lt_mono_pos_l; [done|]. vm_compute. reflexivity.
Qed.

Lemma fop_indicator_rule (m : gmap string Qc) (name : string) (t : Qc) (u : string) :
  0 < t → fop_rule m name t u (fop_indicator m (name, t, u)).
Proof.
  intros Ht. unfold fop_rule, fop_indicator.
  destruct (decide (t < get0 m name)) as [Hhi|Hhi];
    [|destruct (decide (t * Py.qc 1 2 < get0 m name)) as [Hmid|Hmid]];
    cbn [fop_nutrient fop_unit fop_value fop_level fop_color];
    (split; [done|]); (split; [done|]); (split; [done|]).
  - split; [done|]. split.
    + intros [_ Hle]. by apply Qclt_not_le in Hhi.
    + intros Hle. exfalso. apply (Qclt_not_le _ _ Hhi).
      apply Qclt_le_weak. eapply Qcle_lt_trans; [exact Hle|]. by apply half_lt.
  - split; [done|]. split; [done|].
    intros Hle. by apply Qclt_not_le in Hmid.
  - split; [done|]. split; [|done]. by intros [? _].
Qed.

Lemma per_100g_by_name_lookup (nd : list (Z * NutritionEntry)) (name : string) :
  per_100g_by_name nd !! name
  = (λ p, default 0 (per_100g p.2)) <$> last (entries_named name nd).
Proof.
  unfold per_100g_by_name, entries_named.
  assert (Hgen : ∀ m : gmap string Qc,
    foldl (λ m '(nid, data),
             <[ nutrient_name (entry_nutrient data) := default 0 (per_100g data) ]> m)
          m nd !! name
    = match last (filter (λ p, nutrient_name (entry_nutrient p.2) = name) nd) with
      | Some p => Some (default 0 (per_100g p.2))
      | None => m !! name
      end).
  { induction nd as [|[nid e] nd IH]; intros m; [done|].
    cbn [foldl]. rewrite IH, filter_cons. cbn [snd].
    destruct (decide (nutrient_name (entry_nutrient e) = name)) as [<-|Hne].
    - rewrite last_cons. destruct (last _); [done|]. by rewrite lookup_insert_eq.
    - destruct (last _); [done|]. by rewrite lookup_insert_ne. }
  rewrite Hgen, lookup_empty. by destruct (last _).
Qed.

(** C4: on every name-to-value mapping the classifier returns exactly four
    indicators, for Total Fat, Saturated Fat, Total Sugars and Sodium in this
    order, each carrying the looked-up value (0 for an absent name) and
    HIGH/red above the threshold, MEDIUM/amber above half of it and up to it,
    LOW/green up to half of it, the thresholds being 17.5, 5, 22.5 and 600;
    [get_fop_indicators] applies it to the mapping that sends a nutrient name
    to the per_100g of the last entry of that name (0 if the entry has none). *)
Theorem fop_classification :
  (∀ m : gmap string Qc,
     ∃ fat sat sugars sodium,
       classify m = [fat; sat; sugars; sodium]
       ∧ fop_rule m "Total Fat" (Py.qc 35 2) "g" fat
       ∧ fop_rule m "Saturated Fat" (Py.of_Z 5) "g" sat
       ∧ fop_rule m "Total Sugars" (Py.qc 45 2) "g" sugars
       ∧ fop_rule m "Sodium" (Py.of_Z 600) "mg" sodium)
  ∧ (∀ c : Checker,
       get_fop_indicators c = classify (per_100g_by_name (nutrition_data c))
       ∧ ∀ name,
           get0 (per_100g_by_name (nutrition_data c)) name
           = match last (entries_named name (nutrition_data c)) with
             | Some p => default 0 (per_100g p.2)
             | None => 0
             end).
Proof.
  split.
  - intros m. eexists _, _, _, _. split; [reflexivity|].
    assert (Hrule : ∀ name t u, 0 < t → fop_rule m name t u (fop_indicator m (name, t, u)))
      by (intros; by apply fop_indicator_rule).
    split; [apply Hrule; vm_compute; reflexivity|].
    split; [apply Hrule; vm_compute; reflexivity|].
    split; apply Hrule; vm_compute; reflexivity.
  - intros c. split; [reflexivity|]. intros name.
    unfold get0. rewrite per_100g_by_name_lookup. by destruct (last _).
Qed.

(** ** The license check *)

Lemma digit_not_space (c : ascii) :
  Str.isdigit_char c = true → Str.isspace c = false.
Proof. destruct c as [[] [] [] [] [] [] [] []]; vm_compute; congruence. Qed.

Lemma lstrip_spaces_app (ws t : string) :
  Str.all Str.isspace ws = true → Str.lstrip (ws +:+ t) = Str.lstrip t.
Proof.
  induction ws as [|c ws IH]; simpl; [done|].
  intros [Hc Hws]%andb_true_iff. rewrite Hc. by apply IH.
Qed.

Lemma lstrip_spaces (ws : string) :
  Str.all Str.isspace ws = true → Str.lstrip ws = "".
Proof.
  induction ws as [|c ws IH]; simpl; [done|].
  intros [Hc Hws]%andb_true_iff. rewrite Hc. by apply IH.
Qed.

Lemma lstrip_digit_first (c : ascii) (t : string) :
  Str.isdigit_char c = true → Str.lstrip (String c t) = String c t.
Proof. intros Hc. simpl. by rewrite (digit_not_space c Hc). Qed.

Lemma rstrip_spaces (ws : string) :
  Str.all Str.isspace ws = true → Str.rstrip ws = "".
Proof.
  induction ws as [|c ws IH]; simpl; [done|].
  intros [Hc Hws]%andb_true_iff. by rewrite (IH Hws), Hc.
Qed.

Lemma rstrip_digits_app (d ws : string) :
  Str.all Str.isdigit_char d = true → Str.all Str.isspace ws = true →
  Str.rstrip (d +:+ ws) = d.
Proof.
  intros Hd Hws. induction d as [|c d IH]; simpl.
  - by apply rstrip_spaces.
  - simpl in Hd. apply andb_true_iff in Hd as [Hc Hd]. rewrite (IH Hd).
    destruct d; [|done]. by rewrite (digit_not_space c Hc).
Qed.

Lemma strip_padded_digits (ws1 d ws2 : string) :
  Str.all Str.isspace ws1 = true → Str.all Str.isspace ws2 = true →
  Str.all Str.isdigit_char d = true →
  Str.strip (ws1 +:+ d +:+ ws2) = d.
Proof.
  intros H1 H2 Hd. unfold Str.strip. rewrite (lstrip_spaces_app _ _ H1).
  destruct d as [|c d].
  - change ("" +:+ ws2) with ws2. by rewrite (lstrip_spaces _ H2).
  - pose proof Hd as Hd'. simpl in Hd'. apply andb_true_iff in Hd' as [Hc _].
    change (String c d +:+ ws2) with (String c (d +:+ ws2)).
    rewrite (lstrip_digit_first c _ Hc).
    change (String c (d +:+ ws2)) with (String c d +:+ ws2).
    by apply rstrip_digits_app.
Qed.

(** C10: the license check works on the stripped license.  A license made
    of whitespace only (the empty one included) gets the "no license
    provided" warning; a license of 14 digits with whitespace before and
    after gets the "format valid" note and no warning. *)
Theorem license_check_strips :
  (∀ c : Checker,
     Str.all Str.isspace (fssai_license (recipe c)) = true →
     _check_fssai_license c = warnings_append license_missing_msg c)
  ∧ (∀ c : Checker,
       fssai_license (recipe c) = "" →
       _check_fssai_license c = warnings_append license_missing_msg c)
  ∧ (∀ (c : Checker) (ws1 d ws2 : string),
       fssai_license (recipe c) = ws1 +:+ d +:+ ws2 →
       Str.all Str.isspace ws1 = true →
       Str.all Str.isspace ws2 = true →
       String.length d = 14%nat →
       Str.all Str.isdigit_char d = true →
       _check_fssai_license c = info_append (license_valid_msg d) c
       ∧ warnings (_check_fssai_license c) = warnings c
       ∧ info (_check_fssai_license c) = info c ++ [license_valid_msg d]).
Proof.
  assert (Hws : ∀ c : Checker,
    Str.all Str.isspace (fssai_license (recipe c)) = true →
    _check_fssai_license c = warnings_append license_missing_msg c).
  { intros c Hall. unfold _check_fssai_license, Str.strip.
    by rewrite (lstrip_spaces _ Hall). }
  split; [exact Hws|]. split.
  - intros c Hlic. apply Hws. by rewrite Hlic.
  - intros c ws1 d ws2 Hlic H1 H2 Hlen Hd.
    assert (Hcheck : _check_fssai_license c = info_append (license_valid_msg d) c).
    { unfold _check_fssai_license.
      rewrite Hlic, (strip_padded_digits _ _ _ H1 H2 Hd).
      unfold Str.isdigit. rewrite Hd, Hlen.
      destruct d; [discriminate Hlen|]. reflexivity. }
    rewrite Hcheck. done.
Qed.

(** C10 at a blank license and at a padded 14-digit license. *)
Lemma license_check_strips_witness :
  let blank := new_checker (Sample.mk_recipe "r" "   " "" []) [] in
  let padded := new_checker (Sample.mk_recipe "r" " 12345678901234  " "" []) [] in
  warnings (_check_fssai_license blank) = [license_missing_msg]
  ∧ info (_check_fssai_license padded) = ["FSSAI LICENSE: 12345678901234 (format valid)."]
  ∧ warnings (_check_fssai_license padded) = [].
Proof.
  intros blank padded.
  destruct license_check_strips as (Hblank & _ & Hpadded).
  split.
  - by rewrite (Hblank blank).
  - destruct (Hpadded padded " " "12345678901234" "  ") as (_ & Hw & Hi); try done.
Defined.

(** ** The formatted notes *)

Lemma append_numbered_eq (lines items : list string) :
  append_numbered lines items = lines ++ numbered items.
Proof.
  unfold append_numbered, numbered.
  assert (Hgen : ∀ (n : nat) (lines : list string),
    foldl (λ lines '(i, x), lines ++ ["  " +:+ pretty i +:+ ". " +:+ x])
          lines (Str.enumerate n items)
    = lines ++ imap (λ i x, "  " +:+ pretty (n + i)%nat +:+ ". " +:+ x) items).
  { induction items as [|x items IH]; intros n ls.
    - by rewrite app_nil_r.
    - cbn [Str.enumerate foldl]. rewrite IH, imap_cons, <- app_assoc.
      cbn [app]. rewrite Nat.add_0_r. do 2 f_equal.
      apply imap_ext. intros i y _. simpl. by rewrite Nat.add_succ_r. }
  apply Hgen.
Qed.

(** C8 as amended: the lines of the notes are the Issues section, the
    Warnings section and the Info section, each present exactly when its
    list is non-empty and made of its header followed by the items numbered
    from 1, and then, exactly when both issues and warnings are empty, the
    "all checks passed" line; so with no issues and no warnings the notes
    are the Info section (if any) followed by that line.  The notes string
    joins these lines with newlines. *)
Theorem notes_sections (c : Checker) :
  notes_lines c
  = section_lines issues_header (issues c)
    ++ section_lines warnings_header (warnings c)
    ++ section_lines info_header (info c)
    ++ match issues c, warnings c with
       | [], [] => [passed_line]
       | _, _ => []
       end
  ∧ _format_notes c = Str.join Str.nl (notes_lines c)
  ∧ (issues c = [] → warnings c = [] →
     notes_lines c = section_lines info_header (info c) ++ [passed_line]).
Proof.
  assert (Hlines : notes_lines c
    = section_lines issues_header (issues c)
      ++ section_lines warnings_header (warnings c)
      ++ section_lines info_header (info c)
      ++ match issues c, warnings c with
         | [], [] => [passed_line]
         | _, _ => []
         end).
  { unfold notes_lines, section_lines.
    destruct (issues c) as [|x xs], (warnings c) as [|w ws], (info c) as [|n ns];
      rewrite ?append_numbered_eq, ?app_nil_l, <- ?app_assoc, ?app_nil_r;
      reflexivity. }
  split; [exact Hlines|]. split; [reflexivity|].
  intros Hi Hw. rewrite Hlines, Hi, Hw. reflexivity.
Qed.

(** C8 (amended) at a checker holding one info note only. *)
Lemma notes_sections_witness :
  let c := info_append "ALLERGEN DECLARATION: Provided."
             (new_checker (Sample.mk_recipe "r" "" "" []) []) in
  issues c = [] ∧ warnings c = []
  ∧ notes_lines c = [info_header; "  1. ALLERGEN DECLARATION: Provided."; passed_line].
Proof.
  intros c. split; [reflexivity|]. split; [reflexivity|].
  exact (proj2 (proj2 (notes_sections c)) eq_refl eq_refl).
Defined.


(** C8, counterexample to the reading in which the passed line stands alone:
    for 50 g of rolled oats with license and allergen declaration,
    [check_all] ends with no issue and no warning, and the notes are the Info
    section with its three numbered lines followed by the passed line. *)
Lemma notes_keep_info_section :
  let c := (@check_all Sample.fraction_format
              (new_checker Sample.rolled_oats (Sample.nutrition_of Sample.rolled_oats))).2 in
  issues c = [] ∧ warnings c = []
  ∧ notes_lines c
    = [ info_header;
        "  1. INGREDIENT LIST: 1 ingredients declared. Listed in descending order of composition by weight as required.";
        "  2. ALLERGEN DECLARATION: Provided.";
        "  3. FSSAI LICENSE: 12345678901234 (format valid).";
        passed_line ]
  ∧ ¬ passed_line_replaces_sections c.
Proof.
  intros c.
  assert (Hi : issues c = []) by (vm_compute; reflexivity).
  assert (Hw : warnings c = []) by (vm_compute; reflexivity).
  assert (Hn : notes_lines c
    = [ info_header;
        "  1. INGREDIENT LIST: 1 ingredients declared. Listed in descending order of composition by weight as required.";
        "  2. ALLERGEN DECLARATION: Provided.";
        "  3. FSSAI LICENSE: 12345678901234 (format valid).";
        passed_line ]) by (vm_compute; reflexivity).
  split; [exact Hi|]. split; [exact Hw|]. split; [exact Hn|].
  intros Hclaim. specialize (Hclaim Hi Hw). rewrite Hn in Hclaim. discriminate Hclaim.
Qed.

(** ** Attribution *)

Section sort_facts.
Context {A : Type} (key : A → Qc).
Local Abbreviation R := (desc_by key).

Lemma elem_of_insert_desc (x y : A) (l : list A) :
  y ∈ insert_desc key x l ↔ y = x ∨ y ∈ l.
Proof.
  induction l as [|z l IH]; simpl.
  - rewrite elem_of_cons, elem_of_nil. tauto.
  - destruct (decide (key x < key z)).
    + rewrite !elem_of_cons, IH. tauto.
    + rewrite !elem_of_cons. tauto.
Qed.

Lemma insert_desc_sorted (x : A) (l : list A) :
  StronglySorted R l → StronglySorted R (insert_desc key x l).
Proof.
  induction 1 as [|z l Hs IH Hz]; simpl.
  - repeat constructor.
  - destruct (decide (key x < key z)) as [Hlt|Hge].
    + constructor; [done|]. apply Forall_forall. intros y Hy.
      apply elem_of_insert_desc in Hy as [->|Hy].
      * by apply Qclt_le_weak.
      * by apply (proj1 (Forall_forall _ _) Hz).
    + apply Qcnot_lt_le in Hge. constructor; [by constructor|].
      constructor; [done|]. apply Forall_forall. intros y Hy.
      apply (Qcle_trans _ (key z)); [|done].
      by apply (proj1 (Forall_forall _ _) Hz).
Qed.

Lemma sort_desc_sorted (l : list A) : StronglySorted R (sort_desc key l).
Proof.
  induction l as [|x l IH]; simpl; [constructor|]. by apply insert_desc_sorted.
Qed.

Lemma take_sorted (n : nat) (l : list A) :
  StronglySorted R l → StronglySorted R (take n l).
Proof.
  intros Hs. rewrite <- (take_drop n l) in Hs.
  by apply StronglySorted_app_1_l in Hs.
Qed.

Lemma sort_desc_fmap {B} (g : A → B) (key' : B → Qc) (l : list A) :
  (∀ x, key' (g x) = key x) →
  g <$> sort_desc key l = sort_desc key' (g <$> l).
Proof.
  intros Hk. induction l as [|x l IH]; [done|].
  cbn [sort_desc foldr fmap list_fmap]. fold (sort_desc key l).
  change (foldr (insert_desc key') [] (g <$> l)) with (sort_desc key' (g <$> l)).
  rewrite <- IH. generalize (sort_desc key l) as s. clear IH.
  induction s as [|y s IHs]; [done|]. cbn [insert_desc fmap list_fmap].
  rewrite !Hk. destruct (decide (key x < key y)); [|done].
  cbn [fmap list_fmap]. f_equal. apply IHs.
Qed.
End sort_facts.

Lemma foldl_snoc_fmap {A B} (f : A → B) (l : list A) :
  foldl (λ acc x, acc ++ [f x]) [] l = f <$> l.
Proof.
  assert (Hgen : ∀ acc, foldl (λ acc x, acc ++ [f x]) acc l = acc ++ (f <$> l)).
  { induction l as [|x l IH]; intros acc; simpl.
    - by rewrite app_nil_r.
    - rewrite IH, <- app_assoc. done. }
  apply Hgen.
Qed.

Lemma foldl_snoc_omap {A B} (f : A → option B) (l : list A) :
  foldl (λ acc x, match f x with Some y => acc ++ [y] | None => acc end) [] l
  = omap f l.
Proof.
  assert (Hgen : ∀ acc,
    foldl (λ acc x, match f x with Some y => acc ++ [y] | None => acc end) acc l
    = acc ++ omap f l).
  { induction l as [|x l IH]; intros acc; simpl.
    - by rewrite app_nil_r.
    - rewrite IH. destruct (f x); [|done]. by rewrite <- app_assoc. }
  apply Hgen.
Qed.

(** A dict built by successive [d[key(x)] = val(x)]: the last [x] of a key
    decides its value. *)
Lemma foldl_insert_lookup {A V} (key : A → string) (val : A → V) (l : list A)
    (k : string) :
  foldl (λ m x, <[ key x := val x ]> m) (∅ : gmap string V) l !! k
  = val <$> last (filter (λ x, key x = k) l).
Proof.
  assert (Hgen : ∀ m : gmap string V,
    foldl (λ m x, <[ key x := val x ]> m) m l !! k
    = match last (filter (λ x, key x = k) l) with
      | Some x => Some (val x)
      | None => m !! k
      end).
  { induction l as [|x l IH]; intros m; [done|].
    cbn [foldl]. rewrite IH, filter_cons.
    destruct (decide (key x = k)) as [<-|Hne].
    - rewrite last_cons. destruct (last _); [done|]. by rewrite lookup_insert_eq.
    - destruct (last _); [done|]. by rewrite lookup_insert_ne. }
  rewrite Hgen, lookup_empty. by destruct (last _).
Qed.

Lemma set_fresh {V} (k : string) (v : V) (d : list (string * V)) :
  k ∉ d.*1 → Py.set k v d = d ++ [(k, v)].
Proof.
  induction d as [|[k0 v0] d IH]; simpl; [done|].
  rewrite not_elem_of_cons. intros [Hne Hd].
  rewrite decide_False by done. f_equal. by apply IH.
Qed.

Lemma foldl_set_NoDup {A V} (key : A → string) (val : A → V) (l : list A) :
  NoDup (key <$> l) →
  foldl (λ d x, Py.set (key x) (val x) d) [] l = (λ x, (key x, val x)) <$> l.
Proof.
  assert (Hgen : ∀ d : list (string * V),
    NoDup (d.*1 ++ (key <$> l)) →
    foldl (λ d x, Py.set (key x) (val x) d) d l = d ++ ((λ x, (key x, val x)) <$> l)).
  { induction l as [|x l IH]; intros d Hnd.
    - by rewrite app_nil_r.
    - cbn [foldl]. rewrite fmap_cons in Hnd.
      rewrite set_fresh.
      + rewrite IH.
        * by rewrite <- app_assoc.
        * rewrite fmap_app, <- app_assoc. exact Hnd.
      + apply NoDup_app in Hnd as (_ & Hdis & _). intros Hin.
        apply (Hdis _ Hin). left. }
  intros Hnd. apply (Hgen []). exact Hnd.
Qed.

Lemma fop_indicator_name (m : gmap string Qc) (check : string * Qc * string) :
  fop_nutrient (fop_indicator m check) = check.1.1.
Proof.
  destruct check as [[n t] u]. unfold fop_indicator. repeat case_decide; reflexivity.
Qed.

Lemma classify_names (m : gmap string Qc) :
  fop_nutrient <$> classify m = ["Total Fat"; "Saturated Fat"; "Total Sugars"; "Sodium"].
Proof.
  unfold classify. rewrite foldl_snoc_fmap, <- list_fmap_compose.
  unfold fop_checks. cbn [fmap list_fmap compose]. by rewrite !fop_indicator_name.
Qed.

Lemma high_nutrients_NoDup (m : gmap string Qc) :
  NoDup (fop_nutrient <$> high_nutrients_of (classify m)).
Proof.
  apply (sublist_NoDup _ (fop_nutrient <$> classify m)).
  - rewrite classify_names. apply (bool_decide_unpack _). vm_compute. exact I.
  - apply fmap_sublist, sublist_filter.
Qed.

Lemma omap_fmap_compose {A B C} (g : A → B) (f : B → option C) (l : list A) :
  omap f (g <$> l) = omap (λ x, f (g x)) l.
Proof.
  induction l as [|x l IH]; simpl; [done|].
  destruct (f (g x)); [f_equal|]; apply IH.
Qed.

Lemma omap_ext_eq {A B} (f g : A → option B) (l : list A) :
  (∀ x, f x = g x) → omap f l = omap g l.
Proof.
  intros Hfg. induction l as [|x l IH]; simpl; [done|].
  rewrite Hfg. destruct (g x); [f_equal|]; apply IH.
Qed.

(** * Further properties *)

(** ** How the checks compose *)

Lemma fresh_fresh (c : Checker) : fresh (fresh c) = fresh c.
Proof. reflexivity. Qed.

Lemma emit_emit (a b n a' b' n' : list string) (c : Checker) :
  emit a' b' n' (emit a b n c) = emit (a ++ a') (b ++ b') (n ++ n') c.
Proof. unfold emit. cbn [recipe nutrition_data issues warnings info]. by rewrite !app_assoc. Qed.

Lemma emit_nil (c : Checker) : emit [] [] [] c = c.
Proof. destruct c. unfold emit. cbn. by rewrite !app_nil_r. Qed.

Lemma fresh_emit (a b n : list string) (c : Checker) : fresh (emit a b n c) = fresh c.
Proof. reflexivity. Qed.

Lemma additive_fresh (f : Checker → Checker) (c : Checker) :
  additive f → fresh (f c) = fresh c.
Proof. intros Hf. by rewrite (Hf c), fresh_emit. Qed.

Lemma additive_compose (f g : Checker → Checker) :
  additive f → additive g → additive (λ c, g (f c)).
Proof.
  intros Hf Hg c. cbv beta.
  assert (Hgf : ∀ c', fresh c' = fresh c →
    g (f c') = emit (issues (f (fresh c)) ++ issues (g (fresh c)))
                    (warnings (f (fresh c)) ++ warnings (g (fresh c)))
                    (info (f (fresh c)) ++ info (g (fresh c))) c').
  { intros c' Hc'.
    rewrite (Hg (f c')), (additive_fresh f c' Hf), Hc'.
    rewrite (Hf c') at 1. rewrite Hc'. apply emit_emit. }
  rewrite (Hgf c eq_refl), (Hgf (fresh c) (fresh_fresh c)). reflexivity.
Qed.

Lemma additive_id_on (f : Checker → Checker) :
  (∀ c, ∃ a b n, (∀ c', fresh c' = fresh c → f c' = emit a b n c')) → additive f.
Proof.
  intros Hf c. destruct (Hf c) as (a & b & n & Hc).
  rewrite (Hc c eq_refl), (Hc (fresh c) (fresh_fresh c)).
  unfold emit at 2 3 4. cbn [issues warnings info fresh new_checker app]. reflexivity.
Qed.

Lemma issues_append_emit (m : string) (c : Checker) : issues_append m c = emit [m] [] [] c.
Proof. unfold issues_append, emit. by rewrite !app_nil_r. Qed.

Lemma warnings_append_emit (m : string) (c : Checker) : warnings_append m c = emit [] [m] [] c.
Proof. unfold warnings_append, emit. by rewrite !app_nil_r. Qed.

Lemma info_append_emit (m : string) (c : Checker) : info_append m c = emit [] [] [m] c.
Proof. unfold info_append, emit. by rewrite !app_nil_r. Qed.

Lemma fresh_eq (c c' : Checker) :
  fresh c' = fresh c → recipe c' = recipe c ∧ nutrition_data c' = nutrition_data c.
Proof. unfold fresh, new_checker. by intros [= -> ->]. Qed.

(** Rewrites a run of appends into a single [emit]. *)
Ltac to_emit :=
  rewrite ?issues_append_emit, ?warnings_append_emit, ?info_append_emit, ?emit_emit;
  first [reflexivity | symmetry; apply emit_nil].

Lemma check_mandatory_emit (c : Checker) :
  _check_mandatory_nutrients c = emit (mandatory_issues (nutrition_data c)) [] [] c.
Proof.
  unfold _check_mandatory_nutrients, mandatory_issues.
  generalize (present_names (nutrition_data c)) as present.
  generalize MANDATORY_NUTRIENTS as l. intros l present. revert c.
  induction l as [|mn l IH]; intros c.
  - symmetry. apply emit_nil.
  - cbn [foldl]. rewrite IH, filter_cons. clear IH.
    destruct (decide (mn ∉ present)); [|reflexivity].
    rewrite issues_append_emit, emit_emit. reflexivity.
Qed.

Lemma additive_mandatory : additive _check_mandatory_nutrients.
Proof.
  apply additive_id_on. intros c. eexists _, _, _. intros c' Hc'.
  apply fresh_eq in Hc' as [_ Hn]. rewrite check_mandatory_emit, Hn. reflexivity.
Qed.

Lemma additive_serving : additive _check_serving_size_declaration.
Proof.
  apply additive_id_on. intros c.
  destruct (negb (Py.truthy (serving_size (recipe c)))
            || bool_decide (serving_size (recipe c) ≤ 0)) eqn:E1,
    (negb (Str.truthy (serving_unit (recipe c)))) eqn:E2,
    (negb (Py.truthy (servings_per_pack (recipe c)))
     || bool_decide (servings_per_pack (recipe c) ≤ 0)) eqn:E3;
    eexists _, _, _; intros c' Hc'; apply fresh_eq in Hc' as [Hr _];
    unfold _check_serving_size_declaration; rewrite Hr, E1, E2, E3;
    cbn [recipe issues_append warnings_append]; rewrite ?Hr, ?E2, ?E3; to_emit.
Qed.

Lemma additive_ingredient_list : additive _check_ingredient_list.
Proof.
  apply additive_id_on. intros c.
  destruct (ingredients (recipe c)) eqn:E;
    eexists _, _, _; intros c' Hc'; apply fresh_eq in Hc' as [Hr _];
    unfold _check_ingredient_list; rewrite Hr, E; to_emit.
Qed.

Lemma additive_allergen : additive _check_allergen_declaration.
Proof.
  apply additive_id_on. intros c.
  destruct (negb (Str.truthy (allergen_info (recipe c)))) eqn:E;
    eexists _, _, _; intros c' Hc'; apply fresh_eq in Hc' as [Hr _];
    unfold _check_allergen_declaration; rewrite Hr, E; to_emit.
Qed.

Lemma additive_license : additive _check_fssai_license.
Proof.
  apply additive_id_on. intros c.
  destruct (negb (Str.truthy (Str.strip (fssai_license (recipe c))))) eqn:E1;
    [|destruct (negb (String.length (Str.strip (fssai_license (recipe c))) =? 14)%nat
               || negb (Str.isdigit (Str.strip (fssai_license (recipe c))))) eqn:E2];
    eexists _, _, _; intros c' Hc'; apply fresh_eq in Hc' as [Hr _];
    unfold _check_fssai_license; rewrite Hr, E1, ?E2; to_emit.
Qed.

Section compose_facts.
Context `{FloatFormat}.

Lemma warn_if_emit (P : Prop) `{Decision P} (msg : string) (c : Checker) :
  (if decide P then warnings_append msg c else c)
  = emit [] (if decide P then [msg] else []) [] c.
Proof.
  destruct (decide P); [apply warnings_append_emit|]. symmetry. apply emit_nil.
Qed.

Lemma additive_fop : additive _check_fop_warnings.
Proof.
  apply additive_id_on. intros c. eexists _, _, _. intros c' Hc'.
  apply fresh_eq in Hc' as [_ Hn].
  unfold _check_fop_warnings. cbv zeta. rewrite Hn.
  rewrite !warn_if_emit, !emit_emit. reflexivity.
Qed.

Lemma additive_trans_fat : additive _check_trans_fat.
Proof.
  apply additive_id_on. intros c.
  destruct (first_named "Trans Fat" (nutrition_data c)) as [[nid data]|] eqn:E1.
  - destruct (bool_decide (0 < match first_named "Total Fat" (nutrition_data c) with
                               | Some (_, data2) => default 0 (per_100g data2)
                               | None => 0
                               end)
              && bool_decide (0 < default 0 (per_100g data))) eqn:E2;
      [destruct (decide (Py.of_Z 2 <
         default 0 (per_100g data)
         / match first_named "Total Fat" (nutrition_data c) with
           | Some (_, data2) => default 0 (per_100g data2)
           | None => 0
           end * Py.of_Z 100)) as [E3|E3]|];
      eexists _, _, _; intros c' Hc'; apply fresh_eq in Hc' as [_ Hn];
      unfold _check_trans_fat; rewrite Hn, E1; cbv zeta; rewrite E2;
      rewrite ?(decide_True _ _ E3), ?(decide_False _ _ E3); to_emit.
  - eexists _, _, _; intros c' Hc'; apply fresh_eq in Hc' as [_ Hn].
    unfold _check_trans_fat. rewrite Hn, E1. to_emit.
Qed.

Lemma reset_fresh (c : Checker) : reset c = fresh c.
Proof. reflexivity. Qed.

Lemma additive_checks :
  additive (λ c, _check_trans_fat (_check_fssai_license (_check_allergen_declaration
    (_check_ingredient_list (_check_fop_warnings (_check_serving_size_declaration
      (_check_mandatory_nutrients c))))))).
Proof.
  apply (additive_compose _ _check_trans_fat); [|apply additive_trans_fat].
  apply (additive_compose _ _check_fssai_license); [|apply additive_license].
  apply (additive_compose _ _check_allergen_declaration); [|apply additive_allergen].
  apply (additive_compose _ _check_ingredient_list); [|apply additive_ingredient_list].
  apply (additive_compose _ _check_fop_warnings); [|apply additive_fop].
  apply (additive_compose _ _check_serving_size_declaration); [|apply additive_serving].
  apply additive_mandatory.
Qed.

Lemma run_checks_fresh (c : Checker) : run_checks c = run_checks (fresh c).
Proof.
  unfold run_checks. cbv zeta.
  change (reset (fresh c)) with (fresh c). change (reset c) with (fresh c).
  reflexivity.
Qed.

Lemma run_checks_frame (c : Checker) : fresh (run_checks c) = fresh c.
Proof.
  unfold run_checks. cbv zeta. change (reset c) with (fresh c).
  pose proof (additive_fresh _ (fresh c) additive_checks) as Hf. cbv beta in Hf.
  rewrite Hf. apply fresh_fresh.
Qed.

End compose_facts.

Section checker_extras.
Context `{FloatFormat}.

Lemma check_all_unfold (c : Checker) :
  check_all c
  = (((length (issues (run_checks c)) =? 0)%nat, _format_notes (run_checks c)),
     run_checks c).
Proof. unfold check_all. cbv zeta. reflexivity. Qed.

(** X1: [check_all] starts from empty lists: its result depends on the
    recipe and the nutrition data only, not on what the checker held before,
    and running it again on the checker it leaves gives the same result. *)
Theorem check_all_forgets_state (c : Checker) :
  check_all (check_all c).2 = check_all c
  ∧ ∀ c', recipe c' = recipe c → nutrition_data c' = nutrition_data c →
      check_all c' = check_all c.
Proof.
  assert (Hdep : ∀ c1 c2, fresh c1 = fresh c2 → check_all c1 = check_all c2).
  { intros c1 c2 Heq.
    rewrite !check_all_unfold, (run_checks_fresh c1), (run_checks_fresh c2), Heq.
    reflexivity. }
  split.
  - apply Hdep. rewrite check_all_unfold. cbn [snd]. apply run_checks_frame.
  - intros c' Hr Hn. apply Hdep. unfold fresh. by rewrite Hr, Hn.
Qed.

Lemma mandatory_issues_nil (nd : list (Z * NutritionEntry)) :
  mandatory_issues nd = [] ↔ ∀ mn, mn ∈ MANDATORY_NUTRIENTS → has_name nd mn.
Proof.
  unfold mandatory_issues. split.
  - intros Hnil mn Hin. apply fmap_nil_inv in Hnil.
    destruct (decide (mn ∈ present_names nd)) as [Hp|Hp].
    + by apply elem_of_present_names.
    + assert (Hf : mn ∈ filter (λ mn, mn ∉ present_names nd) MANDATORY_NUTRIENTS)
        by (by apply list_elem_of_filter).
      rewrite Hnil in Hf. by apply elem_of_nil in Hf.
  - intros Hall.
    destruct (filter (λ mn, mn ∉ present_names nd) MANDATORY_NUTRIENTS) as [|mn l] eqn:E;
      [done|].
    assert (Hf : mn ∈ filter (λ mn, mn ∉ present_names nd) MANDATORY_NUTRIENTS)
      by (rewrite E; left).
    apply list_elem_of_filter in Hf as [Hn Hin]. exfalso. apply Hn.
    apply elem_of_present_names. by apply Hall.
Qed.

Lemma str_truthy_true (s : string) : Str.truthy s = true ↔ s ≠ "".
Proof. destruct s; simpl; split; done. Qed.

Lemma serving_issues_nil (r : Recipe) :
  serving_issues r = [] ↔ 0 < serving_size r ∧ serving_unit r ≠ "".
Proof.
  unfold serving_issues.
  destruct (Py.truthy (serving_size r)) eqn:Et;
    destruct (bool_decide (serving_size r ≤ 0)) eqn:El;
    destruct (Str.truthy (serving_unit r)) eqn:Eu; cbn [negb orb app];
    try apply bool_decide_eq_true in El; try apply bool_decide_eq_false in El;
    try (apply str_truthy_true in Eu);
    try (apply not_true_iff_false in Eu; rewrite str_truthy_true in Eu);
    split; try done; try (intros [Hpos Hu]);
    try (by apply Qclt_not_le in Hpos);
    try (exfalso; by apply Eu).
  - intros _. split; [by apply Qclt_nge|done].
  - apply not_true_iff_false in Et. exfalso. apply Et, truthy_true.
    intros E0. rewrite E0 in Hpos. by apply (Qclt_not_eq _ _ Hpos).
Qed.

(** X2: [check_all] answers compliant exactly when every one of the ten
    mandatory nutrient names is present in the nutrition data, the serving
    size is positive, the serving unit is not empty and the recipe has at
    least one ingredient; servings per pack, allergen information, license
    and the front-of-pack and trans-fat levels play no part. *)
Theorem compliance_criterion (c : Checker) :
  (check_all c).1.1 = true
  ↔ (∀ mn, mn ∈ MANDATORY_NUTRIENTS → has_name (nutrition_data c) mn)
    ∧ 0 < serving_size (recipe c)
    ∧ serving_unit (recipe c) ≠ ""
    ∧ ingredients (recipe c) ≠ [].
Proof.
  rewrite check_all_verdict, check_all_issues, Nat.eqb_eq, length_zero_iff_nil.
  unfold all_issues. rewrite !app_nil, mandatory_issues_nil, serving_issues_nil.
  unfold ingredient_issues. destruct (ingredients (recipe c)); split; intros (? & ? & ?);
    repeat split; try done; tauto.
Qed.

Lemma filter4_length {A} (P : A → Prop) `{∀ x, Decision (P x)} (a b c d : A) :
  length (filter P [a; b; c; d])
  = ((if decide (P a) then 1 else 0) + (if decide (P b) then 1 else 0)
     + (if decide (P c) then 1 else 0) + (if decide (P d) then 1 else 0))%nat.
Proof.
  rewrite !filter_cons, filter_nil.
  destruct (decide (P a)), (decide (P b)), (decide (P c)), (decide (P d)); reflexivity.
Qed.

Lemma fop_indicator_high (m : gmap string Qc) (n : string) (t : Qc) (u : string) :
  fop_level (fop_indicator m (n, t, u)) = "HIGH" ↔ t < get0 m n.
Proof.
  unfold fop_indicator. destruct (decide (t < get0 m n)) as [Hhi|Hhi]; [done|].
  destruct (decide (t * Py.qc 1 2 < get0 m n)); cbn [fop_level]; split; done.
Qed.

Lemma fop_warnings_match_high_aux (c : Checker) :
  ∃ new_warnings, _check_fop_warnings c = emit [] new_warnings [] c.
Proof.
  eexists. unfold _check_fop_warnings. cbv zeta.
  rewrite !warn_if_emit, !emit_emit. reflexivity.
Qed.

(** X3: the front-of-pack check appends one warning for each indicator that
    [get_fop_indicators] rates HIGH, and nothing else: it adds no issue and
    no info, and as many warnings as there are HIGH indicators. *)
Theorem fop_warnings_match_high (c : Checker) :
  ∃ new_warnings,
    _check_fop_warnings c = emit [] new_warnings [] c
    ∧ length new_warnings = length (high_nutrients_of (get_fop_indicators c)).
Proof.
  eexists. split.
  - unfold _check_fop_warnings. cbv zeta.
    rewrite !warn_if_emit, !emit_emit. reflexivity.
  - unfold get_fop_indicators, high_nutrients_of, classify.
    rewrite foldl_snoc_fmap. unfold fop_checks. cbn [fmap list_fmap].
    rewrite filter4_length.
    set (m := per_100g_by_name (nutrition_data c)).
    rewrite !length_app.
    destruct (decide (HIGH_FAT_THRESHOLD < get0 m "Total Fat")) as [E1|E1];
      [rewrite (decide_True (P := fop_level _ = "HIGH")) by (by apply fop_indicator_high)
      |rewrite (decide_False (P := fop_level _ = "HIGH")) by (by rewrite fop_indicator_high)];
    (destruct (decide (HIGH_SATURATED_FAT_THRESHOLD < get0 m "Saturated Fat")) as [E2|E2];
      [rewrite (decide_True (P := fop_level (fop_indicator m ("Saturated Fat", _, _)) = "HIGH"))
         by (by apply fop_indicator_high)
      |rewrite (decide_False (P := fop_level (fop_indicator m ("Saturated Fat", _, _)) = "HIGH"))
         by (by rewrite fop_indicator_high)]);
    (destruct (decide (HIGH_SUGAR_THRESHOLD < get0 m "Total Sugars")) as [E3|E3];
      [rewrite (decide_True (P := fop_level (fop_indicator m ("Total Sugars", _, _)) = "HIGH"))
         by (by apply fop_indicator_high)
      |rewrite (decide_False (P := fop_level (fop_indicator m ("Total Sugars", _, _)) = "HIGH"))
         by (by rewrite fop_indicator_high)]);
    (destruct (decide (HIGH_SODIUM_THRESHOLD < get0 m "Sodium")) as [E4|E4];
      [rewrite (decide_True (P := fop_level (fop_indicator m ("Sodium", _, _)) = "HIGH"))
         by (by apply fop_indicator_high)
      |rewrite (decide_False (P := fop_level (fop_indicator m ("Sodium", _, _)) = "HIGH"))
         by (by rewrite fop_indicator_high)]);
    reflexivity.
Qed.

End checker_extras.

(** X1 at a checker that already holds findings. *)
Lemma check_all_forgets_state_witness :
  let c := new_checker Sample.rolled_oats (Sample.nutrition_of Sample.rolled_oats) in
  @check_all Sample.fraction_format (issues_append "stale" c)
  = @check_all Sample.fraction_format c.
Proof.
  intros c.
  exact (proj2 (@check_all_forgets_state Sample.fraction_format c)
           (issues_append "stale" c) eq_refl eq_refl).
Defined.

(** ** Front-of-pack levels grow with the value *)

(** X4: for a fixed nutrient and any threshold, a larger per-100g value
    never gets a lower level (LOW below MEDIUM below HIGH). *)
Theorem fop_level_monotone (m m' : gmap string Qc) (name : string) (t : Qc) (u : string) :
  get0 m name ≤ get0 m' name →
  (level_rank (fop_level (fop_indicator m (name, t, u)))
   ≤ level_rank (fop_level (fop_indicator m' (name, t, u))))%nat.
Proof.
  intros Hle. unfold fop_indicator.
  destruct (decide (t < get0 m' name)) as [Hhi'|Hhi'].
  - destruct (decide (t < get0 m name)); [|destruct (decide (t * Py.qc 1 2 < get0 m name))];
      cbn [fop_level]; vm_compute; lia.
  - destruct (decide (t < get0 m name)) as [Hhi|Hhi].
    + exfalso. apply Hhi'. by apply (Qclt_le_trans _ (get0 m name)).
    + destruct (decide (t * Py.qc 1 2 < get0 m' name)) as [Hmid'|Hmid'].
      * destruct (decide (t * Py.qc 1 2 < get0 m name)); cbn [fop_level]; vm_compute; lia.
      * destruct (decide (t * Py.qc 1 2 < get0 m name)) as [Hmid|Hmid].
        -- exfalso. apply Hmid'. by apply (Qclt_le_trans _ (get0 m name)).
        -- cbn [fop_level]. vm_compute. lia.
Qed.

(** X4 at Sodium 300 against Sodium 700. *)
Lemma fop_level_monotone_witness :
  let m : gmap string Qc := {[ "Sodium" := Py.of_Z 300 ]} in
  let m' : gmap string Qc := {[ "Sodium" := Py.of_Z 700 ]} in
  (level_rank (fop_level (fop_indicator m ("Sodium", HIGH_SODIUM_THRESHOLD, "mg")))
   ≤ level_rank (fop_level (fop_indicator m' ("Sodium", HIGH_SODIUM_THRESHOLD, "mg"))))%nat.
Proof.
  intros m m'. apply (fop_level_monotone m m' "Sodium" HIGH_SODIUM_THRESHOLD "mg").
  vm_compute. discriminate.
Defined.

(** ** The trans-fat check *)

Section trans_fat_facts.
Context `{FloatFormat}.



End trans_fat_facts.

(** ** What [check_all] reports *)

Lemma run_in_order (fs : list (Checker → Checker)) (c : Checker) :
  Forall additive fs →
  foldl (λ c f, f c) c fs
  = emit (concat ((λ f, issues (alone f c)) <$> fs))
         (concat ((λ f, warnings (alone f c)) <$> fs))
         (concat ((λ f, info (alone f c)) <$> fs)) c.
Proof.
  intros Hfs. revert c. induction Hfs as [|f fs Hf Hfs IH]; intros c.
  - symmetry. apply emit_nil.
  - cbn [foldl]. rewrite IH. unfold alone.
    rewrite (additive_fresh f c Hf).
    etransitivity; [apply f_equal, (Hf c)|].
    rewrite emit_emit. reflexivity.
Qed.

Lemma notes_lines_eq (c : Checker) :
  notes_lines c
  = section_lines issues_header (issues c)
    ++ section_lines warnings_header (warnings c)
    ++ section_lines info_header (info c)
    ++ match issues c, warnings c with
       | [], [] => [passed_line]
       | _, _ => []
       end.
Proof.
  unfold notes_lines, section_lines.
  destruct (issues c) as [|x xs], (warnings c) as [|w ws], (info c) as [|n ns];
    rewrite ?append_numbered_eq, ?app_nil_l, <- ?app_assoc, ?app_nil_r;
    reflexivity.
Qed.

Section report_facts.
Context `{FloatFormat}.

Lemma checks_in_order_additive : Forall additive checks_in_order.
Proof.
  unfold checks_in_order.
  repeat (apply List.Forall_cons;
          [first [apply additive_mandatory | apply additive_serving | apply additive_fop
                 | apply additive_ingredient_list | apply additive_allergen
                 | apply additive_license | apply additive_trans_fat]|]).
  apply List.Forall_nil.
Qed.

Lemma run_checks_foldl (c : Checker) :
  run_checks c = foldl (λ c f, f c) (fresh c) checks_in_order.
Proof. unfold run_checks, checks_in_order. cbv zeta. cbn [foldl]. reflexivity. Qed.

Lemma run_checks_lists (c : Checker) :
  run_checks c
  = emit (concat ((λ f, issues (alone f c)) <$> checks_in_order))
         (concat ((λ f, warnings (alone f c)) <$> checks_in_order))
         (concat ((λ f, info (alone f c)) <$> checks_in_order)) (fresh c).
Proof.
  rewrite run_checks_foldl, (run_in_order _ _ checks_in_order_additive).
  unfold alone. reflexivity.
Qed.

(** X6: the lists [check_all] leaves are, for each of issues, warnings and
    info, the concatenation in check order of what each of the seven checks
    emits when it runs alone on a fresh checker for the same recipe and
    nutrition data: a check only appends, and what it appends does not
    depend on what earlier checks found. *)
Theorem check_all_composes (c : Checker) :
  issues (check_all c).2 = concat ((λ f, issues (alone f c)) <$> checks_in_order)
  ∧ warnings (check_all c).2 = concat ((λ f, warnings (alone f c)) <$> checks_in_order)
  ∧ info (check_all c).2 = concat ((λ f, info (alone f c)) <$> checks_in_order)
  ∧ recipe (check_all c).2 = recipe c
  ∧ nutrition_data (check_all c).2 = nutrition_data c.
Proof.
  rewrite check_all_unfold. cbn [snd]. rewrite run_checks_lists.
  unfold emit. cbn [issues warnings info recipe nutrition_data fresh new_checker app].
  repeat split; reflexivity.
Qed.

Lemma ingredient_list_alone (c : Checker) :
  ingredients (recipe c) ≠ [] →
  info (alone _check_ingredient_list c)
  = [ingredient_note (length (ingredients (recipe c)))].
Proof.
  unfold alone, _check_ingredient_list, fresh, new_checker. cbn [recipe].
  destruct (ingredients (recipe c)); [done|]. reflexivity.
Qed.

Lemma serving_alone_info (c : Checker) :
  info (alone _check_serving_size_declaration c) = [].
Proof.
  unfold alone, _check_serving_size_declaration.
  destruct (negb (Py.truthy (serving_size (recipe (fresh c)))) || _),
    (negb (Str.truthy (serving_unit _))),
    (negb (Py.truthy (servings_per_pack _)) || _); reflexivity.
Qed.

(** X7: whenever [check_all] answers compliant, the info list is not empty:
    its first entry is the ingredient-list note with the number of
    ingredients; so the notes always contain the Info section with that note
    as line 1 and never consist of the "all checks passed" line alone. *)
Theorem compliant_has_info (c : Checker) :
  (check_all c).1.1 = true →
  ∃ rest,
    info (check_all c).2
    = ingredient_note (length (ingredients (recipe c))) :: rest
    ∧ ∃ before after,
        notes_lines (check_all c).2
        = before ++ info_header
            :: ("  1. " +:+ ingredient_note (length (ingredients (recipe c))))
            :: after.
Proof.
  intros Hok.
  assert (Hing : ingredients (recipe c) ≠ []).
  { rewrite check_all_verdict, check_all_issues, Nat.eqb_eq, length_zero_iff_nil in Hok.
    unfold all_issues in Hok. apply app_nil in Hok as [_ Hok].
    apply app_nil in Hok as [_ Hok]. unfold ingredient_issues in Hok.
    by destruct (ingredients (recipe c)). }
  assert (Hinfo : info (check_all c).2
                   = concat ((λ f, info (alone f c)) <$> checks_in_order)).
  { rewrite check_all_unfold. cbn [snd]. rewrite run_checks_lists. reflexivity. }
  unfold checks_in_order in Hinfo. cbn [fmap list_fmap concat] in Hinfo.
  rewrite (ingredient_list_alone c Hing), serving_alone_info in Hinfo.
  assert (Hm : info (alone _check_mandatory_nutrients c) = []).
  { unfold alone. by rewrite check_mandatory_emit. }
  assert (Hf : info (alone _check_fop_warnings c) = []).
  { unfold alone. destruct (fop_warnings_match_high_aux (fresh c)) as (w & -> ). reflexivity. }
  rewrite Hm, Hf in Hinfo. cbn [app] in Hinfo.
  eexists. split; [exact Hinfo|].
  rewrite notes_lines_eq, Hinfo. unfold section_lines at 3, numbered.
  rewrite imap_cons. eexists _, _. rewrite !app_assoc, <- app_assoc. reflexivity.
Qed.

End report_facts.

(** X7 at the rolled-oats recipe, which is compliant. *)
Lemma compliant_has_info_witness :
  let c := new_checker Sample.rolled_oats (Sample.nutrition_of Sample.rolled_oats) in
  ∃ rest, info (@check_all Sample.fraction_format c).2 = ingredient_note 1 :: rest.
Proof.
  intros c.
  destruct (@compliant_has_info Sample.fraction_format c) as (rest & Hinfo & _);
    [vm_compute; reflexivity|].
  exists rest. exact Hinfo.
Defined.

Section empty_recipe.
Context `{FloatFormat}.

(** X8: for a recipe without ingredients the aggregator returns the empty
    mapping, and [check_all] on it answers non-compliant with, in this order,
    the ten missing-nutrient issues, the serving issues if any, and the
    ingredient-list issue. *)
Theorem empty_recipe_report (r : Recipe) :
  ingredients r = [] →
  calculate_nutrition r = Some []
  ∧ (check_all (new_checker r [])).1.1 = false
  ∧ issues (check_all (new_checker r [])).2
    = (missing_msg <$> MANDATORY_NUTRIENTS) ++ serving_issues r
      ++ [ "INGREDIENT LIST: Recipe must have at least one ingredient. "
           +:+ "FSSAI requires full ingredient list in descending order of weight." ]
  ∧ length (filter is_missing_issue (issues (check_all (new_checker r [])).2)) = 10%nat.
Proof.
  intros Hnil.
  assert (Hiss : issues (check_all (new_checker r [])).2
    = (missing_msg <$> MANDATORY_NUTRIENTS) ++ serving_issues r
      ++ [ "INGREDIENT LIST: Recipe must have at least one ingredient. "
           +:+ "FSSAI requires full ingredient list in descending order of weight." ]).
  { rewrite check_all_issues. unfold all_issues, new_checker. cbn [recipe nutrition_data].
    unfold ingredient_issues. rewrite Hnil. reflexivity. }
  split; [|split; [|split]].
  - rewrite calculate_nutrition_eq. unfold accumulate. by rewrite Hnil.
  - rewrite check_all_verdict, Hiss. reflexivity.
  - exact Hiss.
  - rewrite Hiss, filter_app.
    replace (serving_issues r ++ _) with (serving_issues r ++ ingredient_issues r)
      by (unfold ingredient_issues; by rewrite Hnil).
    rewrite other_issues_not_missing, app_nil_r. reflexivity.
Qed.

End empty_recipe.

(** X8 at a recipe without ingredients. *)
Lemma empty_recipe_report_witness :
  let r := Sample.mk_recipe "Empty" "" "" [] in
  calculate_nutrition r = Some []
  ∧ (@check_all Sample.fraction_format (new_checker r [])).1.1 = false
  ∧ length (issues (@check_all Sample.fraction_format (new_checker r [])).2) = 11%nat.
Proof.
  intros r.
  destruct (@empty_recipe_report Sample.fraction_format r eq_refl) as (Hc & Hv & Hi & _).
  split; [exact Hc|]. split; [exact Hv|]. rewrite Hi. reflexivity.
Defined.

(** ** More on the aggregator *)

Section dict_key_facts.
Context {K V : Type} `{EqDecision K}.
Implicit Types (k : K) (v : V) (d : list (K * V)).

Lemma keys_alter (f : V → V) k d : (Py.alter f k d).*1 = d.*1.
Proof.
  induction d as [|[k0 v0] d IH]; [done|]. cbn [Py.alter].
  destruct (decide (k = k0)); cbn [fmap list_fmap fst]; [done|]. f_equal. apply IH.
Qed.

Lemma get_None_keys k d : Py.get k d = None ↔ k ∉ d.*1.
Proof.
  induction d as [|[k0 v0] d IH]; cbn [Py.get fmap list_fmap fst].
  - split; [intros _; apply not_elem_of_nil|done].
  - rewrite not_elem_of_cons. destruct (decide (k = k0)) as [->|Hne].
    + split; [done|]. by intros [? _].
    + rewrite IH. tauto.
Qed.

Lemma contains_keys k d : Py.contains k d = true ↔ k ∈ d.*1.
Proof.
  unfold Py.contains. destruct (Py.get k d) eqn:E.
  - split; [|done]. intros _. destruct (decide (k ∈ d.*1)) as [|Hn]; [done|].
    apply get_None_keys in Hn. congruence.
  - apply get_None_keys in E. split; [done|]. intros Hin. by apply E in Hin.
Qed.

Lemma keys_set_fresh k v d : k ∉ d.*1 → (Py.set k v d).*1 = d.*1 ++ [k].
Proof.
  induction d as [|[k0 v0] d IH]; cbn [Py.set fmap list_fmap fst]; [done|].
  rewrite not_elem_of_cons. intros [Hne Hd].
  rewrite decide_False by done. cbn [fmap list_fmap fst app]. f_equal. by apply IH.
Qed.

Lemma get_of_elem k v d : NoDup d.*1 → (k, v) ∈ d → Py.get k d = Some v.
Proof.
  induction d as [|[k0 v0] d IH]; cbn [Py.get fmap list_fmap fst].
  - intros _ Hin. by apply elem_of_nil in Hin.
  - rewrite NoDup_cons. intros [Hk0 Hnd] Hin.
    apply elem_of_cons in Hin as [[= -> ->]|Hin].
    + by rewrite decide_True.
    + rewrite decide_False; [by apply IH|]. intros ->. apply Hk0.
      apply list_elem_of_fmap. by exists (k0, v).
Qed.
End dict_key_facts.

Lemma keys_prod_map {K V W} (g : V → W) (d : list (K * V)) :
  (prod_map id g <$> d).*1 = d.*1.
Proof. induction d as [|[k v] d IH]; [done|]. cbn [fmap list_fmap fst prod_map id]. f_equal. apply IH. Qed.

Lemma keys_add_row (w : Qc) (d : list (Z * Accum)) (inv : IngredientNutrient) :
  (add_row w d inv).*1
  = if decide (nutrient_id inv ∈ d.*1) then d.*1 else d.*1 ++ [nutrient_id inv].
Proof.
  unfold add_row. rewrite keys_alter.
  destruct (Py.contains (nutrient_id inv) d) eqn:E.
  - apply contains_keys in E. by rewrite decide_True.
  - assert (Hn : nutrient_id inv ∉ d.*1).
    { intros Hin. apply contains_keys in Hin. congruence. }
    rewrite decide_False by done. by apply keys_set_fresh.
Qed.

Lemma keys_accumulate (r : Recipe) :
  (accumulate r).*1 = first_occurrences ((λ row, nutrient_id row.2) <$> rows r).
Proof.
  rewrite accumulate_rows. unfold first_occurrences.
  assert (Hgen : ∀ d : list (Z * Accum),
    (foldl (λ d row, add_row row.1 d row.2) d (rows r)).*1
    = foldl (λ seen x, if decide (x ∈ seen) then seen else seen ++ [x]) (d.*1)
        ((λ row, nutrient_id row.2) <$> rows r)).
  { induction (rows r) as [|[w inv] l IH]; intros d; [done|].
    cbn [foldl fmap list_fmap snd fst]. rewrite IH. f_equal. apply keys_add_row. }
  apply (Hgen []).
Qed.

Lemma first_occurrences_spec (l : list Z) :
  NoDup (first_occurrences l) ∧ ∀ x, x ∈ first_occurrences l ↔ x ∈ l.
Proof.
  unfold first_occurrences.
  assert (Hgen : ∀ seen : list Z, NoDup seen →
    NoDup (foldl (λ seen x, if decide (x ∈ seen) then seen else seen ++ [x]) seen l)
    ∧ ∀ x, x ∈ foldl (λ seen x, if decide (x ∈ seen) then seen else seen ++ [x]) seen l
           ↔ x ∈ seen ∨ x ∈ l).
  { induction l as [|y l IH]; intros seen Hnd; cbn [foldl].
    - split; [done|]. intros x. rewrite elem_of_nil. tauto.
    - destruct (decide (y ∈ seen)) as [Hy|Hy].
      + destruct (IH seen Hnd) as [Hnd' Hin]. split; [done|].
        intros x. rewrite Hin, elem_of_cons. split; [tauto|].
        intros [?|[->|?]]; tauto.
      + assert (Hnd2 : NoDup (seen ++ [y])).
        { apply NoDup_app. split; [done|]. split; [|apply NoDup_singleton].
          intros x Hx Hxy. apply elem_of_cons in Hxy as [->|Hxy]; [done|].
          by apply elem_of_nil in Hxy. }
        destruct (IH _ Hnd2) as [Hnd' Hin]. split; [done|].
        intros x. rewrite Hin, elem_of_app, !elem_of_cons, elem_of_nil. tauto. }
  destruct (Hgen [] (NoDup_nil_2)) as [Hnd Hin]. split; [done|].
  intros x. rewrite Hin, elem_of_nil. tauto.
Qed.

Lemma foldl_upd_pk nid (l : list (Qc * IngredientNutrient)) (o : option Accum) :
  (∀ a, o = Some a → nutrient_pk (acc_nutrient a) = nid) →
  ∀ a, foldl (upd nid) o l = Some a → nutrient_pk (acc_nutrient a) = nid.
Proof.
  revert o. induction l as [|row l IH]; intros o Ho; cbn [foldl]; [done|].
  apply IH. unfold upd. destruct (decide (nutrient_id row.2 = nid)) as [Hid|]; [|done].
  intros a [= <-]. cbn [acc_nutrient]. destruct o as [a0|]; cbn [from_option].
  - by apply Ho.
  - exact Hid.
Qed.

(** X9: the result of the aggregator has one entry per nutrient id that
    some ingredient row carries, in order of first occurrence and without
    duplicates (a nutrient no row mentions is absent); the entry under an id
    is the one [get] returns and belongs to the nutrient of that id. *)
Theorem aggregation_keys (r : Recipe) (nd : list (Z * NutritionEntry)) :
  calculate_nutrition r = Some nd →
  nd.*1 = first_occurrences ((λ row, nutrient_id row.2) <$> rows r)
  ∧ NoDup nd.*1
  ∧ (∀ nid, nid ∈ nd.*1 ↔ ∃ row, row ∈ rows r ∧ nutrient_id row.2 = nid)
  ∧ ∀ nid e, (nid, e) ∈ nd →
      Py.get nid nd = Some e ∧ nutrient_pk (entry_nutrient e) = nid.
Proof.
  rewrite calculate_nutrition_eq. intros [= <-].
  rewrite keys_prod_map, keys_accumulate.
  destruct (first_occurrences_spec ((λ row, nutrient_id row.2) <$> rows r)) as [Hnd Hin].
  split; [done|]. split; [done|]. split.
  - intros nid. rewrite Hin, list_elem_of_fmap. split.
    + intros (row & -> & Hrow). eauto.
    + intros (row & Hrow & <-). eauto.
  - intros nid e He.
    assert (Hget : Py.get nid
      (prod_map id (finished r (Py.or_ (total_weight r) 1)) <$> accumulate r) = Some e).
    { apply get_of_elem; [|done]. by rewrite keys_prod_map, keys_accumulate. }
    split; [done|]. rewrite get_fmap, get_accumulate in Hget.
    destruct (foldl (upd nid) None (rows r)) as [a|] eqn:Ea; [|done].
    injection Hget as <-. cbn [finished entry_nutrient].
    by apply (foldl_upd_pk nid (rows r) None).
Qed.

(** X9 at the rice and salt recipe: Energy (1) then Sodium (13). *)
Lemma aggregation_keys_witness :
  (Sample.nutrition_of Sample.rice_salt).*1 = [1%Z; 13%Z]
  ∧ NoDup (Sample.nutrition_of Sample.rice_salt).*1.
Proof.
  assert (H1 : calculate_nutrition Sample.rice_salt
               = Some (Sample.nutrition_of Sample.rice_salt))
    by (vm_compute; reflexivity).
  destruct (aggregation_keys _ _ H1) as (Hk & Hnd & _).
  split; [|exact Hnd]. rewrite Hk. reflexivity.
Defined.

(** ** No negative value on the label *)

Lemma of_Z_Qc_of_Z (z : Z) : Py.of_Z z = Qc_of_Z z.
Proof. apply Qc_is_canon. simpl. apply Qred_correct. Qed.

Lemma of_Z_nonneg (z : Z) : (0 ≤ z)%Z → 0 ≤ Py.of_Z z.
Proof. intros Hz. rewrite of_Z_Qc_of_Z, <- Z2Qc_inj_0. by apply (proj1 (Z2Qc_inj_le 0 z)). Qed.

Lemma of_Z_pos (z : Z) : (0 < z)%Z → 0 < Py.of_Z z.
Proof. intros Hz. rewrite of_Z_Qc_of_Z, <- Z2Qc_inj_0. by apply (proj1 (Z2Qc_inj_lt 0 z)). Qed.

Lemma Qcdiv_nonneg (a p : Qc) : 0 ≤ a → 0 < p → 0 ≤ a / p.
Proof.
  intros Ha Hp. unfold Qcdiv. apply Qcmult_nonneg_nonneg; [done|].
  by apply Qclt_le_weak, Qcinv_pos.
Qed.

Lemma round_half_even_nonneg (y : Qc) : 0 ≤ y → (0 ≤ Py.round_half_even y)%Z.
Proof.
  intros Hy.
  assert (Hn : (0 ≤ Qnum y)%Z).
  { unfold Qcle, Qle in Hy. simpl in Hy. lia. }
  assert (Hfl : (0 ≤ Qnum y / Z.pos (Qden y))%Z) by (apply Z.div_pos; lia).
  unfold Py.round_half_even. cbv zeta.
  destruct (_ <? _)%Z; [done|]. destruct (_ <? _)%Z; [lia|].
  destruct (Z.even _); lia.
Qed.

Lemma round_nonneg (x : Qc) (n : nat) : 0 ≤ x → 0 ≤ Py.round x n.
Proof.
  intros Hx. unfold Py.round. cbv zeta.
  assert (Hp : 0 < Py.of_Z (10 ^ Z.of_nat n)) by (apply of_Z_pos; lia).
  apply Qcdiv_nonneg; [|done]. apply of_Z_nonneg, round_half_even_nonneg.
  apply Qcmult_nonneg_nonneg; [done|]. by apply Qclt_le_weak.
Qed.

Lemma Qc_sum_nonneg (l : list Qc) : Forall (λ x, 0 ≤ x) l → 0 ≤ Qc_sum l.
Proof.
  induction 1 as [|x l Hx Hl IH]; cbn [Qc_sum foldr]; [done|].
  by apply Qcplus_nonneg_nonneg.
Qed.

Lemma foldl_plus_nonneg (a : Qc) (ws : list Qc) :
  0 ≤ a → Forall (λ w, 0 ≤ w) ws → 0 ≤ foldl Qcplus a ws.
Proof.
  revert a. induction ws as [|w ws IH]; intros a Ha Hws; cbn [foldl]; [done|].
  inversion_clear Hws. apply IH; [|done]. by apply Qcplus_nonneg_nonneg.
Qed.

Lemma or_pos (x : Qc) : 0 ≤ x → 0 < Py.or_ x 1.
Proof.
  intros Hx. unfold Py.or_. destruct (Py.truthy x) eqn:E.
  - apply truthy_true in E. destruct (Qcle_lt_or_eq _ _ Hx) as [?|Heq]; [done|].
    by rewrite <- Heq in E.
  - vm_compute. reflexivity.
Qed.

Lemma elem_of_rows (r : Recipe) (row : Qc * IngredientNutrient) :
  row ∈ rows r ↔
  ∃ ri, ri ∈ ingredients r ∧ row.1 = weight_grams ri
        ∧ row.2 ∈ nutrients (ingredient ri).
Proof.
  unfold rows. rewrite list_elem_of_bind. split.
  - intros (ri & Hrow & Hri).
    apply list_elem_of_fmap in Hrow as (inv & -> & Hinv). eauto.
  - intros (ri & Hri & Hw & Hinv). exists ri. split; [|done].
    apply list_elem_of_fmap. exists row.2. split; [|done].
    destruct row. simpl in *. by subst.
Qed.

Lemma foldl_upd_nutrient nid (l : list (Qc * IngredientNutrient)) (a : Accum) :
  foldl (upd nid) None l = Some a →
  ∃ row, row ∈ l ∧ nutrient_id row.2 = nid ∧ acc_nutrient a = nutrient row.2.
Proof.
  assert (Hgen : ∀ o : option Accum,
    foldl (upd nid) o l = Some a →
    (∃ a0, o = Some a0 ∧ acc_nutrient a = acc_nutrient a0)
    ∨ ∃ row, row ∈ l ∧ nutrient_id row.2 = nid ∧ acc_nutrient a = nutrient row.2).
  { induction l as [|row l IH]; intros o; cbn [foldl].
    - intros ->. left. eauto.
    - intros Hf. destruct (IH _ Hf) as [(a0 & Hu & Ha)|(row' & Hin & Hid & Ha)].
      + unfold upd in Hu. destruct (decide (nutrient_id row.2 = nid)) as [Hid|].
        * injection Hu as <-. cbn [acc_nutrient] in Ha.
          destruct o as [a1|]; cbn [from_option] in Ha.
          -- left. eauto.
          -- right. exists row. split; [left|done].
        * left. eauto.
      + right. exists row'. split; [by right|done]. }
  intros Hf. destruct (Hgen None Hf) as [(a0 & [=] & _)|?]; done.
Qed.

(** X11: when no serving size, ingredient weight, nutrient density or daily
    value is negative, no value of an aggregation result is negative: total,
    per serving, per 100 g and percent daily value are all at least 0. *)
Theorem aggregation_nonneg (r : Recipe) (nd : list (Z * NutritionEntry))
    (nid : Z) (e : NutritionEntry) :
  nonneg_recipe r →
  calculate_nutrition r = Some nd →
  Py.get nid nd = Some e →
  0 ≤ total_value e
  ∧ 0 ≤ per_serving e
  ∧ (∀ x, per_100g e = Some x → 0 ≤ x)
  ∧ (∀ x, percent_dv e = Some x → 0 ≤ x).
Proof.
  intros (Hss & Hw & Hrows). rewrite calculate_nutrition_eq. intros [= <-].
  rewrite get_fmap, get_accumulate. intros Hget.
  destruct (foldl (upd nid) None (rows r)) as [a|] eqn:Ea; [|done].
  injection Hget as <-.
  assert (Htot : 0 ≤ acc_total a).
  { pose proof (foldl_upd_total nid (rows r) None) as Ht.
    rewrite Ea in Ht. cbn [from_option] in Ht. rewrite Ht, Qcplus_0_l.
    apply Qc_sum_nonneg, Forall_fmap, Forall_forall. intros row Hrow.
    apply list_elem_of_filter in Hrow as [_ Hrow]. cbn [compose].
    destruct (Hrows row Hrow) as [Hv _].
    apply elem_of_rows in Hrow as (ri & Hri & Hrw & _).
    unfold contribution. apply Qcmult_nonneg_nonneg; [|done].
    apply Qcdiv_nonneg; [|by apply of_Z_pos]. rewrite Hrw. by apply Hw. }
  assert (Htw : 0 < Py.or_ (total_weight r) 1).
  { apply or_pos. unfold total_weight, Py.sum. apply foldl_plus_nonneg; [done|].
    apply Forall_fmap, Forall_forall. intros ri Hri. by apply Hw. }
  assert (Hq : 0 ≤ acc_total a / Py.or_ (total_weight r) 1)
    by (by apply Qcdiv_nonneg).
  assert (Hps : 0 ≤ acc_total a / Py.or_ (total_weight r) 1 * serving_size r)
    by (by apply Qcmult_nonneg_nonneg).
  cbn [finished total_value per_serving per_100g percent_dv].
  split; [by apply round_nonneg|]. split; [by apply round_nonneg|]. split.
  - intros x [= <-]. apply round_nonneg, Qcmult_nonneg_nonneg; [done|].
    by apply of_Z_nonneg.
  - intros x Hx.
    destruct (foldl_upd_nutrient nid (rows r) a Ea) as (row & Hrow & _ & Hnut).
    destruct (Hrows row Hrow) as [_ Hdv]. rewrite Hnut in Hx.
    destruct (daily_value (nutrient row.2)) as [dv|] eqn:Edv; [|done].
    destruct (Py.truthy dv) eqn:Et; [|done]. injection Hx as <-.
    apply truthy_true in Et. specialize (Hdv dv eq_refl).
    assert (0 < dv).
    { destruct (Qcle_lt_or_eq _ _ Hdv) as [?|Heq]; [done|]. by rewrite <- Heq in Et. }
    apply round_nonneg, Qcmult_nonneg_nonneg; [|by apply of_Z_nonneg].
    by apply Qcdiv_nonneg.
Qed.

Lemma nonneg_recipe_Forall (r : Recipe) :
  0 ≤ serving_size r →
  Forall (λ ri, 0 ≤ weight_grams ri) (ingredients r) →
  Forall (λ row : Qc * IngredientNutrient,
            0 ≤ value_per_100g row.2
            ∧ ∀ dv, daily_value (nutrient row.2) = Some dv → 0 ≤ dv) (rows r) →
  nonneg_recipe r.
Proof.
  intros Hs Hw Hr. split; [done|]. split.
  - by apply Forall_forall.
  - intros row. by apply (proj1 (Forall_forall _ _) Hr).
Qed.

Ltac nonneg_sample :=
  apply nonneg_recipe_Forall;
  [ by vm_compute
  | repeat constructor; by vm_compute
  | repeat constructor;
    try (by vm_compute);
    intros dv Hdv; vm_compute in Hdv;
    first [ discriminate Hdv | injection Hdv as <-; by vm_compute ] ].

(** X11 at the Sodium entry of the rice and salt recipe. *)
Lemma aggregation_nonneg_witness :
  ∃ e, Py.get 13%Z (Sample.nutrition_of Sample.rice_salt) = Some e
       ∧ 0 ≤ total_value e
       ∧ 0 ≤ per_serving e
       ∧ (∀ x, per_100g e = Some x → 0 ≤ x)
       ∧ (∀ x, percent_dv e = Some x → 0 ≤ x).
Proof.
  assert (Hn : nonneg_recipe Sample.rice_salt) by nonneg_sample.
  assert (H1 : calculate_nutrition Sample.rice_salt
               = Some (Sample.nutrition_of Sample.rice_salt))
    by (vm_compute; reflexivity).
  destruct (Py.get 13%Z (Sample.nutrition_of Sample.rice_salt)) as [e|] eqn:E;
    [|vm_compute in E; discriminate E].
  exists e. split; [reflexivity|].
  exact (aggregation_nonneg Sample.rice_salt _ 13%Z e Hn H1 E).
Defined.

(** ** The order of the ingredients *)

Lemma rows_Permutation (r : Recipe) (l' : list RecipeIngredient) :
  l' ≡ₚ ingredients r → rows (with_ingredients l' r) ≡ₚ rows r.
Proof.
  intros Hp. unfold rows. cbn [with_ingredients ingredients]. by rewrite Hp.
Qed.

Lemma consistent_nutrients_Forall (r : Recipe) :
  Forall (λ a : Qc * IngredientNutrient,
    Forall (λ b : Qc * IngredientNutrient,
      nutrient_id a.2 = nutrient_id b.2 → nutrient a.2 = nutrient b.2) (rows r))
    (rows r) →
  consistent_nutrients r.
Proof.
  intros HF a b Ha Hb.
  apply (proj1 (Forall_forall _ _) (proj1 (Forall_forall _ _) HF a Ha) b Hb).
Qed.

(** ** The rate limiter *)

Lemma check_rate_limit_cases (now : Qc) (META : gmap string string)
    (store : gmap string (list Qc)) :
  let recent := filter (λ t, now - t < RATE_LIMIT_WINDOW)
                       (default [] (store !! client_ip META)) in
  (recent = [] ∧ _check_rate_limit now META store = (false, delete (client_ip META) store))
  ∨ (recent ≠ [] ∧ (RATE_LIMIT_MAX ≤ length recent)%nat
     ∧ _check_rate_limit now META store = (true, <[client_ip META := recent]> store))
  ∨ (recent ≠ [] ∧ (length recent < RATE_LIMIT_MAX)%nat
     ∧ _check_rate_limit now META store
       = (false, <[client_ip META := recent ++ [now]]> store)).
Proof.
  intros recent. unfold _check_rate_limit. cbv zeta. fold recent.
  destruct (bool_decide_reflect (recent = [])) as [He|He]; [by left|]. right.
  destruct (Nat.leb_spec RATE_LIMIT_MAX (length recent)); [left|right]; done.
Qed.

(** X13: the limiter answers "limited" exactly when the store holds at
    least [RATE_LIMIT_MAX] attempts of this client younger than the window;
    it never files a client the store does not hold: the addresses in the
    store after a call are among those before, and a client without a recent
    attempt on record is answered "allowed" and dropped from the store. *)
Theorem check_rate_limit_spec (now : Qc) (META : gmap string string)
    (store : gmap string (list Qc)) :
  let recent := filter (λ t, now - t < RATE_LIMIT_WINDOW)
                       (default [] (store !! client_ip META)) in
  ((_check_rate_limit now META store).1 = true ↔ (RATE_LIMIT_MAX ≤ length recent)%nat)
  ∧ dom (_check_rate_limit now META store).2 ⊆ dom store
  ∧ (recent = [] → (_check_rate_limit now META store).2 !! client_ip META = None)
  ∧ ∀ ip, ip ≠ client_ip META →
      (_check_rate_limit now META store).2 !! ip = store !! ip.
Proof.
  intros recent.
  assert (Hin : recent ≠ [] → client_ip META ∈ dom store).
  { intros Hne. apply elem_of_dom. destruct (store !! client_ip META) eqn:E; [done|].
    exfalso. apply Hne. unfold recent. first [by rewrite E | reflexivity]. }
  destruct (check_rate_limit_cases now META store)
    as [(He & ->)|[(Hne & Hlen & ->)|(Hne & Hlen & ->)]];
    fold recent in He || fold recent in Hne, Hlen; cbn [fst snd].
  - split; [|split; [|split]].
    + rewrite He. cbn. unfold RATE_LIMIT_MAX. split; [done|lia].
    + apply subseteq_dom, delete_subseteq.
    + intros _. apply lookup_delete_eq.
    + intros ip Hip. by apply lookup_delete_ne.
  - split; [|split; [|split]].
    + done.
    + rewrite dom_insert. apply union_least; [|done].
      apply singleton_subseteq_l, Hin, Hne.
    + done.
    + intros ip Hip. by apply lookup_insert_ne.
  - split; [|split; [|split]].
    + split; [done|lia].
    + rewrite dom_insert. apply union_least; [|done].
      apply singleton_subseteq_l, Hin, Hne.
    + done.
    + intros ip Hip. by apply lookup_insert_ne.
Qed.

Lemma check_rate_limit_empty (now : Qc) (META : gmap string string) :
  _check_rate_limit now META ∅ = (false, ∅).
Proof.
  destruct (check_rate_limit_cases now META ∅)
    as [(_ & ->)|[(Hne & _)|(Hne & _)]].
  - by rewrite delete_empty.
  - by rewrite lookup_empty in Hne.
  - by rewrite lookup_empty in Hne.
Qed.

(** X14: the store starts empty and [_check_rate_limit] is its only writer,
    so whatever calls are made, at whatever times and from whatever
    addresses, every one of them is answered "allowed" and the store is
    empty afterwards: no client is ever limited. *)
Theorem rate_limit_never_limits (calls : list (Qc * gmap string string)) :
  rate_limit_run calls ∅ = (replicate (length calls) false, ∅).
Proof.
  induction calls as [|[now META] calls IH]; [done|].
  cbn [rate_limit_run length replicate].
  rewrite check_rate_limit_empty, IH. reflexivity.
Qed.

(** ** Allergen detection *)

(** *** The order on strings *)

Lemma ascii_compare_lt_trans (a b c : ascii) :
  Ascii.compare a b = Lt → Ascii.compare b c = Lt → Ascii.compare a c = Lt.
Proof.
  unfold Ascii.compare. rewrite !N.compare_lt_iff. apply N.lt_trans.
Qed.

Lemma string_compare_lt_trans (a b c : string) :
  String.compare a b = Lt → String.compare b c = Lt → String.compare a c = Lt.
Proof.
  revert b c. induction a as [|x a IH]; intros [|y b] [|z c]; cbn; try done.
  destruct (Ascii.compare x y) eqn:Exy; [|intros _|done].
  - apply Ascii.compare_eq_iff in Exy as ->.
    destruct (Ascii.compare y z); [apply IH|done|done].
  - destruct (Ascii.compare y z) eqn:Eyz; [|intros _|done].
    + apply Ascii.compare_eq_iff in Eyz as <-. by rewrite Exy.
    + by rewrite (ascii_compare_lt_trans x y z).
Qed.

Lemma string_compare_refl (a : string) : String.compare a a = Eq.
Proof.
  induction a as [|x a IH]; cbn; [done|].
  unfold Ascii.compare. by rewrite N.compare_refl.
Qed.

#[global] Instance str_le_total : Total str_le.
Proof. intros a b. apply String.leb_total. Qed.

#[global] Instance str_le_antisym : AntiSymm eq str_le.
Proof. intros a b. apply String.leb_antisym. Qed.

#[global] Instance str_le_trans : Transitive str_le.
Proof.
  intros a b c. unfold str_le, String.leb.
  destruct (String.compare a b) eqn:Eab; [|intros _|done].
  - by apply String.compare_eq_iff in Eab as ->.
  - destruct (String.compare b c) eqn:Ebc; [|intros _|done].
    + apply String.compare_eq_iff in Ebc as <-. by rewrite Eab.
    + by rewrite (string_compare_lt_trans a b c).
Qed.

Lemma sorted_StronglySorted (l : list string) : StronglySorted str_le (sorted l).
Proof. apply StronglySorted_merge_sort; apply _. Qed.

Lemma sorted_Permutation (l : list string) : sorted l ≡ₚ l.
Proof. apply merge_sort_Permutation. Qed.

Lemma elem_of_sorted (x : string) (l : list string) : x ∈ sorted l ↔ x ∈ l.
Proof. by rewrite sorted_Permutation. Qed.

Lemma sorted_same_elements (l l' : list string) :
  NoDup l → NoDup l' → (∀ x, x ∈ l ↔ x ∈ l') → sorted l = sorted l'.
Proof.
  intros Hl Hl' Heq. apply (StronglySorted_unique str_le); try apply sorted_StronglySorted.
  rewrite !sorted_Permutation. by apply NoDup_Permutation.
Qed.

(** *** Substrings *)

Lemma prefix_spec (sub s : string) :
  String.prefix sub s = true ↔ ∃ b, s = sub +:+ b.
Proof.
  revert sub. induction s as [|c s IH]; intros [|x sub]; cbn.
  - split; [by exists ""|done].
  - split; [done|]. by intros (b & [=]).
  - split; [by eexists|done].
  - destruct (ascii_dec x c) as [->|Hne].
    + rewrite IH. split; intros (b & Hb); exists b.
      * by rewrite Hb.
      * by injection Hb.
    + split; [done|]. intros (b & [= ? _]). done.
Qed.

Lemma contains_spec (sub s : string) :
  Str.contains sub s = true ↔ substring_of sub s.
Proof.
  unfold substring_of. split.
  - induction s as [|c s IH]; cbn [Str.contains]; rewrite orb_true_iff.
    + intros [Hp|?]; [|done]. apply prefix_spec in Hp as (b & ->). by exists "", b.
    + intros [Hp|Hc].
      * apply prefix_spec in Hp as (b & ->). by exists "", b.
      * destruct (IH Hc) as (a & b & ->). by exists (String c a), b.
  - intros (a & b & ->). induction a as [|c a IH].
    + assert (Hp : String.prefix sub (sub +:+ b) = true) by (apply prefix_spec; eauto).
      change ("" +:+ sub +:+ b) with (sub +:+ b).
      destruct (sub +:+ b); cbn [Str.contains]; by rewrite Hp.
    + change (String c a +:+ sub +:+ b) with (String c (a +:+ sub +:+ b)).
      cbn [Str.contains]. rewrite IH. apply orb_true_r.
Qed.

Lemma keyword_hit_spec (keywords : list string) (s : string) :
  keyword_hit keywords s = true ↔ ∃ keyword, keyword ∈ keywords ∧ substring_of keyword s.
Proof.
  unfold keyword_hit. rewrite existsb_exists. split.
  - intros (kw & Hin & Hc). exists kw. by rewrite list_elem_of_In, <- contains_spec.
  - intros (kw & Hin & Hc). exists kw. by rewrite <- list_elem_of_In, contains_spec.
Qed.

Lemma hits_in_spec (M : list (string * list string)) (category ing_name : string) :
  hits_in M category ing_name = true
  ↔ ∃ keywords keyword,
      (category, keywords) ∈ M ∧ keyword ∈ keywords
      ∧ substring_of keyword (name_lower ing_name).
Proof.
  unfold hits_in. rewrite existsb_exists. split.
  - intros ([c kws] & Hin & Hc). apply andb_true_iff in Hc as [Hc Hk].
    apply bool_decide_eq_true in Hc. cbn in Hc, Hk. subst c.
    apply keyword_hit_spec in Hk as (kw & Hkw & Hsub).
    exists kws, kw. by rewrite list_elem_of_In.
  - intros (kws & kw & Hin & Hkw & Hsub). exists (category, kws).
    rewrite <- list_elem_of_In. split; [done|]. cbn.
    rewrite bool_decide_eq_true_2 by done. apply keyword_hit_spec. eauto.
Qed.

Lemma hits_triggers (category ing_name : string) :
  hits category ing_name = true ↔ triggers category ing_name.
Proof. apply hits_in_spec. Qed.

Lemma hits_same_name_lower (category a b : string) :
  name_lower a = name_lower b → hits category a = hits category b.
Proof. intros Heq. unfold hits, hits_in. by rewrite Heq. Qed.

(** *** The detection loop, one category at a time *)

Lemma get_detect_in (c ing : string) (found : list (string * gset string))
    (entry : string * list string) :
  Py.get c (detect_in ing found entry) = note_hit [entry] c (Py.get c found) ing.
Proof.
  unfold detect_in, note_hit, hits_in. cbv zeta. cbn [existsb]. rewrite orb_false_r.
  fold (name_lower ing).
  destruct (keyword_hit entry.2 (name_lower ing)); [|by rewrite andb_false_r].
  rewrite andb_true_r, get_alter.
  destruct (decide (c = entry.1)) as [->|Hne].
  - rewrite bool_decide_eq_true_2 by done. unfold Py.contains.
    destruct (Py.get entry.1 found) as [s|] eqn:E.
    + by rewrite E.
    + by rewrite get_set, decide_True.
  - rewrite bool_decide_eq_false_2 by done.
    destruct (Py.contains entry.1 found); [done|]. by rewrite get_set, decide_False.
Qed.

Lemma note_hit_cons (entry : string * list string) (M : list (string * list string))
    (c : string) (o : option (gset string)) (ing : string) :
  note_hit M c (note_hit [entry] c o ing) ing = note_hit (entry :: M) c o ing.
Proof.
  unfold note_hit, hits_in. cbn [existsb]. rewrite orb_false_r.
  destruct (bool_decide (entry.1 = c) && keyword_hit entry.2 (name_lower ing));
    cbn [orb]; [|done].
  destruct (existsb _ M); [|done]. cbn [default from_option id]. f_equal.
  by rewrite <- (assoc_L (∪)), (idemp_L (∪)).
Qed.

Lemma get_detect_map (c ing : string) (M : list (string * list string))
    (found : list (string * gset string)) :
  Py.get c (foldl (detect_in ing) found M) = note_hit M c (Py.get c found) ing.
Proof.
  revert found. induction M as [|entry M IH]; intros found; cbn [foldl]; [done|].
  by rewrite IH, get_detect_in, note_hit_cons.
Qed.

Lemma get_detect_loop (c : string) (ingredient_names : list string) :
  Py.get c (detect_loop ingredient_names)
  = foldl (note_hit ALLERGEN_MAP c) None ingredient_names.
Proof.
  unfold detect_loop.
  change (@None (gset string)) with (Py.get c ([] : list (string * gset string))).
  generalize ([] : list (string * gset string)).
  induction ingredient_names as [|ing l IH]; intros found; cbn [foldl]; [done|].
  by rewrite IH, get_detect_map.
Qed.

Lemma foldl_note_hit (c : string) (l : list string) (o : option (gset string)) :
  match foldl (note_hit ALLERGEN_MAP c) o l with
  | None => o = None ∧ ∀ ing, ing ∈ l → hits c ing = false
  | Some s =>
      (is_Some o ∨ ∃ ing, ing ∈ l ∧ hits c ing = true)
      ∧ ∀ x, x ∈ s ↔ x ∈ default ∅ o ∨ (x ∈ l ∧ hits c x = true)
  end.
Proof.
  revert o. induction l as [|ing l IH]; intros o; cbn [foldl].
  - destruct o as [s|].
    + split; [by left|]. intros x. rewrite elem_of_nil. cbn. tauto.
    + split; [done|]. intros ing Hin. by apply elem_of_nil in Hin.
  - specialize (IH (note_hit ALLERGEN_MAP c o ing)).
    destruct (foldl (note_hit ALLERGEN_MAP c) (note_hit ALLERGEN_MAP c o ing) l) as [s|].
    + destruct IH as [Hsome Hs]. unfold note_hit in Hsome, Hs. fold (hits c ing) in Hsome, Hs.
      destruct (hits c ing) eqn:Eh.
      * split; [right; exists ing; split; [left|done]|].
        intros x. rewrite Hs. cbn [default from_option id]. rewrite elem_of_union, elem_of_singleton, elem_of_cons.
        split; [|intros [?|[[ -> |?] ?]]; tauto].
        intros [[?| ->]|[? ?]]; tauto.
      * split.
        -- destruct Hsome as [?|(i & Hi & Hh)]; [by left|]. right. exists i. split; [by right|done].
        -- intros x. rewrite Hs, elem_of_cons. split; [tauto|].
           intros [?|[[ -> |?] Hx]]; [tauto|congruence|tauto].
    + destruct IH as [Hnone Hl]. unfold note_hit in Hnone. fold (hits c ing) in Hnone.
      destruct (hits c ing) eqn:Eh; [done|]. split; [done|].
      intros i Hi. apply elem_of_cons in Hi as [->|Hi]; [done|]. by apply Hl.
Qed.

(** The entry of a category in the dict [detected]: absent when no name
    gives the category away, else the set of the names that do. *)
Lemma get_detect_loop_spec (c : string) (ingredient_names : list string) :
  match Py.get c (detect_loop ingredient_names) with
  | None => ∀ ing, ing ∈ ingredient_names → hits c ing = false
  | Some s =>
      (∃ ing, ing ∈ ingredient_names ∧ hits c ing = true)
      ∧ ∀ x, x ∈ s ↔ x ∈ ingredient_names ∧ hits c x = true
  end.
Proof.
  rewrite get_detect_loop.
  pose proof (foldl_note_hit c ingredient_names None) as H.
  destruct (foldl (note_hit ALLERGEN_MAP c) None ingredient_names) as [s|].
  - destruct H as [[[? [=]]|Hex] Hs]. split; [done|].
    intros x. rewrite Hs. cbn [default from_option id]. rewrite elem_of_empty. tauto.
  - by destruct H.
Qed.

Lemma keys_detect_in (ing : string) (found : list (string * gset string))
    (entry : string * list string) :
  NoDup found.*1 → NoDup (detect_in ing found entry).*1.
Proof.
  intros Hnd. unfold detect_in. cbv zeta.
  destruct (keyword_hit _ _); [|done]. rewrite keys_alter.
  destruct (Py.contains entry.1 found) eqn:E; [done|].
  assert (Hn : entry.1 ∉ found.*1).
  { intros Hin. apply contains_keys in Hin. congruence. }
  rewrite keys_set_fresh by done. apply NoDup_app. split; [done|].
  split; [|apply NoDup_singleton].
  intros x Hx Hx'. apply list_elem_of_singleton in Hx'. by subst.
Qed.

Lemma keys_detect_loop (ingredient_names : list string) :
  NoDup (detect_loop ingredient_names).*1.
Proof.
  unfold detect_loop.
  assert (Hgen : ∀ found : list (string * gset string), NoDup found.*1 →
    NoDup (foldl (λ found ing_name, foldl (detect_in ing_name) found ALLERGEN_MAP)
                 found ingredient_names).*1).
  { induction ingredient_names as [|ing l IH]; intros found Hnd; cbn [foldl]; [done|].
    apply IH. clear IH. revert found Hnd.
    induction ALLERGEN_MAP as [|entry M IHM]; intros found Hnd; cbn [foldl]; [done|].
    by apply IHM, keys_detect_in. }
  apply Hgen. constructor.
Qed.

Lemma elem_of_keys_detect_loop (c : string) (ingredient_names : list string) :
  c ∈ (detect_loop ingredient_names).*1
  ↔ ∃ ing, ing ∈ ingredient_names ∧ triggers c ing.
Proof.
  pose proof (get_detect_loop_spec c ingredient_names) as H.
  destruct (Py.get c (detect_loop ingredient_names)) as [s|] eqn:E.
  - destruct H as [(ing & Hin & Hh) _]. split.
    + intros _. exists ing. by rewrite <- hits_triggers.
    + intros _. apply contains_keys. unfold Py.contains. by rewrite E.
  - split.
    + intros Hin. apply get_None_keys in E. done.
    + intros (ing & Hin & Ht). apply hits_triggers in Ht. rewrite H in Ht; done.
Qed.

(** *** What [detect_allergens] returns *)

Lemma detect_allergens_fields (ingredient_names : list string) :
  detected (detect_allergens ingredient_names) = sorted (detect_loop ingredient_names).*1
  ∧ details (detect_allergens ingredient_names)
    = prod_map id (λ v : gset string, sorted (elements v)) <$> detect_loop ingredient_names
  ∧ allergen_string (detect_allergens ingredient_names)
    = match detected (detect_allergens ingredient_names) with
      | [] => "No known allergens"
      | _ => "Contains: " +:+ Str.join ", " (detected (detect_allergens ingredient_names))
      end.
Proof.
  unfold detect_allergens. cbv zeta.
  destruct (detect_loop ingredient_names) as [|p found] eqn:E; [done|].
  cbn [detected details allergen_string]. split; [done|]. split; [done|].
  destruct (sorted (p :: found).*1) as [|c l] eqn:Es; [|done].
  pose proof (sorted_Permutation (p :: found).*1) as Hp. rewrite Es in Hp.
  by apply Permutation_nil_l in Hp.
Qed.

Lemma elem_of_detected (c : string) (ingredient_names : list string) :
  c ∈ detected (detect_allergens ingredient_names)
  ↔ ∃ ing, ing ∈ ingredient_names ∧ triggers c ing.
Proof.
  destruct (detect_allergens_fields ingredient_names) as (-> & _).
  by rewrite elem_of_sorted, elem_of_keys_detect_loop.
Qed.

Lemma get_details (c : string) (ingredient_names : list string) :
  Py.get c (details (detect_allergens ingredient_names))
  = (λ v : gset string, sorted (elements v)) <$> Py.get c (detect_loop ingredient_names).
Proof.
  destruct (detect_allergens_fields ingredient_names) as (_ & -> & _). apply get_fmap.
Qed.

(** X15: the categories [detect_allergens] reports are exactly those for
    which some ingredient name, lowered and stripped, contains one of the
    keywords of the category; they are categories of [ALLERGEN_MAP], listed
    in ascending string order without repetition; the declaration is
    "No known allergens" when there is none and else "Contains: " followed
    by the categories, comma separated. *)
Theorem detect_allergens_detected (ingredient_names : list string) :
  StronglySorted str_le (detected (detect_allergens ingredient_names))
  ∧ NoDup (detected (detect_allergens ingredient_names))
  ∧ (∀ c, c ∈ detected (detect_allergens ingredient_names)
          ↔ ∃ ing, ing ∈ ingredient_names ∧ triggers c ing)
  ∧ (∀ c, c ∈ detected (detect_allergens ingredient_names) → c ∈ ALLERGEN_MAP.*1)
  ∧ allergen_string (detect_allergens ingredient_names)
    = match detected (detect_allergens ingredient_names) with
      | [] => "No known allergens"
      | _ => "Contains: " +:+ Str.join ", " (detected (detect_allergens ingredient_names))
      end.
Proof.
  destruct (detect_allergens_fields ingredient_names) as (Hd & _ & Hs).
  split; [rewrite Hd; apply sorted_StronglySorted|].
  split; [rewrite Hd, sorted_Permutation; apply keys_detect_loop|].
  split; [intros c; apply elem_of_detected|]. split; [|exact Hs].
  intros c Hc. apply elem_of_detected in Hc as (ing & _ & kws & kw & Hin & _).
  apply list_elem_of_fmap. by exists (c, kws).
Qed.

Lemma details_entry_spec (c : string) (ingredient_names : list string) :
  match Py.get c (details (detect_allergens ingredient_names)) with
  | None => ∀ ing, ing ∈ ingredient_names → ¬ triggers c ing
  | Some l =>
      l ≠ [] ∧ StronglySorted str_le l ∧ NoDup l
      ∧ ∀ ing, ing ∈ l ↔ ing ∈ ingredient_names ∧ triggers c ing
  end.
Proof.
  rewrite get_details.
  pose proof (get_detect_loop_spec c ingredient_names) as H.
  destruct (Py.get c (detect_loop ingredient_names)) as [s|]; cbn [fmap option_fmap option_map].
  - destruct H as [(ing & Hin & Hh) Hs].
    assert (Hel : ∀ x, x ∈ sorted (elements s) ↔ x ∈ ingredient_names ∧ triggers c x).
    { intros x. by rewrite elem_of_sorted, elem_of_elements, Hs, hits_triggers. }
    split; [|split; [apply sorted_StronglySorted|split; [|done]]].
    + intros Hnil. assert (Hi : ing ∈ sorted (elements s)).
      { apply Hel. by rewrite <- hits_triggers. }
      rewrite Hnil in Hi. by apply elem_of_nil in Hi.
    + rewrite sorted_Permutation. apply NoDup_elements.
  - intros ing Hin Ht. apply hits_triggers in Ht. by rewrite H in Ht.
Qed.

Lemma keys_details (ingredient_names : list string) :
  (details (detect_allergens ingredient_names)).*1 = (detect_loop ingredient_names).*1.
Proof.
  destruct (detect_allergens_fields ingredient_names) as (_ & -> & _).
  apply keys_prod_map.
Qed.

(** X16: [details] has one entry per reported category, and the entry of a
    category lists, in ascending string order and each once, exactly the
    ingredient names (as given, not lowered) that give the category away;
    no entry is empty. *)
Theorem detect_allergens_details (ingredient_names : list string) :
  NoDup (details (detect_allergens ingredient_names)).*1
  ∧ (details (detect_allergens ingredient_names)).*1
    ≡ₚ detected (detect_allergens ingredient_names)
  ∧ ∀ c,
      match Py.get c (details (detect_allergens ingredient_names)) with
      | None => ∀ ing, ing ∈ ingredient_names → ¬ triggers c ing
      | Some l =>
          l ≠ [] ∧ StronglySorted str_le l ∧ NoDup l
          ∧ ∀ ing, ing ∈ l ↔ ing ∈ ingredient_names ∧ triggers c ing
      end.
Proof.
  destruct (detect_allergens_fields ingredient_names) as (Hd & _ & _).
  split; [rewrite keys_details; apply keys_detect_loop|].
  split; [by rewrite keys_details, Hd, sorted_Permutation|].
  intros c. apply details_entry_spec.
Qed.

(** X17: the result depends on the set of ingredient names only, not on
    their order or on repetitions: two lists with the same names give the
    same categories, the same declaration and, for every category, the same
    list of triggering ingredients. *)
Theorem detect_allergens_same_names (names names' : list string) :
  (∀ x, x ∈ names ↔ x ∈ names') →
  detected (detect_allergens names) = detected (detect_allergens names')
  ∧ allergen_string (detect_allergens names) = allergen_string (detect_allergens names')
  ∧ ∀ c, Py.get c (details (detect_allergens names))
         = Py.get c (details (detect_allergens names')).
Proof.
  intros Heq.
  assert (Hd : detected (detect_allergens names) = detected (detect_allergens names')).
  { destruct (detect_allergens_fields names) as (-> & _).
    destruct (detect_allergens_fields names') as (-> & _).
    apply sorted_same_elements; try apply keys_detect_loop.
    intros c. rewrite !elem_of_keys_detect_loop.
    split; intros (ing & Hin & Ht); exists ing; (split; [by apply Heq|done]). }
  split; [done|]. split.
  - destruct (detect_allergens_fields names) as (_ & _ & ->).
    destruct (detect_allergens_fields names') as (_ & _ & ->). by rewrite Hd.
  - intros c. rewrite !get_details.
    pose proof (get_detect_loop_spec c names) as H.
    pose proof (get_detect_loop_spec c names') as H'.
    destruct (Py.get c (detect_loop names)) as [s|],
             (Py.get c (detect_loop names')) as [s'|];
      cbn [fmap option_fmap option_map].
    + destruct H as [_ Hs], H' as [_ Hs'].
      assert (s = s') as ->; [|done].
      apply set_eq. intros x. by rewrite Hs, Hs', Heq.
    + destruct H as [(ing & Hin & Hh) _]. apply Heq in Hin. rewrite H' in Hh; done.
    + destruct H' as [(ing & Hin & Hh) _]. apply Heq in Hin. rewrite H in Hh; done.
    + done.
Qed.

(** X18: adding ingredient names never removes a finding: every category
    reported for a list is reported for any list holding the same names and
    more, and every triggering ingredient is still listed under it. *)
Theorem detect_allergens_monotone (names names' : list string) :
  (∀ x, x ∈ names → x ∈ names') →
  (∀ c, c ∈ detected (detect_allergens names) → c ∈ detected (detect_allergens names'))
  ∧ ∀ c l, Py.get c (details (detect_allergens names)) = Some l →
      ∃ l', Py.get c (details (detect_allergens names')) = Some l'
            ∧ ∀ x, x ∈ l → x ∈ l'.
Proof.
  intros Hsub. split.
  - intros c. rewrite !elem_of_detected. intros (ing & Hin & Ht). eauto.
  - intros c l. rewrite !get_details.
    pose proof (get_detect_loop_spec c names) as H.
    pose proof (get_detect_loop_spec c names') as H'.
    destruct (Py.get c (detect_loop names)) as [s|]; [|done].
    intros [= <-]. destruct H as [(ing & Hin & Hh) Hs].
    destruct (Py.get c (detect_loop names')) as [s'|].
    + destruct H' as [_ Hs']. eexists. split; [done|].
      intros x. rewrite !elem_of_sorted, !elem_of_elements, Hs, Hs'.
      intros [? ?]. eauto.
    + rewrite H' in Hh; [done|]. by apply Hsub.
Qed.

(** X17 at two spellings of the same two names. *)
Lemma detect_allergens_same_names_witness :
  detected (detect_allergens ["Paneer"; "Egg"])
  = detected (detect_allergens ["Egg"; "Paneer"; "Egg"]).
Proof.
  refine (proj1 (detect_allergens_same_names ["Paneer"; "Egg"] ["Egg"; "Paneer"; "Egg"] _)).
  intros x. rewrite !elem_of_cons, elem_of_nil. tauto.
Defined.

(** X18 at a recipe that gains paneer. *)
Lemma detect_allergens_monotone_witness :
  "Eggs" ∈ detected (detect_allergens ["Egg"; "Paneer"]).
Proof.
  refine (proj1 (detect_allergens_monotone ["Egg"] ["Egg"; "Paneer"] _) "Eggs" _).
  - intros x Hx. apply list_elem_of_singleton in Hx as ->. left.
  - vm_compute. left.
Defined.

(** *** The AI-enhanced detection *)

Lemma hits_any_spec (ing_name : string) :
  hits_any ing_name = true ↔ ∃ c, triggers c ing_name.
Proof.
  unfold hits_any. rewrite existsb_exists. split.
  - intros ([c kws] & Hin & Hk). exists c. apply hits_triggers, hits_in_spec.
    apply keyword_hit_spec in Hk as (kw & Hkw & Hsub).
    exists kws, kw. by rewrite list_elem_of_In.
  - intros (c & kws & kw & Hin & Hkw & Hsub). exists (c, kws).
    rewrite <- list_elem_of_In. split; [done|]. apply keyword_hit_spec. eauto.
Qed.

Lemma triggers_same_name_lower (c a b : string) :
  name_lower a = name_lower b → triggers c a → triggers c b.
Proof. intros Heq (kws & kw & ? & ? & ?). exists kws, kw. by rewrite <- Heq. Qed.

Lemma elem_of_matched (f : string → string) (x : string) (L : list (list string))
    (m0 : gset string) :
  x ∈ foldl (λ matched ings, matched ∪ list_to_set (f <$> ings)) m0 L
  ↔ x ∈ m0 ∨ ∃ ings ing, ings ∈ L ∧ ing ∈ ings ∧ x = f ing.
Proof.
  revert m0. induction L as [|ings L IH]; intros m0; cbn [foldl].
  - split; [by left|]. intros [?|(? & ? & Hin & _)]; [done|]. by apply elem_of_nil in Hin.
  - rewrite IH, elem_of_union, elem_of_list_to_set, list_elem_of_fmap. split.
    + intros [[?|(ing & -> & Hing)]|(ings' & ing & HL & Hing & ->)].
      * by left.
      * right. exists ings, ing. split; [left|done].
      * right. exists ings', ing. split; [by right|done].
    + intros [?|(ings' & ing & HL & Hing & ->)]; [by left; left|].
      apply elem_of_cons in HL as [->|HL].
      * left. right. eauto.
      * right. eauto.
Qed.

(** The names the keyword pass leaves to the AI are those no keyword
    matches, in the given order. *)
Lemma unmatched_of_spec (ingredient_names : list string) :
  unmatched_of (detect_allergens ingredient_names) ingredient_names
  = filter (λ name, hits_any name = false) ingredient_names.
Proof.
  unfold unmatched_of. cbv zeta. apply filter_ext_in. intros name Hname.
  fold (name_lower name). rewrite elem_of_matched, elem_of_empty.
  rewrite <- not_true_iff_false, hits_any_spec. split.
  - intros Hno (c & Ht). apply Hno. right.
    pose proof (details_entry_spec c ingredient_names) as H.
    destruct (Py.get c (details (detect_allergens ingredient_names))) as [l|] eqn:E.
    + destruct H as (_ & _ & _ & Hl). exists l, name. split; [|split; [by apply Hl|done]].
      apply list_elem_of_fmap. exists (c, l). split; [done|]. by apply get_Some_elem_of.
    + by destruct (H name Hname).
  - intros Hno [[]|(ings & ing & HL & Hing & Heq)]. apply Hno.
    apply list_elem_of_fmap in HL as ([c l] & -> & Hcl). cbn [snd] in Hing.
    pose proof (details_entry_spec c ingredient_names) as H.
    rewrite (get_of_elem c l) in H; [|rewrite keys_details; apply keys_detect_loop|done].
    destruct H as (_ & _ & _ & Hl). apply Hl in Hing as [_ Ht].
    exists c. by apply (triggers_same_name_lower c ing name).
Qed.

Lemma unmatched_nil_iff (ingredient_names : list string) :
  unmatched_of (detect_allergens ingredient_names) ingredient_names = []
  ↔ ∀ name, name ∈ ingredient_names → ∃ c, triggers c name.
Proof.
  rewrite unmatched_of_spec. split.
  - intros Hnil name Hin. apply hits_any_spec.
    destruct (hits_any name) eqn:E; [done|].
    assert (Hf : name ∈ filter (λ name, hits_any name = false) ingredient_names)
      by (by apply list_elem_of_filter).
    rewrite Hnil in Hf. by apply elem_of_nil in Hf.
  - intros Hall. induction ingredient_names as [|n l IH]; [done|].
    rewrite filter_cons. destruct (decide (hits_any n = false)) as [Hf|_].
    + assert (Ht : hits_any n = true) by (apply hits_any_spec, Hall; left). congruence.
    + apply IH. intros name Hin. apply Hall. by right.
Qed.

Lemma add_new_spec (ings l : list string) :
  ∃ extra, add_new l ings = l ++ extra
    ∧ (∀ x, x ∈ extra → x ∈ ings)
    ∧ (∀ x, x ∈ ings → x ∈ add_new l ings)
    ∧ (NoDup l → NoDup (add_new l ings)).
Proof.
  unfold add_new. revert l. induction ings as [|ing ings IH]; intros l; cbn [foldl].
  - exists []. rewrite app_nil_r. split; [done|]. split; [done|]. split; [|done].
    intros x Hx. by apply elem_of_nil in Hx.
  - destruct (bool_decide_reflect (ing ∈ l)) as [Hin|Hin].
    + destruct (IH l) as (extra & Heq & Hex & Hall & Hnd). exists extra.
      split; [done|]. split; [intros x Hx; right; by apply Hex|]. split; [|done].
      intros x Hx. apply elem_of_cons in Hx as [->|Hx]; [|by apply Hall].
      rewrite Heq. apply elem_of_app. by left.
    + destruct (IH (l ++ [ing])) as (extra & Heq & Hex & Hall & Hnd).
      exists (ing :: extra). split; [by rewrite Heq, <- app_assoc|].
      split; [|split].
      * intros x Hx. apply elem_of_cons in Hx as [->|Hx]; [left|right; by apply Hex].
      * intros x Hx. apply elem_of_cons in Hx as [->|Hx]; [|by apply Hall].
        rewrite Heq. apply elem_of_app. left. apply elem_of_app. right. left.
      * intros Hl. apply Hnd. apply NoDup_app. split; [done|].
        split; [|apply NoDup_singleton].
        intros x Hx Hx'. apply list_elem_of_singleton in Hx'. by subst.
Qed.

Lemma get_merge_finding (c : string) (d : list (string * list string))
    (finding : string * list string) :
  Py.get c (merge_finding d finding)
  = if decide (c = finding.1)
    then Some (add_new (default [] (Py.get finding.1 d)) finding.2)
    else Py.get c d.
Proof.
  unfold merge_finding. cbv zeta. destruct finding as [cat ings]. cbn [fst snd].
  set (d0 := if Py.contains cat d then d else Py.set cat [] d).
  assert (H0 : Py.get cat d0 = Some (default [] (Py.get cat d))).
  { unfold d0, Py.contains. destruct (Py.get cat d) as [l|] eqn:E; [done|].
    by rewrite get_set, decide_True. }
  assert (Hc : c ≠ cat → Py.get c d0 = Py.get c d).
  { intros Hne. unfold d0. destruct (Py.contains cat d); [done|].
    by rewrite get_set, decide_False. }
  assert (Hgen : ∀ (d' : list (string * list string)) l, Py.get cat d' = Some l →
    Py.get c (foldl (λ details ing,
                 if bool_decide (ing ∈ default [] (Py.get cat details)) then details
                 else Py.alter (λ l, l ++ [ing]) cat details) d' ings)
    = if decide (c = cat) then Some (add_new l ings) else Py.get c d').
  { clear. unfold add_new. induction ings as [|ing ings IH]; intros d' l Hl; cbn [foldl].
    - destruct (decide (c = cat)) as [->|]; done.
    - rewrite Hl. cbn [default from_option id].
      destruct (bool_decide (ing ∈ l)); [by apply IH|].
      rewrite (IH _ (l ++ [ing])) by (by rewrite get_alter, decide_True, Hl).
      destruct (decide (c = cat)); [done|]. by rewrite get_alter, decide_False. }
  rewrite (Hgen d0 _ H0). destruct (decide (c = cat)); [done|]. by apply Hc.
Qed.

Lemma keys_merge_finding (d : list (string * list string))
    (finding : string * list string) :
  (merge_finding d finding).*1
  = if decide (finding.1 ∈ d.*1) then d.*1 else d.*1 ++ [finding.1].
Proof.
  unfold merge_finding. cbv zeta.
  set (d0 := if Py.contains finding.1 d then d else Py.set finding.1 [] d).
  assert (H0 : d0.*1 = if decide (finding.1 ∈ d.*1) then d.*1 else d.*1 ++ [finding.1]).
  { unfold d0. destruct (Py.contains finding.1 d) eqn:E.
    - apply contains_keys in E. by rewrite decide_True.
    - assert (Hn : finding.1 ∉ d.*1).
      { intros Hin. apply contains_keys in Hin. congruence. }
      rewrite decide_False by done. by apply keys_set_fresh. }
  rewrite <- H0. generalize d0. clear.
  induction finding.2 as [|ing ings IH]; intros d0; cbn [foldl]; [done|].
  rewrite IH. destruct (bool_decide _); [done|]. apply keys_alter.
Qed.

(** The findings of the AI for one category, seen from the entry of that
    category. *)
Lemma get_merge_findings (c : string) (F : list (string * list string))
    (d : list (string * list string)) :
  (∀ l, Py.get c d = Some l →
     ∃ extra, Py.get c (foldl merge_finding d F) = Some (l ++ extra)
       ∧ ∀ x, x ∈ extra → ∃ ings, (c, ings) ∈ F ∧ x ∈ ings)
  ∧ (∀ ings x, (c, ings) ∈ F → x ∈ ings →
       ∃ l, Py.get c (foldl merge_finding d F) = Some l ∧ x ∈ l).
Proof.
  revert d. induction F as [|f F IH]; intros d; cbn [foldl].
  - split.
    + intros l Hl. exists []. rewrite app_nil_r. split; [done|].
      intros x Hx. by apply elem_of_nil in Hx.
    + intros ings x Hin. by apply elem_of_nil in Hin.
  - destruct (IH (merge_finding d f)) as [IH1 IH2]. split.
    + intros l Hl. destruct (decide (c = f.1)) as [Hc|Hc].
      * destruct (add_new_spec f.2 l) as (e1 & He1 & Hex1 & _).
        destruct (IH1 (l ++ e1)) as (e2 & He2 & Hex2).
        { rewrite get_merge_finding, decide_True by done.
          rewrite <- Hc, Hl. cbn [default from_option id]. by rewrite He1. }
        exists (e1 ++ e2). split; [by rewrite He2, app_assoc|].
        intros x Hx. apply elem_of_app in Hx as [Hx|Hx].
        -- exists f.2. split; [|by apply Hex1].
           destruct f as [cat ings0]. cbn [fst snd] in *. subst cat. left.
        -- destruct (Hex2 x Hx) as (ings & Hin & Hxi). exists ings. split; [by right|done].
      * destruct (IH1 l) as (e2 & He2 & Hex2).
        { by rewrite get_merge_finding, decide_False. }
        exists e2. split; [done|]. intros x Hx.
        destruct (Hex2 x Hx) as (ings & Hin & Hxi). exists ings. split; [by right|done].
    + intros ings x Hin Hx. apply elem_of_cons in Hin as [Hf|Hin]; [|by apply (IH2 ings)].
      subst f. cbn [fst snd] in *.
      destruct (add_new_spec ings (default [] (Py.get c d))) as (e1 & He1 & _ & Hall & _).
      destruct (IH1 (add_new (default [] (Py.get c d)) ings)) as (e2 & He2 & _).
      { by rewrite get_merge_finding, decide_True. }
      eexists. split; [exact He2|]. apply elem_of_app. left. by apply Hall.
Qed.

Lemma keys_merge_findings (F : list (string * list string))
    (d : list (string * list string)) :
  (NoDup d.*1 → NoDup (foldl merge_finding d F).*1)
  ∧ ∀ c, c ∈ (foldl merge_finding d F).*1 ↔ c ∈ d.*1 ∨ c ∈ F.*1.
Proof.
  revert d. induction F as [|f F IH]; intros d; cbn [foldl].
  - split; [done|]. intros c. rewrite fmap_nil, elem_of_nil. tauto.
  - destruct (IH (merge_finding d f)) as [IHn IHe].
    rewrite keys_merge_finding in IHn. split.
    + intros Hnd. apply IHn. destruct (decide (f.1 ∈ d.*1)); [done|].
      apply NoDup_app. split; [done|]. split; [|apply NoDup_singleton].
      intros x Hx Hx'. apply list_elem_of_singleton in Hx'. by subst.
    + intros c. rewrite IHe, keys_merge_finding, fmap_cons, elem_of_cons.
      destruct (decide (f.1 ∈ d.*1)) as [Hin|Hin].
      * split; [tauto|]. intros [?|[->|?]]; tauto.
      * rewrite elem_of_app, list_elem_of_singleton. tauto.
Qed.

Section ai_facts.
Variable ai_chat_json : list string → list (string * list string).

(** X19: when every ingredient name matches some keyword the AI is not
    consulted: whatever it would answer, the enhanced detection returns the
    result of the keyword pass, with [ai_enhanced] false and no AI
    findings. *)
Theorem enhanced_all_matched (ingredient_names : list string) :
  (∀ name, name ∈ ingredient_names → ∃ c, triggers c name) →
  detect_allergens_enhanced ai_chat_json ingredient_names
  = {| result := detect_allergens ingredient_names;
       ai_enhanced := false; ai_findings := [] |}.
Proof.
  intros Hall. apply unmatched_nil_iff in Hall.
  unfold detect_allergens_enhanced. cbv zeta. rewrite Hall. reflexivity.
Qed.

(** X20: [ai_enhanced] tells whether some ingredient was left to the AI,
    not whether the AI found anything: it is true exactly when some
    ingredient name matches no keyword of any category. *)
Theorem ai_enhanced_iff (ingredient_names : list string) :
  ai_enhanced (detect_allergens_enhanced ai_chat_json ingredient_names) = true
  ↔ ∃ name, name ∈ ingredient_names ∧ ∀ c, ¬ triggers c name.
Proof.
  assert (Hun : unmatched_of (detect_allergens ingredient_names) ingredient_names ≠ []
                ↔ ∃ name, name ∈ ingredient_names ∧ ∀ c, ¬ triggers c name).
  { rewrite unmatched_of_spec. split.
    - intros Hne.
      destruct (filter (λ name, hits_any name = false) ingredient_names)
        as [|name l] eqn:E; [done|].
      assert (Hin : name ∈ filter (λ name, hits_any name = false) ingredient_names)
        by (rewrite E; left).
      apply list_elem_of_filter in Hin as [Hf Hin]. exists name. split; [done|].
      intros c Ht. assert (hits_any name = true) by (apply hits_any_spec; eauto).
      congruence.
    - intros (name & Hin & Hno) Hnil.
      assert (Hf : name ∈ filter (λ name, hits_any name = false) ingredient_names).
      { apply list_elem_of_filter. split; [|done].
        apply not_true_iff_false. rewrite hits_any_spec. intros (c & Ht). by apply (Hno c). }
      rewrite Hnil in Hf. by apply elem_of_nil in Hf. }
  rewrite <- Hun. unfold detect_allergens_enhanced. cbv zeta.
  destruct (unmatched_of (detect_allergens ingredient_names) ingredient_names)
    as [|u us] eqn:Eu.
  - cbn. split; [done|]. by intros [].
  - destruct (_ai_allergen_check ai_chat_json (u :: us)); cbn; done.
Qed.

Lemma enhanced_fields (ingredient_names : list string) :
  let e := detect_allergens_enhanced ai_chat_json ingredient_names in
  details (result e)
  = foldl merge_finding (details (detect_allergens ingredient_names)) (ai_findings e)
  ∧ detected (result e) = sorted (details (result e)).*1
  ∧ allergen_string (result e)
    = match detected (result e) with
      | [] => "No known allergens"
      | _ => "Contains: " +:+ Str.join ", " (detected (result e))
      end.
Proof.
  unfold detect_allergens_enhanced. cbv zeta.
  destruct (_ai_allergen_check ai_chat_json _) as [|f F].
  - cbn [result ai_findings foldl].
    destruct (detect_allergens_fields ingredient_names) as (Hd & _ & Hs).
    split; [done|]. split; [by rewrite keys_details|done].
  - cbn [result ai_findings detected details allergen_string]. done.
Qed.

(** X21: the AI can only add to the keyword findings.  The reported
    categories are the keyword categories together with the categories of
    the AI findings, in ascending string order without repetition; under a
    keyword category the keyword ingredients stay first, followed by
    ingredients the AI named for it; every ingredient the AI named is listed
    under its category; and the declaration is built from the merged
    categories. *)
Theorem enhanced_merges (ingredient_names : list string) :
  let e := detect_allergens_enhanced ai_chat_json ingredient_names in
  let base := detect_allergens ingredient_names in
  StronglySorted str_le (detected (result e))
  ∧ NoDup (detected (result e))
  ∧ (∀ c, c ∈ detected (result e) ↔ c ∈ detected base ∨ c ∈ (ai_findings e).*1)
  ∧ (∀ c l, Py.get c (details base) = Some l →
       ∃ extra, Py.get c (details (result e)) = Some (l ++ extra)
         ∧ ∀ x, x ∈ extra → ∃ ings, (c, ings) ∈ ai_findings e ∧ x ∈ ings)
  ∧ (∀ c ings x, (c, ings) ∈ ai_findings e → x ∈ ings →
       ∃ l, Py.get c (details (result e)) = Some l ∧ x ∈ l)
  ∧ allergen_string (result e)
    = match detected (result e) with
      | [] => "No known allergens"
      | _ => "Contains: " +:+ Str.join ", " (detected (result e))
      end.
Proof.
  cbv zeta. destruct (enhanced_fields ingredient_names) as (Hdet & Hd & Hs).
  cbv zeta in Hdet, Hd, Hs.
  destruct (keys_merge_findings
              (ai_findings (detect_allergens_enhanced ai_chat_json ingredient_names))
              (details (detect_allergens ingredient_names))) as [Hnd Hkeys].
  rewrite <- Hdet in Hnd, Hkeys.
  split; [rewrite Hd; apply sorted_StronglySorted|].
  split.
  { rewrite Hd, sorted_Permutation. apply Hnd. rewrite keys_details.
    apply keys_detect_loop. }
  split.
  { intros c. rewrite Hd, elem_of_sorted, Hkeys.
    destruct (detect_allergens_fields ingredient_names) as (-> & _).
    by rewrite keys_details, elem_of_sorted. }
  split; [intros c; rewrite Hdet; apply get_merge_findings|].
  split; [intros c; rewrite Hdet; apply get_merge_findings|].
  exact Hs.
Qed.

End ai_facts.

(** X19 at two dairy ingredients and an AI that would report sesame. *)
Lemma enhanced_all_matched_witness :
  detect_allergens_enhanced (λ names, [("Sesame", names)]) ["Paneer"; "Whole Milk"]
  = {| result := detect_allergens ["Paneer"; "Whole Milk"];
       ai_enhanced := false; ai_findings := [] |}.
Proof.
  apply enhanced_all_matched. intros name Hin. apply hits_any_spec.
  apply elem_of_cons in Hin as [->|Hin]; [vm_compute; reflexivity|].
  apply list_elem_of_singleton in Hin as ->. vm_compute. reflexivity.
Defined.

(** ** The live recalculation *)

Lemma round_half_even_of_Z (k : Z) : Py.round_half_even (Py.of_Z k) = k.
Proof.
  unfold Py.round_half_even, Py.of_Z. cbn [this Q2Qc].
  rewrite Qred_identity by (cbn; apply Z.gcd_1_r). cbn [Qnum Qden inject_Z].
  rewrite Z.div_1_r, Z.mod_1_r. reflexivity.
Qed.


Lemma round_0 (n : nat) : Py.round 0 n = 0.
Proof.
  unfold Py.round. cbv zeta. rewrite Qcmult_0_l.
  change (Q2Qc 0) with (Py.of_Z 0). rewrite round_half_even_of_Z.
  change (Py.of_Z 0) with (Q2Qc 0). unfold Qcdiv. apply Qcmult_0_l.
Qed.

Section sort_asc_facts.
Context {A : Type} (key : A → string).




End sort_asc_facts.




Section live_facts.
Variable nutrient_rows : Z → list IngredientNutrient.

Lemma live_step_without_id (state : list (Z * Accum) * Qc) (item : LiveItem) :
  has_id item = false → live_step nutrient_rows state item = state.
Proof.
  unfold live_step, has_id. destruct state as [d w].
  destruct (item_ingredient_id item) as [ing_id|]; [|done].
  destruct (bool_decide (ing_id = 0%Z)); [done|]. discriminate.
Qed.

(** X22: the live endpoint skips every item without an ingredient id
    (absent, null or 0) before it reads anything else of it: a request and
    the same request with these items left out get the same answer. *)
Theorem live_ignores_items_without_id (items : list LiveItem) (ss : option Qc) :
  api_live_calculate nutrient_rows items ss
  = api_live_calculate nutrient_rows (filter (λ item, has_id item = true) items) ss.
Proof.
  unfold api_live_calculate. cbv zeta.
  assert (Hloop : ∀ state,
    foldl (live_step nutrient_rows) state items
    = foldl (live_step nutrient_rows) state (filter (λ item, has_id item = true) items)).
  { induction items as [|item items IH]; intros state; [done|].
    rewrite filter_cons. cbn [foldl].
    destruct (decide (has_id item = true)) as [Hc|Hc]; cbn [foldl]; [apply IH|].
    apply not_true_is_false in Hc. rewrite (live_step_without_id _ _ Hc). apply IH. }
  by rewrite Hloop.
Qed.







End live_facts.





(** ** The dashboard *)

Lemma round_half_even_le (y : Qc) (k : Z) :
  y ≤ Py.of_Z k → (Py.round_half_even y ≤ k)%Z.
Proof.
  intros Hy.
  assert (Hn : (Qnum y ≤ k * Z.pos (Qden y))%Z).
  { unfold Py.of_Z, Qcle in Hy. cbn [this Q2Qc] in Hy.
    rewrite Qred_identity in Hy by (cbn; apply Z.gcd_1_r).
    unfold Qle in Hy. cbn [Qnum Qden inject_Z] in Hy. lia. }
  unfold Py.round_half_even. cbv zeta.
  pose proof (Z.div_mod (Qnum y) (Z.pos (Qden y)) ltac:(lia)) as Hdm.
  pose proof (Z.mod_pos_bound (Qnum y) (Z.pos (Qden y)) ltac:(lia)) as Hm.
  assert (Hfl : (Qnum y / Z.pos (Qden y) ≤ k)%Z).
  { apply Z.div_le_upper_bound; lia. }
  assert (Hstep : (0 < Qnum y mod Z.pos (Qden y) → Qnum y / Z.pos (Qden y) + 1 ≤ k)%Z).
  { intros Hpos. nia. }
  destruct (Z.ltb_spec (2 * (Qnum y mod Z.pos (Qden y))) (Z.pos (Qden y))); [done|].
  destruct (Z.ltb_spec (Z.pos (Qden y)) (2 * (Qnum y mod Z.pos (Qden y)))); [apply Hstep; lia|].
  destruct (Z.even _); [done|]. apply Hstep. lia.
Qed.

(** X25: the compliance percentage of the dashboard is an integer between
    0 and 100 whenever the compliant labels are among the labels; it is 0
    without labels or without compliant ones, and 100 when all labels are
    compliant. *)
Theorem compliance_pct_bounds (compliant total_labels : nat) :
  (compliant ≤ total_labels)%nat →
  (0 ≤ compliance_pct compliant total_labels ≤ 100)%Z
  ∧ (compliant = 0%nat → compliance_pct compliant total_labels = 0%Z)
  ∧ (0 < total_labels → compliant = total_labels →
     compliance_pct compliant total_labels = 100%Z)%nat.
Proof.
  intros Hle. unfold compliance_pct.
  destruct (Nat.ltb_spec 0 total_labels) as [Hpos|Hz].
  - assert (Ht : 0 < Py.of_Z (Z.of_nat total_labels)) by (apply of_Z_pos; lia).
    assert (Ht0 : Py.of_Z (Z.of_nat total_labels) ≠ 0).
    { intros E. rewrite E in Ht. by apply Qclt_not_eq in Ht. }
    assert (Hc : 0 ≤ Py.of_Z (Z.of_nat compliant)) by (apply of_Z_nonneg; lia).
    split; [split|split].
    + apply round_half_even_nonneg, Qcmult_nonneg_nonneg; [|by apply of_Z_nonneg].
      by apply Qcdiv_nonneg.
    + apply round_half_even_le.
      rewrite <- (Qcmult_1_l (Py.of_Z 100)) at 2.
      apply Qcmult_le_mono_nonneg_r; [by apply of_Z_nonneg|].
      apply (Qcmult_le_mono_pos_r _ _ (Py.of_Z (Z.of_nat total_labels)) Ht).
      replace (Py.of_Z (Z.of_nat compliant) / Py.of_Z (Z.of_nat total_labels)
               * Py.of_Z (Z.of_nat total_labels))
        with (Py.of_Z (Z.of_nat compliant)) by (by field).
      rewrite Qcmult_1_l, !of_Z_Qc_of_Z. apply (proj1 (Z2Qc_inj_le _ _)). lia.
    + intros ->. cbn [Z.of_nat]. change (Py.of_Z 0) with (Q2Qc 0).
      unfold Qcdiv. rewrite !Qcmult_0_l. reflexivity.
    + intros _ ->.
      replace (Py.of_Z (Z.of_nat total_labels) / Py.of_Z (Z.of_nat total_labels)
               * Py.of_Z 100) with (Py.of_Z 100) by (by field).
      apply round_half_even_of_Z.
  - split; [lia|]. split; [done|]. lia.
Qed.

(** X25 at three compliant labels out of eight (37.5 rounds to the even
    38). *)
Lemma compliance_pct_bounds_witness :
  (0 ≤ compliance_pct 3 8 ≤ 100)%Z ∧ compliance_pct 3 8 = 38%Z.
Proof.
  split; [|vm_compute; reflexivity].
  apply (compliance_pct_bounds 3 8). lia.
Defined.

Lemma nutrition_nil_iff (r : Recipe) (nd : list (Z * NutritionEntry)) :
  calculate_nutrition r = Some nd → (nd = [] ↔ rows r = []).
Proof.
  rewrite calculate_nutrition_eq. intros [= <-].
  destruct (first_occurrences_spec ((λ row, nutrient_id row.2) <$> rows r)) as [_ Hin].
  rewrite <- keys_accumulate in Hin. split.
  - intros Hnil. apply fmap_nil_inv in Hnil.
    destruct (rows r) as [|row l] eqn:E; [done|].
    assert (Hk : nutrient_id row.2 ∈ (accumulate r).*1) by (apply Hin; left).
    rewrite Hnil in Hk. by apply elem_of_nil in Hk.
  - intros Hnil. rewrite Hnil in Hin.
    destruct (accumulate r) as [|[nid a] d]; [done|].
    assert (Hk : nid ∈ ((nid, a) :: d).*1) by left.
    apply Hin in Hk. by apply elem_of_nil in Hk.
Qed.

Section dashboard_facts.
Context `{FloatFormat}.

Lemma dashboard_step_no_rows (b : Breakdown) (r : Recipe) :
  rows r = [] → dashboard_step b r = b.
Proof.
  intros Hrows. unfold dashboard_step.
  destruct (calculate_nutrition r) as [nd|] eqn:E; [|done].
  apply (nutrition_nil_iff r nd E) in Hrows. by rewrite Hrows.
Qed.

Lemma dashboard_step_issues (b : Breakdown) (r : Recipe) :
  issues_count (dashboard_step b r) = 0%nat
  ↔ issues_count b = 0%nat
    ∧ (rows r = []
       ∨ ∃ nd, calculate_nutrition r = Some nd
               ∧ (check_all (new_checker r nd)).1.1 = true).
Proof.
  unfold dashboard_step.
  destruct (calculate_nutrition r) as [nd|] eqn:E;
    [|by rewrite calculate_nutrition_eq in E].
  pose proof (nutrition_nil_iff r nd E) as Hnil.
  destruct nd as [|p nd].
  - split; [|tauto]. intros Hb. split; [done|]. left. by apply Hnil.
  - cbv zeta. cbn [issues_count]. rewrite Nat.eq_add_0, length_zero_iff_nil. split.
    + intros [Hb Hiss]. split; [done|]. right. exists (p :: nd). split; [done|].
      by rewrite check_all_verdict, Hiss.
    + intros [Hb [Hrows|(nd' & [= <-] & Hv)]]; [by apply Hnil in Hrows|].
      split; [done|].
      by rewrite check_all_verdict, Nat.eqb_eq, length_zero_iff_nil in Hv.
Qed.

(** X26: the dashboard loop passes over every recipe without nutrient rows
    (a recipe without ingredients among them, which [check_all] would
    reject): such a recipe leaves the four counters as they are.  So the
    mandatory status is "success" exactly when every recipe that has some
    nutrient row is compliant. *)
Theorem dashboard_mandatory_status (recipes : list Recipe) :
  (∀ b r, rows r = [] → dashboard_step b r = b)
  ∧ (mandatory_status recipes = "success"
     ↔ ∀ r, r ∈ recipes →
         rows r = []
         ∨ ∃ nd, calculate_nutrition r = Some nd
                 ∧ (check_all (new_checker r nd)).1.1 = true).
Proof.
  split; [apply dashboard_step_no_rows|].
  assert (Hgen : ∀ b,
    issues_count (foldl dashboard_step b recipes) = 0%nat
    ↔ issues_count b = 0%nat
      ∧ ∀ r, r ∈ recipes →
          rows r = []
          ∨ ∃ nd, calculate_nutrition r = Some nd
                  ∧ (check_all (new_checker r nd)).1.1 = true).
  { induction recipes as [|r l IH]; intros b; cbn [foldl].
    - split; [|tauto]. intros Hb. split; [done|]. intros r Hr. by apply elem_of_nil in Hr.
    - rewrite IH, dashboard_step_issues. split.
      + intros [[Hb Hr] Hl]. split; [done|]. intros r' Hr'.
        apply elem_of_cons in Hr' as [->|Hr']; [done|by apply Hl].
      + intros [Hb Hall]. split; [split; [done|apply Hall; left]|].
        intros r' Hr'. apply Hall. by right. }
  assert (Hst : mandatory_status recipes = "success"
                ↔ issues_count (dashboard_breakdown recipes) = 0%nat).
  { unfold mandatory_status.
    destruct (Nat.eqb_spec (issues_count (dashboard_breakdown recipes)) 0); split; done. }
  rewrite Hst. unfold dashboard_breakdown. rewrite Hgen. cbn [issues_count]. tauto.
Qed.

End dashboard_facts.

(** ** More on the attribution *)

Lemma of_Z_mult (a b : Z) : Py.of_Z (a * b) = Py.of_Z a * Py.of_Z b.
Proof. rewrite !of_Z_Qc_of_Z. apply Z2Qc_inj_mul. Qed.

Lemma of_Z_pow_nonzero (n : nat) : Py.of_Z (10 ^ Z.of_nat n) ≠ 0.
Proof.
  intros E. assert (Hpos : 0 < Py.of_Z (10 ^ Z.of_nat n)) by (apply of_Z_pos; lia).
  rewrite E in Hpos. by apply Qclt_not_eq in Hpos.
Qed.

(** A value rounded to [n] decimals is not changed by rounding it to more
    decimals. *)
Lemma round_round (x : Qc) (n m : nat) :
  (n ≤ m)%nat → Py.round (Py.round x n) m = Py.round x n.
Proof.
  intros Hnm. unfold Py.round. cbv zeta.
  set (k := Py.round_half_even (x * Py.of_Z (10 ^ Z.of_nat n))).
  assert (Hpow : Py.of_Z (10 ^ Z.of_nat m)
                 = Py.of_Z (10 ^ Z.of_nat n) * Py.of_Z (10 ^ Z.of_nat (m - n))).
  { rewrite <- of_Z_mult, <- Z.pow_add_r by lia. do 2 f_equal. lia. }
  pose proof (of_Z_pow_nonzero n) as Hn. pose proof (of_Z_pow_nonzero (m - n)) as Hd.
  replace (Py.of_Z k / Py.of_Z (10 ^ Z.of_nat n) * Py.of_Z (10 ^ Z.of_nat m))
    with (Py.of_Z (k * 10 ^ Z.of_nat (m - n)))
    by (rewrite Hpow, of_Z_mult; by field).
  rewrite round_half_even_of_Z, Hpow, of_Z_mult. by field.
Qed.

Lemma get0_round_form (r : Recipe) (tw : Qc) (name : string) :
  ∃ y, get0 (per_100g_by_name (prod_map id (finished r tw) <$> accumulate r)) name
       = Py.round y 2.
Proof.
  unfold get0. rewrite per_100g_by_name_lookup.
  destruct (last (entries_named name _)) as [[nid e]|] eqn:El;
    cbn [fmap option_fmap option_map default from_option id snd].
  - apply last_Some_elem_of in El. unfold entries_named in El.
    apply list_elem_of_filter in El as [_ El].
    apply list_elem_of_fmap in El as ([nid' a] & [= -> ->] & _).
    cbn [finished per_100g default from_option id]. eauto.
  - exists 0. symmetry. apply round_0.
Qed.

Lemma elem_of_classify (m : gmap string Qc) (ind : FOPIndicator) :
  ind ∈ classify m ↔ ∃ check, check ∈ fop_checks ∧ ind = fop_indicator m check.
Proof.
  unfold classify. rewrite foldl_snoc_fmap, list_elem_of_fmap. split.
  - intros (check & -> & Hin). eauto.
  - intros (check & Hin & ->). eauto.
Qed.

Lemma threshold_of_check (check : string * Qc * string) :
  check ∈ fop_checks → threshold_of check.1.1 = check.1.2.
Proof.
  unfold fop_checks. rewrite !elem_of_cons, elem_of_nil.
  intros [->|[->|[->|[->|[]]]]]; vm_compute; reflexivity.
Qed.

(** X27: every entry of the attribution is for a nutrient the front-of-pack
    check rates HIGH: the threshold and unit it reports are those of the
    checker for that nutrient (the local [THRESHOLDS] table agrees with the
    checker's constants), the current value it reports is the per-100g
    value of the nutrition data under that name, and that value lies
    strictly above the reported threshold. *)
Theorem attribution_above_threshold (r : Recipe)
    (attribution : list (string * Attribution)) :
  reformulate_attribution r = Some attribution →
  ∀ name a, (name, a) ∈ attribution →
    (name, attr_threshold a, attr_unit a) ∈ fop_checks
    ∧ attr_threshold a < current_per_100g a
    ∧ ∃ nd, calculate_nutrition r = Some nd
            ∧ current_per_100g a = get0 (per_100g_by_name nd) name.
Proof.
  set (nd := prod_map id (finished r (Py.or_ (total_weight r) 1)) <$> accumulate r).
  set (tw := Py.or_ (total_weight r) 1).
  set (highs := high_nutrients_of (get_fop_indicators (new_checker r nd))).
  assert (Hattr : reformulate_attribution r
    = Some ((λ high, (fop_nutrient high, attribution_of tw (ingredient_data_of r) high))
            <$> highs)).
  { unfold reformulate_attribution. rewrite calculate_nutrition_eq.
    cbn [mbind option_bind]. f_equal.
    apply (foldl_set_NoDup fop_nutrient (attribution_of tw (ingredient_data_of r))).
    apply high_nutrients_NoDup. }
  rewrite Hattr. intros [= <-] name a Hin.
  apply list_elem_of_fmap in Hin as (high & [= -> ->] & Hhigh).
  unfold highs, high_nutrients_of in Hhigh.
  apply list_elem_of_filter in Hhigh as [Hlevel Hhigh].
  unfold get_fop_indicators, new_checker in Hhigh. cbn [nutrition_data] in Hhigh.
  apply elem_of_classify in Hhigh as ([[n t] u] & Hcheck & ->).
  apply fop_indicator_high in Hlevel.
  pose proof (threshold_of_check _ Hcheck) as Ht. cbn [fst snd] in Ht.
  assert (Hn : fop_nutrient (fop_indicator (per_100g_by_name nd) (n, t, u)) = n)
    by apply fop_indicator_name.
  assert (Hu : fop_unit (fop_indicator (per_100g_by_name nd) (n, t, u)) = u).
  { unfold fop_indicator. repeat case_decide; reflexivity. }
  assert (Hv : fop_value (fop_indicator (per_100g_by_name nd) (n, t, u))
               = get0 (per_100g_by_name nd) n).
  { unfold fop_indicator. repeat case_decide; reflexivity. }
  unfold attribution_of. cbn [attr_threshold attr_unit current_per_100g].
  rewrite Hn, Hu, Hv, Ht.
  assert (Hr : Py.round (get0 (per_100g_by_name nd) n) 3 = get0 (per_100g_by_name nd) n).
  { destruct (get0_round_form r tw n) as (y & Hy).
    change (get0 (per_100g_by_name nd) n = Py.round y 2) in Hy.
    rewrite Hy. apply round_round. lia. }
  rewrite Hr. split; [done|]. split; [done|].
  exists nd. split; [apply calculate_nutrition_eq|done].
Qed.

(** X27 at the salty broth, whose Sodium is HIGH. *)
Lemma attribution_above_threshold_witness :
  ∃ a, Py.get "Sodium" (default [] (reformulate_attribution Sample.broth)) = Some a
       ∧ attr_threshold a < current_per_100g a.
Proof.
  assert (E : reformulate_attribution Sample.broth
              = Some (default [] (reformulate_attribution Sample.broth)))
    by (vm_compute; reflexivity).
  destruct (Py.get "Sodium" (default [] (reformulate_attribution Sample.broth)))
    as [a|] eqn:Ea; [|vm_compute in Ea; discriminate Ea].
  exists a. split; [reflexivity|].
  apply get_Some_elem_of in Ea.
  exact (proj1 (proj2 (attribution_above_threshold Sample.broth _ E "Sodium" a Ea))).
Defined.

(** ** The automatic allergen declaration *)

Lemma strip_nil : Str.strip "" = "".
Proof. reflexivity. Qed.

Lemma contains_line_nonempty (l : list string) : contains_line l ≠ "".
Proof. unfold contains_line. intros E. vm_compute in E. discriminate E. Qed.

Section auto_analyze_facts.
Context `{FloatFormat}.
Variable ai_chat_json : list string → list (string * list string).

Lemma info_alone_others (c : Checker) (x : string) :
  x ∈ info (alone _check_mandatory_nutrients c)
      ++ info (alone _check_serving_size_declaration c)
      ++ info (alone _check_fop_warnings c)
      ++ info (alone _check_ingredient_list c)
  ∨ x ∈ info (alone _check_fssai_license c) ++ info (alone _check_trans_fat c) →
  x ≠ allergen_provided_note.
Proof.
  assert (Hm : info (alone _check_mandatory_nutrients c) = []).
  { unfold alone. by rewrite check_mandatory_emit. }
  assert (Hf : info (alone _check_fop_warnings c) = []).
  { unfold alone. destruct (fop_warnings_match_high_aux (fresh c)) as (w & -> ). reflexivity. }
  assert (Ht : info (alone _check_trans_fat c) = []).
  { unfold alone, _check_trans_fat.
    destruct (first_named "Trans Fat" (nutrition_data (fresh c))) as [[nid data]|]; [|done].
    cbv zeta. destruct (_ && _); [|done]. by destruct (decide _). }
  rewrite Hm, serving_alone_info, Hf, Ht, app_nil_r. cbn [app].
  intros [Hx|Hx].
  - unfold alone, _check_ingredient_list in Hx. cbv zeta in Hx.
    destruct (ingredients (recipe (fresh c))); cbn [info issues_append info_append fresh
      new_checker app] in Hx; [by apply elem_of_nil in Hx|].
    apply list_elem_of_singleton in Hx as ->. intros E. vm_compute in E. discriminate E.
  - unfold alone, _check_fssai_license in Hx. cbv zeta in Hx.
    destruct (negb (Str.truthy _)); [by apply elem_of_nil in Hx|].
    destruct (_ || _); [by apply elem_of_nil in Hx|].
    cbn [info info_append fresh new_checker app] in Hx.
    apply list_elem_of_singleton in Hx as ->. intros E. vm_compute in E. discriminate E.
Qed.

Lemma provided_note_iff (c : Checker) :
  allergen_provided_note ∈ info (check_all c).2 ↔ allergen_info (recipe c) ≠ "".
Proof.
  rewrite check_all_unfold. cbn [snd]. rewrite run_checks_lists.
  unfold emit, checks_in_order.
  cbn [info fresh new_checker app fmap list_fmap concat]. rewrite app_nil_r.
  assert (Ha : info (alone _check_allergen_declaration c)
               = if Str.truthy (allergen_info (recipe c)) then [allergen_provided_note] else []).
  { unfold alone, _check_allergen_declaration. cbn [recipe fresh new_checker].
    by destruct (Str.truthy (allergen_info (recipe c))). }
  rewrite <- str_truthy_true. split.
  - rewrite !elem_of_app. intros Hin.
    destruct (Str.truthy (allergen_info (recipe c))) eqn:E; [done|]. exfalso.
    rewrite Ha in Hin.
    assert (Hoth : allergen_provided_note
                     ∈ info (alone _check_mandatory_nutrients c)
                       ++ info (alone _check_serving_size_declaration c)
                       ++ info (alone _check_fop_warnings c)
                       ++ info (alone _check_ingredient_list c)
                   ∨ allergen_provided_note
                       ∈ info (alone _check_fssai_license c)
                         ++ info (alone _check_trans_fat c)).
    { rewrite !elem_of_app. rewrite elem_of_nil in Hin. tauto. }
    by apply info_alone_others in Hoth.
  - intros E. rewrite Ha, E, !elem_of_app. do 4 right. left. left.
Qed.

(** X28: step 3 of the analysis pipeline changes the allergen declaration
    only: the nutrition calculation and the compliance verdict are the
    same with and without it.  The declaration is empty afterwards exactly
    when it was empty before and the detection found no category, and the
    compliance check reports "ALLERGEN DECLARATION: Provided." exactly when
    the declaration is not empty. *)
Theorem auto_detect_allergens_effect (r : Recipe) :
  calculate_nutrition (auto_detect_allergens ai_chat_json r) = calculate_nutrition r
  ∧ (∀ nd, (check_all (new_checker (auto_detect_allergens ai_chat_json r) nd)).1.1
           = (check_all (new_checker r nd)).1.1)
  ∧ (allergen_info (auto_detect_allergens ai_chat_json r) = ""
     ↔ allergen_info r = ""
       ∧ detected (result (detect_allergens_from_recipe ai_chat_json r)) = [])
  ∧ (∀ nd, allergen_provided_note
             ∈ info (check_all (new_checker (auto_detect_allergens ai_chat_json r) nd)).2
           ↔ allergen_info (auto_detect_allergens ai_chat_json r) ≠ "").
Proof.
  assert (Hcases : auto_detect_allergens ai_chat_json r = r
    ∨ (Str.strip (allergen_info r) = ""
       ∧ detected (result (detect_allergens_from_recipe ai_chat_json r)) ≠ []
       ∧ auto_detect_allergens ai_chat_json r
         = set_allergen_info
             (contains_line (detected (result (detect_allergens_from_recipe ai_chat_json r))))
             r)).
  { unfold auto_detect_allergens. cbv zeta.
    destruct (Str.truthy (Str.strip (allergen_info r))) eqn:Es; cbn [negb]; [by left|].
    destruct (enhanced_fields ai_chat_json
                ((λ ri, ingredient_name (ingredient ri)) <$> ingredients r))
      as (_ & _ & Hs).
    cbv zeta in Hs. fold (detect_allergens_from_recipe ai_chat_json r) in Hs.
    destruct (detected (result (detect_allergens_from_recipe ai_chat_json r)))
      as [|c l] eqn:Ed; [by left|].
    right. split; [|split; [done|by rewrite Hs]].
    apply not_true_iff_false in Es. rewrite str_truthy_true in Es.
    by destruct (decide (Str.strip (allergen_info r) = "")). }
  split; [|split; [|split]].
  - destruct Hcases as [->|(_ & _ & ->)]; [done|].
    rewrite !calculate_nutrition_eq. reflexivity.
  - intros nd. rewrite !check_all_verdict, !check_all_issues.
    destruct Hcases as [->|(_ & _ & ->)]; reflexivity.
  - destruct Hcases as [Heq|(Hstrip & Hdet & Heq)]; rewrite Heq.
    + split; [|tauto]. intros Hnil. split; [done|].
      unfold auto_detect_allergens in Heq. cbv zeta in Heq.
      rewrite Hnil, strip_nil in Heq. cbn [negb Str.truthy] in Heq.
      destruct (detected (result (detect_allergens_from_recipe ai_chat_json r)))
        as [|c l] eqn:Ed; [done|].
      exfalso. apply (f_equal allergen_info) in Heq. cbn [allergen_info set_allergen_info] in Heq.
      destruct (enhanced_fields ai_chat_json
                  ((λ ri, ingredient_name (ingredient ri)) <$> ingredients r))
        as (_ & _ & Hs).
      cbv zeta in Hs. fold (detect_allergens_from_recipe ai_chat_json r) in Hs.
      rewrite Ed in Hs. rewrite Hs, Hnil in Heq.
      by apply (contains_line_nonempty (c :: l)).
    + cbn [allergen_info set_allergen_info]. split.
      * intros E. by apply contains_line_nonempty in E.
      * by intros [_ ?].
  - intros nd. rewrite provided_note_iff. reflexivity.
Qed.

End auto_analyze_facts.

(** ** Ingredient aliases *)

Lemma isspace_lower_char (c : ascii) : Str.isspace (Str.lower_char c) = Str.isspace c.
Proof.
  destruct c as [[] [] [] [] [] [] [] []]; vm_compute; reflexivity.
Qed.

Lemma lstrip_lower (s : string) : Str.lstrip (Str.lower s) = Str.lower (Str.lstrip s).
Proof.
  induction s as [|c s IH]; [done|]. cbn [Str.lower Str.lstrip].
  rewrite isspace_lower_char. by destruct (Str.isspace c).
Qed.

Lemma rstrip_lower (s : string) : Str.rstrip (Str.lower s) = Str.lower (Str.rstrip s).
Proof.
  induction s as [|c s IH]; [done|]. cbn [Str.lower Str.rstrip].
  rewrite IH, isspace_lower_char.
  destruct (Str.rstrip s); cbn [Str.lower]; [|done]. by destruct (Str.isspace c).
Qed.

(** Lowering and stripping commute: [s.strip().lower()] is
    [s.lower().strip()]. *)
Lemma strip_lower (s : string) : Str.lower (Str.strip s) = name_lower s.
Proof. unfold name_lower, Str.strip. by rewrite lstrip_lower, rstrip_lower. Qed.

Lemma contains_comma_cons (c : ascii) (s : string) :
  Str.contains "," (String c s) = false → c ≠ ","%char ∧ Str.contains "," s = false.
Proof.
  cbn [Str.contains String.prefix]. destruct (ascii_dec "," c) as [<-|Hne].
  - by destruct s.
  - cbn [orb]. intros Hc. split; [|done]. by intros ->.
Qed.

Lemma split_no_comma (a : string) :
  Str.contains "," a = false → Str.split "," a = [a].
Proof.
  induction a as [|c a IH]; [done|]. intros Hc.
  apply contains_comma_cons in Hc as [Hne Hc]. cbn [Str.split].
  rewrite (proj2 (Ascii.eqb_neq _ _) Hne), (IH Hc). reflexivity.
Qed.

Lemma split_app_comma (a rest : string) :
  Str.contains "," a = false →
  Str.split "," (a +:+ String "," rest) = a :: Str.split "," rest.
Proof.
  induction a as [|c a IH]; intros Hc.
  - change ("" +:+ String "," rest) with (String "," rest). cbn [Str.split].
    by rewrite Ascii.eqb_refl.
  - apply contains_comma_cons in Hc as [Hne Hc].
    change (String c a +:+ String "," rest) with (String c (a +:+ String "," rest)).
    cbn [Str.split]. rewrite (proj2 (Ascii.eqb_neq _ _) Hne), (IH Hc). reflexivity.
Qed.

Lemma split_join (names : list string) :
  names ≠ [] → (∀ a, a ∈ names → Str.contains "," a = false) →
  Str.split "," (Str.join "," names) = names.
Proof.
  unfold Str.join. induction names as [|a names IH]; [done|]. intros _ Hall.
  destruct names as [|b names].
  - cbn [String.concat]. apply split_no_comma, Hall. left.
  - change (String.concat "," (a :: b :: names))
      with (a +:+ String "," (String.concat "," (b :: names))).
    rewrite split_app_comma by (apply Hall; left). f_equal.
    apply IH; [done|]. intros x Hx. apply Hall. by right.
Qed.

(** X29: the alias list of an ingredient is the comma-separated [aliases]
    field with every entry brought to the form the name matcher looks up
    ([name.lower().strip()]; stripping before lowering, as the method does,
    gives the same): joining names that hold no comma and reading them back
    gives these forms in the same order, so each of the names is found
    among the aliases whatever its case and surrounding blanks. *)
Theorem aliases_round_trip (names : list string) :
  Str.join "," names ≠ "" →
  (∀ a, a ∈ names → Str.contains "," a = false) →
  get_aliases_list (Str.join "," names) = name_lower <$> names
  ∧ ∀ a, a ∈ names → name_lower a ∈ get_aliases_list (Str.join "," names).
Proof.
  intros Hne Hall.
  assert (Hnames : names ≠ []) by (by intros ->).
  assert (Heq : get_aliases_list (Str.join "," names) = name_lower <$> names).
  { unfold get_aliases_list. apply str_truthy_true in Hne. rewrite Hne. cbn [negb].
    rewrite (split_join names Hnames Hall).
    apply list_fmap_ext. intros _ a _. apply strip_lower. }
  split; [done|]. intros a Ha. rewrite Heq. apply list_elem_of_fmap. eauto.
Qed.

(** X29 at two aliases of rice. *)
Lemma aliases_round_trip_witness :
  get_aliases_list " Chawal,RICE " = ["chawal"; "rice"].
Proof.
  refine (eq_trans (proj1 (aliases_round_trip [" Chawal"; "RICE "] _ _)) _).
  - vm_compute. discriminate.
  - intros a Ha. apply elem_of_cons in Ha as [->|Ha]; [vm_compute; reflexivity|].
    apply list_elem_of_singleton in Ha as ->. vm_compute. reflexivity.
  - vm_compute. reflexivity.
Defined.

(** * The program on floats *)

(** ** The arithmetic without rounding error is that of the first sections *)

Lemma calculate_nutrition_exact (r : Recipe) :
  Fp.calculate_nutrition (fo := exact) r = calculate_nutrition r.
Proof. reflexivity. Qed.

Lemma total_weight_exact (r : Recipe) :
  Fp.total_weight (fo := exact) r = total_weight r.
Proof. reflexivity. Qed.

Lemma reformulate_attribution_exact (r : Recipe) :
  Fp.reformulate_attribution (fo := exact) r = reformulate_attribution r.
Proof. reflexivity. Qed.

(** ** Double arithmetic at a few values *)

(** The double written 0.1 is 3602879701896397 / 2^55, and 0.1 + 0.2 is not
    the double written 0.3.  [round(2.675, 2)] is 2.67 because the double
    written 2.675 lies below the decimal (the exact decimal rounds to 2.68);
    likewise [round(0.15, 1)] is 0.1, and [round(0.0025, 3)] is 0.003
    because that double lies above the decimal. *)
Lemma binary64_examples :
  Binary64.dbl 1 10 = Py.qc 3602879701896397 36028797018963968
  ∧ fadd (FloatOps := binary64) (Binary64.dbl 1 10) (Binary64.dbl 2 10) ≠ Binary64.dbl 3 10
  ∧ Binary64.round (Binary64.dbl 2675 1000) 2 = Binary64.dbl 267 100
  ∧ Py.round (Py.qc 2675 1000) 2 = Py.qc 268 100
  ∧ Binary64.round (Binary64.dbl 15 100) 1 = Binary64.dbl 1 10
  ∧ Binary64.round (Binary64.dbl 25 10000) 3 = Binary64.dbl 3 1000.
Proof.
  split; [qc_compute|]. split; [by vm_compute|].
  split; [qc_compute|]. split; [qc_compute|]. split; qc_compute.
Qed.

(** ** The aggregator in any arithmetic *)

Section fp_aggregator.
Context {fo : FloatOps}.

Lemma fp_accumulate_rows (r : Recipe) :
  Fp.accumulate r = foldl (λ d row, Fp.add_row row.1 d row.2) [] (rows r).
Proof.
  unfold Fp.accumulate, rows. generalize ([] : list (Z * Accum)).
  induction (ingredients r) as [|ri l IH]; intros d; simpl; [done|].
  rewrite foldl_app, foldl_fmap. apply IH.
Qed.

Lemma fp_get_add_row nid w d inv :
  Py.get nid (Fp.add_row w d inv) = FpSpec.upd nid (Py.get nid d) (w, inv).
Proof.
  unfold Fp.add_row, FpSpec.upd, FpSpec.contribution, Py.contains. simpl.
  rewrite get_alter.
  destruct (decide (nid = nutrient_id inv)) as [->|Hne].
  - rewrite decide_True by done.
    destruct (Py.get (nutrient_id inv) d) eqn:E; simpl.
    + by rewrite E.
    + rewrite get_set, decide_True by done. simpl. done.
  - rewrite decide_False by done.
    destruct (Py.get (nutrient_id inv) d); [done|].
    by rewrite get_set, decide_False.
Qed.

Lemma fp_get_accumulate nid (r : Recipe) :
  Py.get nid (Fp.accumulate r) = foldl (FpSpec.upd nid) None (rows r).
Proof.
  rewrite fp_accumulate_rows.
  change (@None Accum) with (Py.get nid ([] : list (Z * Accum))).
  generalize ([] : list (Z * Accum)).
  induction (rows r) as [|[w inv] l IH]; intros d; simpl; [done|].
  rewrite IH. f_equal. apply fp_get_add_row.
Qed.

(** The total under an id is the left-to-right sum of its rows. *)
Lemma fp_foldl_upd_total nid (l : list (Qc * IngredientNutrient)) (o : option Accum) :
  from_option acc_total 0 (foldl (FpSpec.upd nid) o l)
  = foldl fadd (from_option acc_total 0 o)
      (FpSpec.contribution <$> filter (λ row, nutrient_id row.2 = nid) l).
Proof.
  revert o. induction l as [|row l IH]; intros o; [done|].
  cbn [foldl]. rewrite IH, filter_cons. unfold FpSpec.upd.
  destruct (decide (nutrient_id row.2 = nid)); [|done].
  reflexivity.
Qed.

(** The nutrient under an id is the one of its first row. *)
Lemma fp_foldl_upd_nutrient nid (l : list (Qc * IngredientNutrient)) (o : option Accum) :
  option_map acc_nutrient (foldl (FpSpec.upd nid) o l)
  = match o with
    | Some a => Some (acc_nutrient a)
    | None => (λ row, nutrient row.2) <$> head (filter (λ row, nutrient_id row.2 = nid) l)
    end.
Proof.
  revert o. induction l as [|row l IH]; intros o; [by destruct o|].
  cbn [foldl]. rewrite IH, filter_cons. unfold FpSpec.upd.
  destruct (decide (nutrient_id row.2 = nid)); [|done].
  by destruct o.
Qed.

Lemma fp_finish_Some (r : Recipe) (tw : Qc) (a : Accum) :
  tw ≠ 0 → Fp.finish r tw a = Some (FpSpec.finished r tw a).
Proof.
  intros Htw. unfold Fp.finish, FpSpec.finished, Fp.div.
  rewrite decide_False by done. simpl.
  destruct (daily_value (acc_nutrient a)) as [dv|]; simpl; [|done].
  destruct (Py.truthy dv) eqn:Edv; simpl; [|done].
  apply truthy_true in Edv. by rewrite decide_False.
Qed.

Lemma fp_calculate_nutrition_eq (r : Recipe) :
  Fp.calculate_nutrition r
  = Some (prod_map id (FpSpec.finished r (Py.or_ (Fp.total_weight r) 1)) <$> Fp.accumulate r).
Proof.
  unfold Fp.calculate_nutrition. apply mapM_Some_2.
  induction (Fp.accumulate r) as [|[nid a] l IH]; simpl; constructor; [|done].
  by rewrite fp_finish_Some by apply or_nonzero.
Qed.

(** The entry of a nutrient id in the result: there is one exactly when a
    row carries the id; it belongs to the nutrient of the first such row and
    is computed from the left-to-right sum of the rows. *)
Lemma fp_get_calculate (r : Recipe) (nid : Z) :
  ∃ nd,
    Fp.calculate_nutrition r = Some nd
    ∧ Py.get nid nd
      = (λ row,
           FpSpec.finished r (Py.or_ (Fp.total_weight r) 1)
             {| acc_nutrient := nutrient row.2; acc_total := FpSpec.total nid r |})
        <$> head (rows_of_nutrient nid r).
Proof.
  eexists. split; [apply fp_calculate_nutrition_eq|].
  rewrite get_fmap, fp_get_accumulate.
  pose proof (fp_foldl_upd_total nid (rows r) None) as Ht.
  pose proof (fp_foldl_upd_nutrient nid (rows r) None) as Hn.
  fold (rows_of_nutrient nid r) in Ht, Hn. cbn [from_option] in Ht.
  destruct (foldl (FpSpec.upd nid) None (rows r)) as [[n t]|];
    cbn [option_map from_option acc_total acc_nutrient] in Ht, Hn.
  - destruct (head (rows_of_nutrient nid r)) as [row|]; [|done].
    injection Hn as ->. cbn [fmap option_fmap option_map]. do 2 f_equal.
    by rewrite Ht.
  - by destruct (head (rows_of_nutrient nid r)).
Qed.

Lemma fp_keys_add_row (w : Qc) (d : list (Z * Accum)) (inv : IngredientNutrient) :
  (Fp.add_row w d inv).*1
  = if decide (nutrient_id inv ∈ d.*1) then d.*1 else d.*1 ++ [nutrient_id inv].
Proof.
  unfold Fp.add_row. rewrite keys_alter.
  destruct (Py.contains (nutrient_id inv) d) eqn:E.
  - apply contains_keys in E. by rewrite decide_True.
  - assert (Hn : nutrient_id inv ∉ d.*1).
    { intros Hin. apply contains_keys in Hin. congruence. }
    rewrite decide_False by done. by apply keys_set_fresh.
Qed.

Lemma fp_keys_accumulate (r : Recipe) :
  (Fp.accumulate r).*1 = first_occurrences ((λ row, nutrient_id row.2) <$> rows r).
Proof.
  rewrite fp_accumulate_rows. unfold first_occurrences.
  assert (Hgen : ∀ d : list (Z * Accum),
    (foldl (λ d row, Fp.add_row row.1 d row.2) d (rows r)).*1
    = foldl (λ seen x, if decide (x ∈ seen) then seen else seen ++ [x]) (d.*1)
        ((λ row, nutrient_id row.2) <$> rows r)).
  { induction (rows r) as [|[w inv] l IH]; intros d; [done|].
    cbn [foldl fmap list_fmap snd fst]. rewrite IH. f_equal. apply fp_keys_add_row. }
  apply (Hgen []).
Qed.

Lemma fp_calculate_NoDup (r : Recipe) (nd : list (Z * NutritionEntry)) :
  Fp.calculate_nutrition r = Some nd → NoDup nd.*1.
Proof.
  rewrite fp_calculate_nutrition_eq. intros [= <-].
  rewrite keys_prod_map, fp_keys_accumulate. apply first_occurrences_spec.
Qed.

(** The entry stored under an id of the result, from the rows of the id. *)
Lemma fp_entry_of_rows (r : Recipe) (nd : list (Z * NutritionEntry)) (nid : Z)
    (e : NutritionEntry) :
  Fp.calculate_nutrition r = Some nd →
  (nid, e) ∈ nd →
  ∃ row rest,
    rows_of_nutrient nid r = row :: rest
    ∧ e = FpSpec.finished r (Py.or_ (Fp.total_weight r) 1)
            {| acc_nutrient := nutrient row.2; acc_total := FpSpec.total nid r |}.
Proof.
  intros Hnd Hin.
  pose proof (get_of_elem nid e nd (fp_calculate_NoDup r nd Hnd) Hin) as Hget.
  destruct (fp_get_calculate r nid) as (nd' & Hnd' & Hget').
  rewrite Hnd in Hnd'. injection Hnd' as <-. rewrite Hget in Hget'.
  destruct (rows_of_nutrient nid r) as [|row rest]; [done|].
  exists row, rest. split; [done|]. by injection Hget'.
Qed.

End fp_aggregator.

(** C1: for a recipe of positive total weight, in whichever way the float
    operations round, the entry of every nutrient that some ingredient row
    contributes has
    per_serving = round((total / total_weight) * serving_size, 2) and
    per_100g = round((total / total_weight) * 100, 2), where total is the
    sum, row after row, of (weight_grams / 100) * value_per_100g over the
    rows of that nutrient, every operation being the program's own.
    In double arithmetic, for rice 100 g (Energy 345) with salt 5 g (Sodium
    38758) and serving size 100: the total weight is 105, Energy per 100 g
    is 328.57, Sodium per 100 g is 1845.62 (1845.6 to one decimal), and the
    Sodium indicator is HIGH, red. *)
Theorem aggregate_per_serving_per_100g :
  (∀ (fo : FloatOps) (r : Recipe) (nid : Z),
     0 < Fp.total_weight r →
     (∃ row, row ∈ rows r ∧ nutrient_id row.2 = nid) →
     ∃ nd e,
       Fp.calculate_nutrition r = Some nd
       ∧ Py.get nid nd = Some e
       ∧ per_serving e
         = fround (fmul (fdiv (FpSpec.total nid r) (Fp.total_weight r)) (serving_size r)) 2
       ∧ per_100g e
         = Some (fround (fmul (fdiv (FpSpec.total nid r) (Fp.total_weight r))
                              (Py.of_Z 100)) 2))
  ∧ Fp.total_weight (fo := binary64) Sample.rice_salt = Py.of_Z 105
  ∧ ∃ nd energy sodium ind,
      Fp.calculate_nutrition (fo := binary64) Sample.rice_salt = Some nd
      ∧ Py.get 1%Z nd = Some energy
      ∧ per_100g energy = Some (Binary64.dbl 32857 100)
      ∧ Py.get 13%Z nd = Some sodium
      ∧ per_100g sodium = Some (Binary64.dbl 184562 100)
      ∧ Binary64.round (Binary64.dbl 184562 100) 1 = Binary64.dbl 18456 10
      ∧ get_fop_indicators (new_checker Sample.rice_salt nd) !! 3%nat = Some ind
      ∧ fop_nutrient ind = "Sodium"
      ∧ fop_value ind = Binary64.dbl 184562 100
      ∧ fop_level ind = "HIGH"
      ∧ fop_color ind = "red".
Proof.
  split; [|split].
  - intros fo r nid Hpos (row & Hrow & Hid).
    destruct (fp_get_calculate r nid) as (nd & Hnd & Hget).
    assert (Htw : Py.or_ (Fp.total_weight r) 1 = Fp.total_weight r).
    { apply or_nonzero_id. intros Hz. rewrite Hz in Hpos.
      by apply Qclt_not_eq in Hpos. }
    assert (Hin : row ∈ rows_of_nutrient nid r).
    { unfold rows_of_nutrient. by apply list_elem_of_filter. }
    destruct (rows_of_nutrient nid r) as [|row0 rest] eqn:Erows;
      [by apply elem_of_nil in Hin|].
    rewrite Htw in Hget. cbn [head fmap option_fmap option_map] in Hget.
    eexists nd, _. split; [exact Hnd|]. split; [exact Hget|].
    split; reflexivity.
  - qc_compute.
  - eexists _, _, _, _. split; [vm_compute; reflexivity|].
    split; [reflexivity|]. split; [f_equal; qc_compute|].
    split; [reflexivity|]. split; [f_equal; qc_compute|].
    split; [qc_compute|].
    split; [vm_compute; reflexivity|].
    split; [reflexivity|]. split; [qc_compute|]. done.
Qed.

(** C1 in double arithmetic at the rice and salt recipe, nutrient Sodium:
    the formula gives 1845.62, the double the program returns. *)
Lemma aggregate_per_serving_per_100g_witness :
  0 < Fp.total_weight (fo := binary64) Sample.rice_salt
  ∧ (∃ row, row ∈ rows Sample.rice_salt ∧ nutrient_id row.2 = 13%Z)
  ∧ ∃ nd e,
      Fp.calculate_nutrition (fo := binary64) Sample.rice_salt = Some nd
      ∧ Py.get 13%Z nd = Some e
      ∧ per_serving e = Binary64.dbl 184562 100
      ∧ per_100g e = Some (Binary64.dbl 184562 100).
Proof.
  assert (H1 : 0 < Fp.total_weight (fo := binary64) Sample.rice_salt)
    by (vm_compute; reflexivity).
  assert (H2 : ∃ row, row ∈ rows Sample.rice_salt ∧ nutrient_id row.2 = 13%Z).
  { eexists. split; [right; left|reflexivity]. }
  split; [exact H1|]. split; [exact H2|].
  destruct (proj1 aggregate_per_serving_per_100g binary64 Sample.rice_salt 13%Z H1 H2)
    as (nd & e & Hnd & Hget & Hps & Hp100).
  exists nd, e. split; [exact Hnd|]. split; [exact Hget|].
  split.
  - rewrite Hps. qc_compute.
  - rewrite Hp100. f_equal; qc_compute.
Defined.

(** C7: in every aggregation result, whichever way the float operations
    round, the entry under a nutrient id carries the nutrient of the first
    ingredient row with that id, and it has a percent-DV exactly when the
    daily value of that nutrient is set and non-zero: then the percent-DV is
    round((per_serving / daily_value) * 100, 1) of the unrounded
    per-serving value, and with no daily value (or a daily value of 0) it is
    [None], never a number. *)
Theorem percent_dv_defined_iff (fo : FloatOps) (r : Recipe)
    (nd : list (Z * NutritionEntry)) (nid : Z) (e : NutritionEntry) :
  Fp.calculate_nutrition r = Some nd →
  (nid, e) ∈ nd →
  ∃ row rest,
    rows_of_nutrient nid r = row :: rest
    ∧ entry_nutrient e = nutrient row.2
    ∧ (is_Some (percent_dv e) ↔ ∃ dv, daily_value (nutrient row.2) = Some dv ∧ dv ≠ 0)
    ∧ (daily_value (nutrient row.2) = None → percent_dv e = None)
    ∧ (∀ dv, daily_value (nutrient row.2) = Some dv → dv ≠ 0 →
         percent_dv e
         = Some (fround
                   (fmul (fdiv (fmul (fdiv (FpSpec.total nid r)
                                           (Py.or_ (Fp.total_weight r) 1))
                                     (serving_size r)) dv)
                         (Py.of_Z 100)) 1)).
Proof.
  intros Hnd Hin.
  destruct (fp_entry_of_rows r nd nid e Hnd Hin) as (row & rest & Hrows & ->).
  exists row, rest. split; [exact Hrows|]. split; [reflexivity|].
  cbn [FpSpec.finished percent_dv acc_nutrient acc_total].
  destruct (daily_value (nutrient row.2)) as [dv|].
  - destruct (Py.truthy dv) eqn:Edv.
    + apply truthy_true in Edv. split; [split; eauto|]. split; [done|].
      by intros dv' [= <-] _.
    + assert (Hdv : dv = 0).
      { destruct (decide (dv = 0)) as [|Hne]; [done|].
        apply truthy_true in Hne. congruence. }
      split; [|split; [done|]].
      * split; [by intros [? ?]|]. by intros (dv' & [= <-] & Hne).
      * by intros dv' [= <-] Hne.
  - split; [|split; [done|]]; [|done].
    split; [by intros [? ?]|]. by intros (? & ? & _).
Qed.

(** C7 in double arithmetic at rice with oil: the Energy entry (daily value
    2000) has a percent-DV, 19.7; the Monounsaturated Fat entry (no daily
    value) has none. *)
Lemma percent_dv_defined_iff_witness :
  ∃ nd energy mufa,
    Fp.calculate_nutrition (fo := binary64) Stored.oiled_rice = Some nd
    ∧ (1%Z, energy) ∈ nd
    ∧ entry_nutrient energy = Sample.Energy
    ∧ percent_dv energy = Some (Binary64.dbl 197 10)
    ∧ (7%Z, mufa) ∈ nd
    ∧ entry_nutrient mufa = Sample.Monounsaturated_Fat
    ∧ percent_dv mufa = None.
Proof.
  assert (H1 : Fp.calculate_nutrition (fo := binary64) Stored.oiled_rice
               = Some (default [] (Fp.calculate_nutrition (fo := binary64) Stored.oiled_rice)))
    by (vm_compute; reflexivity).
  set (nd := default [] (Fp.calculate_nutrition (fo := binary64) Stored.oiled_rice)) in *.
  destruct (Py.get 1%Z nd) as [energy|] eqn:E1; [|vm_compute in E1; discriminate E1].
  destruct (Py.get 7%Z nd) as [mufa|] eqn:E7; [|vm_compute in E7; discriminate E7].
  apply get_Some_elem_of in E1, E7.
  destruct (percent_dv_defined_iff binary64 _ _ _ _ H1 E1)
    as (row1 & rest1 & Hrows1 & Hn1 & _ & _ & Hval1).
  destruct (percent_dv_defined_iff binary64 _ _ _ _ H1 E7)
    as (row7 & rest7 & Hrows7 & Hn7 & _ & Hnone7 & _).
  assert (Hr1 : nutrient row1.2 = Sample.Energy).
  { apply (f_equal head) in Hrows1. vm_compute in Hrows1. by injection Hrows1 as <-. }
  assert (Hr7 : nutrient row7.2 = Sample.Monounsaturated_Fat).
  { apply (f_equal head) in Hrows7. vm_compute in Hrows7. by injection Hrows7 as <-. }
  exists nd, energy, mufa. split; [exact H1|]. split; [exact E1|].
  split; [by rewrite Hn1|]. split.
  - rewrite (Hval1 (Py.of_Z 2000)); [f_equal; qc_compute| |].
    + by rewrite Hr1.
    + by vm_compute.
  - split; [exact E7|]. split; [by rewrite Hn7|].
    apply Hnone7. by rewrite Hr7.
Defined.

(** X10: in every aggregation result, also for a total weight of zero and
    whichever way the float operations round, the reported total of a
    nutrient is round(total, 2), where total is the sum, row after row in
    recipe order and starting from 0, of
    (weight_grams / 100) * value_per_100g over the rows of that nutrient. *)
Theorem total_value_is_sum (fo : FloatOps) (r : Recipe)
    (nd : list (Z * NutritionEntry)) (nid : Z) (e : NutritionEntry) :
  Fp.calculate_nutrition r = Some nd →
  (nid, e) ∈ nd →
  total_value e
  = fround (foldl fadd 0 (FpSpec.contribution <$> rows_of_nutrient nid r)) 2.
Proof.
  intros Hnd Hin.
  destruct (fp_entry_of_rows r nd nid e Hnd Hin) as (row & rest & Hrows & ->).
  reflexivity.
Qed.

(** X10 in double arithmetic at the Sodium entry of the rice and salt
    recipe: 5 g of salt at 38758 mg per 100 g give 1937.9. *)
Lemma total_value_is_sum_witness :
  ∃ nd e,
    Fp.calculate_nutrition (fo := binary64) Sample.rice_salt = Some nd
    ∧ (13%Z, e) ∈ nd
    ∧ total_value e = Binary64.dbl 19379 10.
Proof.
  assert (H1 : Fp.calculate_nutrition (fo := binary64) Sample.rice_salt
               = Some (default [] (Fp.calculate_nutrition (fo := binary64) Sample.rice_salt)))
    by (vm_compute; reflexivity).
  destruct (Py.get 13%Z (default [] (Fp.calculate_nutrition (fo := binary64)
                                       Sample.rice_salt)))
    as [e|] eqn:E; [|vm_compute in E; discriminate E].
  apply get_Some_elem_of in E.
  eexists _, e. split; [exact H1|]. split; [exact E|].
  rewrite (total_value_is_sum binary64 Sample.rice_salt _ 13%Z e H1 E).
  qc_compute.
Defined.

(** ** Scaling every weight by a constant, on floats *)

Lemma alter_keeps {K V : Type} `{EqDecision K} (f : V → V) (k : K) (d : list (K * V)) :
  (∀ v, f v = v) → Py.alter f k d = d.
Proof.
  intros Hf. induction d as [|[k0 v0] d IH]; [done|]. cbn [Py.alter].
  destruct (decide (k = k0)); [by rewrite Hf|]. by rewrite IH.
Qed.

Section fp_shape.
Context {fo : FloatOps}.

(** Which nutrient sits under which id does not depend on the weights. *)
Lemma fp_shape_add_row (w : Qc) (d : list (Z * Accum)) (inv : IngredientNutrient) :
  prod_map id acc_nutrient <$> Fp.add_row w d inv
  = if Py.contains (nutrient_id inv) (prod_map id acc_nutrient <$> d)
    then prod_map id acc_nutrient <$> d
    else Py.set (nutrient_id inv) (nutrient inv) (prod_map id acc_nutrient <$> d).
Proof.
  unfold Fp.add_row. cbv zeta.
  rewrite <- (alter_fmap acc_nutrient _ (λ n, n)) by done.
  rewrite alter_keeps by done. rewrite contains_fmap.
  destruct (Py.contains (nutrient_id inv) d); [done|].
  by rewrite <- set_fmap.
Qed.

Lemma fp_shape_accumulate (r : Recipe) :
  prod_map id acc_nutrient <$> Fp.accumulate r
  = foldl (λ s inv, if Py.contains (nutrient_id inv) s then s
                    else Py.set (nutrient_id inv) (nutrient inv) s)
          [] ((rows r).*2).
Proof.
  rewrite fp_accumulate_rows.
  assert (Hgen : ∀ d : list (Z * Accum),
    prod_map id acc_nutrient <$> foldl (λ d row, Fp.add_row row.1 d row.2) d (rows r)
    = foldl (λ s inv, if Py.contains (nutrient_id inv) s then s
                      else Py.set (nutrient_id inv) (nutrient inv) s)
            (prod_map id acc_nutrient <$> d) ((rows r).*2)).
  { induction (rows r) as [|[w inv] l IH]; intros d; [done|].
    cbn [foldl fmap list_fmap fst snd]. rewrite IH. f_equal. apply fp_shape_add_row. }
  apply (Hgen []).
Qed.

Lemma fp_rows_scale (k : Qc) (r : Recipe) :
  (rows (FpSpec.scale_weights k r)).*2 = (rows r).*2.
Proof.
  unfold rows, FpSpec.scale_weights. cbn [ingredients].
  induction (ingredients r) as [|ri l IH]; [done|].
  rewrite fmap_cons, !bind_cons, !fmap_app, IH. f_equal.
  cbn [ingredient weight_grams]. rewrite <- !list_fmap_compose. done.
Qed.

Lemma fp_finished_shape (r r' : Recipe) (tw tw' : Qc) (a a' : Accum) :
  acc_nutrient a' = acc_nutrient a →
  FpSpec.same_shape (0%Z, FpSpec.finished r' tw' a') (0%Z, FpSpec.finished r tw a).
Proof.
  intros Hn. unfold FpSpec.same_shape, FpSpec.finished. cbn. rewrite Hn.
  split; [done|]. split; [done|]. split; [split; eauto|].
  destruct (daily_value (acc_nutrient a)) as [dv|]; [|done].
  destruct (Py.truthy dv); [|done]. split; eauto.
Qed.

Lemma fp_scale_shape (r : Recipe) (k : Qc) :
  ∃ nd nd',
    Fp.calculate_nutrition r = Some nd
    ∧ Fp.calculate_nutrition (FpSpec.scale_weights k r) = Some nd'
    ∧ Forall2 FpSpec.same_shape nd' nd.
Proof.
  eexists _, _. split; [apply fp_calculate_nutrition_eq|].
  split; [apply fp_calculate_nutrition_eq|].
  apply Forall2_fmap.
  assert (Hs : Forall2 (λ x y, prod_map id acc_nutrient x = prod_map id acc_nutrient y)
                 (Fp.accumulate (FpSpec.scale_weights k r)) (Fp.accumulate r)).
  { apply (Forall2_fmap (prod_map id acc_nutrient) (prod_map id acc_nutrient) eq),
      list_eq_Forall2.
    by rewrite !fp_shape_accumulate, fp_rows_scale. }
  eapply Forall2_impl; [exact Hs|].
  intros [nid' a'] [nid a] [= -> Hn]. cbn [prod_map id fst snd].
  destruct (fp_finished_shape r (FpSpec.scale_weights k r)
              (Py.or_ (Fp.total_weight r) 1)
              (Py.or_ (Fp.total_weight (FpSpec.scale_weights k r)) 1) a a' Hn)
    as (_ & H1 & H2 & H3).
  unfold FpSpec.same_shape. cbn [prod_map id fst snd].
  split; [done|]. split; [exact H1|]. split; [exact H2|exact H3].
Qed.

End fp_shape.

(** Without rounding error the values do not move either, provided the
    total weight is not zero. *)
Lemma scale_exact (r : Recipe) (k : Qc) :
  total_weight r ≠ 0 → 0 < k →
  ∃ nd nd',
    calculate_nutrition r = Some nd
    ∧ calculate_nutrition (scale_weights k r) = Some nd'
    ∧ Forall2 same_relative nd' nd.
Proof.
  intros Htw0 Hk.
  assert (Hk0 : k ≠ 0) by (intros ->; by apply Qclt_not_eq in Hk).
  assert (Hktw0 : k * total_weight r ≠ 0).
  { intros E. apply Qcmult_integral in E as [?|?]; done. }
  eexists _, _. split; [apply calculate_nutrition_eq|].
  split; [apply calculate_nutrition_eq|].
  rewrite accumulate_scale, total_weight_scale, !or_nonzero_id by done.
  rewrite <- list_fmap_compose.
  apply Forall2_fmap, Forall_Forall2_diag, Forall_forall.
  intros [nid a] _.
  destruct (finished_scale k (total_weight r) r a Hk0 Htw0) as (_ & ? & ? & ? & ?).
  by repeat split.
Qed.

(** C6 as amended.  Multiplying every ingredient weight by k leaves, in
    whichever way the float operations round and for every recipe, the
    nutrient ids of the result, their order, the nutrient under each id and
    the presence of per_100g and of percent_dv as they were.  The values
    per_100g, per_serving and percent_dv are unchanged as well when the
    total weight is not zero, k > 0 and the arithmetic has no rounding
    error. *)
Theorem scale_invariance :
  (∀ (fo : FloatOps) (r : Recipe) (k : Qc),
     ∃ nd nd',
       Fp.calculate_nutrition r = Some nd
       ∧ Fp.calculate_nutrition (FpSpec.scale_weights k r) = Some nd'
       ∧ Forall2 FpSpec.same_shape nd' nd)
  ∧ (∀ (r : Recipe) (k : Qc),
       Fp.total_weight (fo := exact) r ≠ 0 →
       0 < k →
       FpSpec.unchanged_by_scaling (fo := exact) k r).
Proof.
  split.
  - intros fo r k. apply fp_scale_shape.
  - intros r k Htw Hk. exact (scale_exact r k Htw Hk).
Qed.

(** C6 at two recipes: in double arithmetic, for spread on rice and k = 3,
    the shape is kept; without rounding error, for the rice and salt recipe
    and k = 2, the values are kept. *)
Lemma scale_invariance_witness :
  (∃ nd nd',
     Fp.calculate_nutrition (fo := binary64) Stored.spread_rice = Some nd
     ∧ Fp.calculate_nutrition (fo := binary64)
         (FpSpec.scale_weights (fo := binary64) (Py.of_Z 3) Stored.spread_rice) = Some nd'
     ∧ Forall2 FpSpec.same_shape nd' nd)
  ∧ Fp.total_weight (fo := exact) Sample.rice_salt ≠ 0
  ∧ 0 < Py.of_Z 2
  ∧ FpSpec.unchanged_by_scaling (fo := exact) (Py.of_Z 2) Sample.rice_salt.
Proof.
  assert (H1 : Fp.total_weight (fo := exact) Sample.rice_salt ≠ 0) by (by vm_compute).
  assert (H2 : 0 < Py.of_Z 2) by (by vm_compute).
  split; [exact (proj1 scale_invariance binary64 Stored.spread_rice (Py.of_Z 3))|].
  split; [exact H1|]. split; [exact H2|].
  exact (proj2 scale_invariance Sample.rice_salt (Py.of_Z 2) H1 H2).
Defined.

(** C6, counterexamples in double arithmetic.
    Spread (Total Fat 19.45) 90 g on rice 10 g: Total Fat per 100 g is 17.5,
    rated MEDIUM; with every weight multiplied by 3 it is 17.51, rated
    HIGH.
    Rice 5 g with a row of -5 g, total weight 0: Energy per 100 g is 1725,
    and 3450 with every weight doubled. *)
Lemma scale_changes_values :
  (ingredients Stored.spread_rice ≠ []
   ∧ 0 < Py.of_Z 3
   ∧ ∃ nd nd' fat fat' ind ind',
       Fp.calculate_nutrition (fo := binary64) Stored.spread_rice = Some nd
       ∧ Fp.calculate_nutrition (fo := binary64)
           (FpSpec.scale_weights (fo := binary64) (Py.of_Z 3) Stored.spread_rice) = Some nd'
       ∧ Py.get 2%Z nd = Some fat
       ∧ Py.get 2%Z nd' = Some fat'
       ∧ per_100g fat = Some (Binary64.dbl 175 10)
       ∧ per_100g fat' = Some (Binary64.dbl 1751 100)
       ∧ get_fop_indicators (new_checker Stored.spread_rice nd) !! 0%nat = Some ind
       ∧ get_fop_indicators (new_checker Stored.spread_rice nd') !! 0%nat = Some ind'
       ∧ fop_nutrient ind = "Total Fat" ∧ fop_level ind = "MEDIUM"
       ∧ fop_nutrient ind' = "Total Fat" ∧ fop_level ind' = "HIGH")
  ∧ ¬ FpSpec.unchanged_by_scaling (fo := binary64) (Py.of_Z 3) Stored.spread_rice
  ∧ (ingredients Stored.balanced ≠ []
     ∧ 0 < Py.of_Z 2
     ∧ Fp.total_weight (fo := binary64) Stored.balanced = 0
     ∧ ∃ nd nd' energy energy',
         Fp.calculate_nutrition (fo := binary64) Stored.balanced = Some nd
         ∧ Fp.calculate_nutrition (fo := binary64)
             (FpSpec.scale_weights (fo := binary64) (Py.of_Z 2) Stored.balanced) = Some nd'
         ∧ Py.get 1%Z nd = Some energy
         ∧ Py.get 1%Z nd' = Some energy'
         ∧ per_100g energy = Some (Py.of_Z 1725)
         ∧ per_100g energy' = Some (Py.of_Z 3450))
  ∧ ¬ FpSpec.unchanged_by_scaling (fo := binary64) (Py.of_Z 2) Stored.balanced.
Proof.
  split; [|split; [|split]].
  - split; [discriminate|]. split; [by vm_compute|].
    eexists _, _, _, _, _, _.
    split; [vm_compute; reflexivity|]. split; [vm_compute; reflexivity|].
    split; [reflexivity|]. split; [reflexivity|].
    split; [f_equal; qc_compute|]. split; [f_equal; qc_compute|].
    split; [vm_compute; reflexivity|]. split; [vm_compute; reflexivity|].
    done.
  - intros (nd & nd' & Hnd & Hnd' & Hall).
    assert (E : Forall2 same_relative
      (default [] (Fp.calculate_nutrition (fo := binary64)
         (FpSpec.scale_weights (fo := binary64) (Py.of_Z 3) Stored.spread_rice)))
      (default [] (Fp.calculate_nutrition (fo := binary64) Stored.spread_rice)))
      by (by rewrite Hnd, Hnd').
    clear Hnd Hnd' Hall. vm_compute in E.
    inversion E as [|x y l l' (_ & _ & Hp & _) _]. discriminate Hp.
  - split; [discriminate|]. split; [by vm_compute|]. split; [qc_compute|].
    eexists _, _, _, _.
    split; [vm_compute; reflexivity|]. split; [vm_compute; reflexivity|].
    split; [reflexivity|]. split; [reflexivity|].
    split; (cbn [per_100g]; f_equal; qc_compute).
  - intros (nd & nd' & Hnd & Hnd' & Hall).
    assert (E : Forall2 same_relative
      (default [] (Fp.calculate_nutrition (fo := binary64)
         (FpSpec.scale_weights (fo := binary64) (Py.of_Z 2) Stored.balanced)))
      (default [] (Fp.calculate_nutrition (fo := binary64) Stored.balanced)))
      by (by rewrite Hnd, Hnd').
    clear Hnd Hnd' Hall. vm_compute in E.
    inversion E as [|x y l l' (_ & _ & Hp & _) _]. discriminate Hp.
Qed.

(** ** Attribution on floats *)

Section fp_attribution.
Context {fo : FloatOps}.

(** What one recipe ingredient reports for a nutrient name, through
    [ingredient_data] and [contrib_of]. *)
Lemma fp_contrib_of_reported (tw : Qc) (high : FOPIndicator) (ri : RecipeIngredient) :
  reported <$>
    Fp.contrib_of tw high
      {| data_id := ingredient_pk (ingredient ri);
         data_ri_id := ri_pk ri;
         data_name := ingredient_name (ingredient ri);
         data_category := default "" (category (ingredient ri));
         data_weight_grams := weight_grams ri;
         data_nutrients := Fp.ing_nutrients_of ri |}
  = FpSpec.reported_row (fop_nutrient high) ri.
Proof.
  unfold Fp.contrib_of, FpSpec.reported_row, FpSpec.reported_abs,
    FpSpec.abs_contribution, recorded_value.
  cbn [data_nutrients data_name data_weight_grams].
  unfold Fp.ing_nutrients_of.
  rewrite (foldl_insert_lookup (λ inv, nutrient_name (nutrient inv))
             (λ inv, {| abs_ := fround (fmul (fdiv (weight_grams ri) (Py.of_Z 100))
                                             (value_per_100g inv)) 4;
                        per_100g_ing := fround (value_per_100g inv) 4;
                        ing_unit := nutrient_unit (nutrient inv) |})).
  destruct (last _) as [inv|]; [|done].
  cbn [fmap option_fmap option_map mbind option_bind abs_].
  destruct (decide (0 < _)); done.
Qed.

Lemma fp_attribution_of_reported (tw : Qc) (r : Recipe) (high : FOPIndicator) :
  reported <$> top_contributors (Fp.attribution_of tw (Fp.ingredient_data_of r) high)
  = take 5 (sort_desc snd (omap (FpSpec.reported_row (fop_nutrient high)) (ingredients r))).
Proof.
  unfold Fp.attribution_of. cbn [top_contributors].
  rewrite fmap_take. f_equal.
  rewrite (sort_desc_fmap contribution_abs reported snd) by done. f_equal.
  unfold Fp.contribs_of, Fp.ingredient_data_of.
  rewrite foldl_snoc_omap, foldl_snoc_fmap, omap_fmap_compose, list_fmap_omap.
  apply omap_ext_eq. intros ri. apply fp_contrib_of_reported.
Qed.

End fp_attribution.

(** C9 as amended: for every recipe, whichever way the float operations
    round, the attribution has one entry per nutrient the classifier rates
    HIGH, in classifier order.  In the entry of a nutrient, the reported
    contributors are the first five, in descending order of the reported
    contribution (recipe order among equal ones), of the recipe ingredients
    whose contribution (weight_grams / 100) * value_per_100g, rounded to 4
    decimals, is positive; the reported contribution is that value rounded
    further to 3 decimals; an ingredient with no value on record for the
    nutrient is not among them, and nothing fails. *)
Theorem attribution_top_contributors (fo : FloatOps) (r : Recipe) :
  ∃ nd attribution,
    Fp.calculate_nutrition r = Some nd
    ∧ Fp.reformulate_attribution r = Some attribution
    ∧ attribution.*1
      = fop_nutrient <$> high_nutrients_of (get_fop_indicators (new_checker r nd))
    ∧ ∀ name a, (name, a) ∈ attribution →
        reported <$> top_contributors a
        = take 5 (sort_desc snd (omap (FpSpec.reported_row name) (ingredients r)))
        ∧ StronglySorted desc_by_contribution (top_contributors a)
        ∧ (length (top_contributors a) ≤ 5)%nat
        ∧ (∀ ri, recorded_value name ri = None → FpSpec.reported_row name ri = None).
Proof.
  eexists _, _. split; [apply fp_calculate_nutrition_eq|].
  set (nd := prod_map id (FpSpec.finished r (Py.or_ (Fp.total_weight r) 1))
               <$> Fp.accumulate r).
  set (tw := Py.or_ (Fp.total_weight r) 1).
  set (highs := high_nutrients_of (get_fop_indicators (new_checker r nd))).
  assert (Hattr : Fp.reformulate_attribution r
    = Some ((λ high, (fop_nutrient high,
                      Fp.attribution_of tw (Fp.ingredient_data_of r) high))
            <$> highs)).
  { unfold Fp.reformulate_attribution. rewrite fp_calculate_nutrition_eq.
    cbn [mbind option_bind]. f_equal.
    apply (foldl_set_NoDup fop_nutrient (Fp.attribution_of tw (Fp.ingredient_data_of r))).
    apply high_nutrients_NoDup. }
  split; [exact Hattr|]. split.
  - by rewrite <- list_fmap_compose.
  - intros name a Hin.
    apply list_elem_of_fmap in Hin as (high & [= -> ->] & _).
    split; [apply fp_attribution_of_reported|]. split; [|split].
    + unfold Fp.attribution_of. cbn [top_contributors].
      apply (take_sorted contribution_abs), sort_desc_sorted.
    + unfold Fp.attribution_of. cbn [top_contributors]. rewrite length_take. lia.
    + intros ri Hnone.
      unfold FpSpec.reported_row, FpSpec.reported_abs, FpSpec.abs_contribution.
      by rewrite Hnone.
Qed.

(** C9 (amended) in double arithmetic at the seasoned salt: Sodium is the
    one HIGH nutrient; the reported contributors are salt (3875.8), then
    seasoning X (0.0025, reported 0.003), then seasoning Y (0.0021, reported
    0.002), in descending order of the reported contribution. *)
Lemma attribution_top_contributors_witness :
  ∃ a,
    Fp.reformulate_attribution (fo := binary64) Stored.seasoned_salt = Some [("Sodium", a)]
    ∧ reported <$> top_contributors a
      = [ ("Salt", Py.of_Z 10, Binary64.dbl 38758 10);
          ("Seasoning X", Py.of_Z 1, Binary64.dbl 3 1000);
          ("Seasoning Y", Py.of_Z 1, Binary64.dbl 2 1000) ]
    ∧ StronglySorted desc_by_contribution (top_contributors a).
Proof.
  destruct (attribution_top_contributors binary64 Stored.seasoned_salt)
    as (nd & attribution & _ & Hattr & _ & Hall).
  assert (E : Fp.reformulate_attribution (fo := binary64) Stored.seasoned_salt
              = Some (default [] (Fp.reformulate_attribution (fo := binary64)
                                    Stored.seasoned_salt)))
    by (vm_compute; reflexivity).
  rewrite E in Hattr. apply (inj Some) in Hattr. subst attribution.
  destruct (Py.get "Sodium" (default [] (Fp.reformulate_attribution (fo := binary64)
                                           Stored.seasoned_salt)))
    as [a|] eqn:Ea; [|vm_compute in Ea; discriminate Ea].
  assert (Hl : default [] (Fp.reformulate_attribution (fo := binary64) Stored.seasoned_salt)
               = [("Sodium", a)]).
  { vm_compute in Ea. injection Ea as <-. vm_compute. reflexivity. }
  destruct (Hall "Sodium" a) as (Hrep & Hsorted & _).
  { rewrite Hl. left. }
  exists a. split; [by rewrite E, Hl|]. split; [|exact Hsorted].
  rewrite Hrep. clear.
  assert (H3 : omap (FpSpec.reported_row (fo := binary64) "Sodium")
                 (ingredients Stored.seasoned_salt)
               = [ ("Salt", Py.of_Z 10, Binary64.dbl 38758 10);
                   ("Seasoning Y", Py.of_Z 1, Binary64.dbl 2 1000);
                   ("Seasoning X", Py.of_Z 1, Binary64.dbl 3 1000) ]).
  { cbn [omap Stored.seasoned_salt]. vm_compute.
    repeat (f_equal; try (apply Qc_is_canon; reflexivity)). }
  rewrite H3. vm_compute.
  repeat (f_equal; try (apply Qc_is_canon; reflexivity)).
Defined.

(** C9, counterexample to the literal reading, in double arithmetic: in the
    stored broth, Sodium is HIGH; the code reports Salt, Stock A, Stock B.
    Sugar has a Sodium value on record (0) and is not reported although
    fewer than five are; and Stock A is listed before Stock B although its
    contribution (1.00031) is the smaller one (1.00039), both being 1.0 once
    rounded to 3 decimals. *)
Lemma attribution_not_literal :
  ∃ a,
    Fp.reformulate_attribution (fo := binary64) Stored.broth = Some [("Sodium", a)]
    ∧ contrib_ingredient <$> top_contributors a = ["Salt"; "Stock A"; "Stock B"]
    ∧ (ingredient_name ∘ ingredient)
        <$> FpSpec.literal_top_contributors (fo := binary64) "Sodium" Stored.broth
      = ["Salt"; "Stock B"; "Stock A"; "Sugar"]
    ∧ contrib_ingredient <$> top_contributors a
      ≠ (ingredient_name ∘ ingredient)
          <$> FpSpec.literal_top_contributors (fo := binary64) "Sodium" Stored.broth.
Proof.
  eexists. split; [vm_compute; reflexivity|].
  assert (H1 : (ingredient_name ∘ ingredient)
                 <$> FpSpec.literal_top_contributors (fo := binary64) "Sodium" Stored.broth
               = ["Salt"; "Stock B"; "Stock A"; "Sugar"]) by (vm_compute; reflexivity).
  split; [reflexivity|]. split; [exact H1|]. rewrite H1. discriminate.
Qed.

(** ** The order of the ingredients, on floats *)

Section fp_order.
Context {fo : FloatOps}.

Lemma fp_get_calculate_entry (r : Recipe) (nd : list (Z * NutritionEntry)) (nid : Z)
    (e : NutritionEntry) :
  Fp.calculate_nutrition r = Some nd →
  Py.get nid nd = Some e →
  ∃ row, row ∈ rows r ∧ nutrient_id row.2 = nid ∧ entry_nutrient e = nutrient row.2
         ∧ (is_Some (percent_dv e)
            ↔ ∃ dv, daily_value (nutrient row.2) = Some dv ∧ dv ≠ 0).
Proof.
  intros Hnd Hget. apply get_Some_elem_of in Hget.
  destruct (fp_entry_of_rows r nd nid e Hnd Hget) as (row & rest & Hrows & ->).
  assert (Hin : row ∈ rows_of_nutrient nid r) by (rewrite Hrows; left).
  unfold rows_of_nutrient in Hin. apply list_elem_of_filter in Hin as [Hid Hin].
  exists row. split; [exact Hin|]. split; [exact Hid|]. split; [reflexivity|].
  cbn [FpSpec.finished percent_dv acc_nutrient].
  destruct (daily_value (nutrient row.2)) as [dv|].
  - destruct (Py.truthy dv) eqn:Edv.
    + apply truthy_true in Edv. split; eauto.
    + split; [by intros [? ?]|]. intros (dv' & [= <-] & Hne).
      apply truthy_true in Hne. congruence.
  - split; [by intros [? ?]|]. by intros (? & ? & _).
Qed.

End fp_order.

(** X12: listing the ingredients of a recipe in another order (same
    nutrient behind the same id) keeps, whichever way the float operations
    round, the nutrient ids of the result, the nutrient under each id and
    the presence of its percent-DV.  The numbers are not kept in double
    arithmetic: sums are taken in recipe order. *)
Theorem ingredient_order_shape (fo : FloatOps) (r : Recipe)
    (l' : list RecipeIngredient) (nd nd' : list (Z * NutritionEntry)) :
  consistent_nutrients r →
  l' ≡ₚ ingredients r →
  Fp.calculate_nutrition r = Some nd →
  Fp.calculate_nutrition (with_ingredients l' r) = Some nd' →
  nd'.*1 ≡ₚ nd.*1
  ∧ ∀ nid e e', Py.get nid nd = Some e → Py.get nid nd' = Some e' →
      entry_nutrient e' = entry_nutrient e
      ∧ (is_Some (percent_dv e') ↔ is_Some (percent_dv e)).
Proof.
  intros Hcons Hp Hnd Hnd'.
  pose proof (rows_Permutation r l' Hp) as Hrows. split.
  - pose proof (fp_calculate_NoDup r nd Hnd) as HN.
    pose proof (fp_calculate_NoDup _ nd' Hnd') as HN'.
    revert Hnd Hnd'. rewrite !fp_calculate_nutrition_eq. intros [= <-] [= <-].
    apply NoDup_Permutation; [done|done|].
    intros x. rewrite !keys_prod_map, !fp_keys_accumulate.
    destruct (first_occurrences_spec
                ((λ row, nutrient_id row.2) <$> rows r)) as [_ Hin].
    destruct (first_occurrences_spec
                ((λ row, nutrient_id row.2) <$> rows (with_ingredients l' r)))
      as [_ Hin'].
    rewrite Hin, Hin'. by rewrite Hrows.
  - intros nid e e' He He'.
    destruct (fp_get_calculate_entry r nd nid e Hnd He) as (row & Hrow & Hid & Hn & Hdv).
    destruct (fp_get_calculate_entry _ nd' nid e' Hnd' He')
      as (row' & Hrow' & Hid' & Hn' & Hdv').
    rewrite Hrows in Hrow'.
    assert (Hnn : nutrient row'.2 = nutrient row.2)
      by (apply Hcons; [done|done|congruence]).
    split; [congruence|]. rewrite Hdv, Hdv', Hnn. done.
Qed.

(** X12 in double arithmetic at the stew (gourd 50 g, carrot 35 g, peas
    20 g) and the same ingredients listed in reverse: Protein is the one
    nutrient of both results; its total is 1.6 in the one order and 1.61 in
    the other. *)
Lemma ingredient_order_shape_witness :
  ∃ nd nd' e e',
    Fp.calculate_nutrition (fo := binary64) Stored.stew = Some nd
    ∧ Fp.calculate_nutrition (fo := binary64)
        (with_ingredients (reverse (ingredients Stored.stew)) Stored.stew) = Some nd'
    ∧ nd'.*1 ≡ₚ nd.*1
    ∧ Py.get 3%Z nd = Some e
    ∧ Py.get 3%Z nd' = Some e'
    ∧ entry_nutrient e' = entry_nutrient e
    ∧ total_value e = Binary64.dbl 16 10
    ∧ total_value e' = Binary64.dbl 161 100.
Proof.
  assert (Hc : consistent_nutrients Stored.stew).
  { apply consistent_nutrients_Forall.
    repeat constructor; intros Hid; first [reflexivity | vm_compute in Hid; discriminate Hid]. }
  assert (H1 : Fp.calculate_nutrition (fo := binary64) Stored.stew
               = Some (default [] (Fp.calculate_nutrition (fo := binary64) Stored.stew)))
    by (vm_compute; reflexivity).
  assert (H2 : Fp.calculate_nutrition (fo := binary64)
                 (with_ingredients (reverse (ingredients Stored.stew)) Stored.stew)
               = Some (default [] (Fp.calculate_nutrition (fo := binary64)
                    (with_ingredients (reverse (ingredients Stored.stew)) Stored.stew))))
    by (vm_compute; reflexivity).
  destruct (ingredient_order_shape binary64 Stored.stew
              (reverse (ingredients Stored.stew)) _ _ Hc (reverse_Permutation _) H1 H2)
    as [Hk Hg].
  destruct (Py.get 3%Z (default [] (Fp.calculate_nutrition (fo := binary64) Stored.stew)))
    as [e|] eqn:E; [|vm_compute in E; discriminate E].
  destruct (Py.get 3%Z (default [] (Fp.calculate_nutrition (fo := binary64)
              (with_ingredients (reverse (ingredients Stored.stew)) Stored.stew))))
    as [e'|] eqn:E'; [|vm_compute in E'; discriminate E'].
  destruct (Hg 3%Z e e' E E') as [Hn _].
  eexists _, _, e, e'. split; [exact H1|]. split; [exact H2|].
  split; [exact Hk|]. split; [exact E|]. split; [exact E'|]. split; [exact Hn|].
  vm_compute in E, E'. apply (inj Some) in E, E'. subst e e'.
  split; qc_compute.
Defined.
